(** * A shallow embedding of the Chip-8 interpreter of [chip8.py]

    The interpreter is a Python class [Chip8CPU] whose state is a handful of
    mutable attributes, and one small class per instruction whose [execute]
    method mutates the CPU it was built with.  Python integers are unbounded,
    so every register, address and pixel is a [Z]; Python lists are [list]s
    indexed the way Python indexes them (negative indices count from the
    end, a bad index raises [IndexError], slices are clipped).  Mutation and
    exceptions are modelled by a state-and-exception monad over the record of
    the CPU's attributes. *)

From Stdlib Require Import ZArith Lia Bool.
From stdpp Require Import base tactics option list list_numbers numbers.

Local Open Scope Z_scope.

(** ** Python lists *)

Section py_list.
Context {A : Type}.

(** The position a Python index denotes in a list of [len] elements. *)
Definition py_index (len : nat) (i : Z) : option nat :=
  if (0 <=? i) && (i <? Z.of_nat len) then Some (Z.to_nat i)
  else if (- Z.of_nat len <=? i) && (i <? 0) then Some (Z.to_nat (Z.of_nat len + i))
  else None.

(** [l[i]] *)
Definition py_getitem (l : list A) (i : Z) : option A :=
  match py_index (length l) i with
  | Some k => l !! k
  | None => None
  end.

(** [l[i] = v] *)
Definition py_setitem (l : list A) (i : Z) (v : A) : option (list A) :=
  match py_index (length l) i with
  | Some k => Some (<[k := v]> l)
  | None => None
  end.

(** How a slice bound is clipped to a list of [len] elements. *)
Definition py_clip (len : nat) (i : Z) : nat :=
  if i <? 0 then Z.to_nat (Z.max 0 (Z.of_nat len + i))
  else Z.to_nat (Z.min i (Z.of_nat len)).

(** [l[a:b]] *)
Definition py_getslice (l : list A) (a b : Z) : list A :=
  let lo := py_clip (length l) a in
  let hi := Nat.max lo (py_clip (length l) b) in
  take (hi - lo)%nat (drop lo l).

(** [l[a:b] = new] *)
Definition py_setslice (l : list A) (a b : Z) (new : list A) : list A :=
  let lo := py_clip (length l) a in
  let hi := Nat.max lo (py_clip (length l) b) in
  take lo l ++ new ++ drop hi l.
End py_list.

(** [range(a, b)] *)
Definition range (a b : Z) : list Z := seqZ a (b - a).

(** ** The state *)

(** The attributes of a [Chip8CPU].  The two instruction objects [OPFX15]
    and [OPFX18] of its opcode table assign to an attribute of their own
    ([self.delay_timer], [self.sound_timer]); these are the last two object
    attributes below, absent until first assigned.  [entropy] is the tape
    the calls of [random.randint] draw from. *)
Record Chip8CPU := mkCPU {
  memory : list Z;
  program_counter : Z;
  stack : list Z;
  v_registers : list Z;
  i_register : Z;
  delay_timer : Z;
  sound_timer : Z;
  inputs : list Z;
  screen : list (list Z);
  OPFX15_delay_timer : option Z;
  OPFX18_sound_timer : option Z;
  entropy : list Z
}.

Definition START_ADDRESS : Z := 0x200.
Definition SCREEN_WIDTH : Z := 64.
Definition SCREEN_HEIGHT : Z := 32.

Definition with_memory (m : list Z) (s : Chip8CPU) : Chip8CPU :=
  mkCPU m (program_counter s) (stack s) (v_registers s) (i_register s)
        (delay_timer s) (sound_timer s) (inputs s) (screen s)
        (OPFX15_delay_timer s) (OPFX18_sound_timer s) (entropy s).
Definition with_program_counter (pc : Z) (s : Chip8CPU) : Chip8CPU :=
  mkCPU (memory s) pc (stack s) (v_registers s) (i_register s)
        (delay_timer s) (sound_timer s) (inputs s) (screen s)
        (OPFX15_delay_timer s) (OPFX18_sound_timer s) (entropy s).
Definition with_stack (st : list Z) (s : Chip8CPU) : Chip8CPU :=
  mkCPU (memory s) (program_counter s) st (v_registers s) (i_register s)
        (delay_timer s) (sound_timer s) (inputs s) (screen s)
        (OPFX15_delay_timer s) (OPFX18_sound_timer s) (entropy s).
Definition with_v_registers (v : list Z) (s : Chip8CPU) : Chip8CPU :=
  mkCPU (memory s) (program_counter s) (stack s) v (i_register s)
        (delay_timer s) (sound_timer s) (inputs s) (screen s)
        (OPFX15_delay_timer s) (OPFX18_sound_timer s) (entropy s).
Definition with_i_register (i : Z) (s : Chip8CPU) : Chip8CPU :=
  mkCPU (memory s) (program_counter s) (stack s) (v_registers s) i
        (delay_timer s) (sound_timer s) (inputs s) (screen s)
        (OPFX15_delay_timer s) (OPFX18_sound_timer s) (entropy s).
Definition with_delay_timer (t : Z) (s : Chip8CPU) : Chip8CPU :=
  mkCPU (memory s) (program_counter s) (stack s) (v_registers s) (i_register s)
        t (sound_timer s) (inputs s) (screen s)
        (OPFX15_delay_timer s) (OPFX18_sound_timer s) (entropy s).
Definition with_sound_timer (t : Z) (s : Chip8CPU) : Chip8CPU :=
  mkCPU (memory s) (program_counter s) (stack s) (v_registers s) (i_register s)
        (delay_timer s) t (inputs s) (screen s)
        (OPFX15_delay_timer s) (OPFX18_sound_timer s) (entropy s).
Definition with_inputs (inp : list Z) (s : Chip8CPU) : Chip8CPU :=
  mkCPU (memory s) (program_counter s) (stack s) (v_registers s) (i_register s)
        (delay_timer s) (sound_timer s) inp (screen s)
        (OPFX15_delay_timer s) (OPFX18_sound_timer s) (entropy s).
Definition with_screen (scr : list (list Z)) (s : Chip8CPU) : Chip8CPU :=
  mkCPU (memory s) (program_counter s) (stack s) (v_registers s) (i_register s)
        (delay_timer s) (sound_timer s) (inputs s) scr
        (OPFX15_delay_timer s) (OPFX18_sound_timer s) (entropy s).
Definition with_OPFX15_delay_timer (t : option Z) (s : Chip8CPU) : Chip8CPU :=
  mkCPU (memory s) (program_counter s) (stack s) (v_registers s) (i_register s)
        (delay_timer s) (sound_timer s) (inputs s) (screen s)
        t (OPFX18_sound_timer s) (entropy s).
Definition with_OPFX18_sound_timer (t : option Z) (s : Chip8CPU) : Chip8CPU :=
  mkCPU (memory s) (program_counter s) (stack s) (v_registers s) (i_register s)
        (delay_timer s) (sound_timer s) (inputs s) (screen s)
        (OPFX15_delay_timer s) t (entropy s).
Definition with_entropy (e : list Z) (s : Chip8CPU) : Chip8CPU :=
  mkCPU (memory s) (program_counter s) (stack s) (v_registers s) (i_register s)
        (delay_timer s) (sound_timer s) (inputs s) (screen s)
        (OPFX15_delay_timer s) (OPFX18_sound_timer s) e.

(** ** Exceptions and the monad of methods *)

Inductive exception :=
| IndexError        (* list index out of range, pop from empty list *)
| AttributeError    (* 'NoneType' object has no attribute 'execute' *)
| OverflowError.    (* integer division result too large for a float *)

(** A method call either returns a value or raises; both ways the
    mutations made so far stay. *)
Inductive outcome (A : Type) :=
| Ok (a : A) (s : Chip8CPU)
| Raise (e : exception) (s : Chip8CPU).
Arguments Ok {A} a s.
Arguments Raise {A} e s.

Definition M (A : Type) : Type := Chip8CPU -> outcome A.

Definition ret {A} (a : A) : M A := fun s => Ok a s.
Definition bind {A B} (m : M A) (f : A -> M B) : M B :=
  fun s => match m s with
           | Ok a s' => f a s'
           | Raise e s' => Raise e s'
           end.
Definition raise {A} (e : exception) : M A := fun s => Raise e s.
Definition gets {A} (f : Chip8CPU -> A) : M A := fun s => Ok (f s) s.
Definition modify (f : Chip8CPU -> Chip8CPU) : M unit := fun s => Ok tt (f s).

Notation "x <- c1 ;; c2" := (bind c1 (fun x => c2))
  (at level 100, c1 at next level, right associativity).
Notation "c1 ;; c2" := (bind c1 (fun _ => c2))
  (at level 100, right associativity).

(** [for x in xs: body], with the loop's local variables threaded as [l]. *)
Fixpoint for_loop {A L} (xs : list A) (body : A -> L -> M L) (l : L) : M L :=
  match xs with
  | [] => ret l
  | x :: xs' => l' <- body x l ;; for_loop xs' body l'
  end.

Definition lift_index {A} (o : option A) : M A :=
  match o with
  | Some a => ret a
  | None => raise IndexError
  end.

(** ** Attribute access of the CPU *)

(** [self.cpu.v_registers[x]] *)
Definition get_v (x : Z) : M Z :=
  v <- gets v_registers ;; lift_index (py_getitem v x).
(** [self.cpu.v_registers[x] = val] *)
Definition set_v (x val : Z) : M unit :=
  v <- gets v_registers ;;
  v' <- lift_index (py_setitem v x val) ;;
  modify (with_v_registers v').
(** [self.cpu.memory[a]] *)
Definition get_mem (a : Z) : M Z :=
  m <- gets memory ;; lift_index (py_getitem m a).
(** [self.cpu.memory[a] = val] *)
Definition set_mem (a val : Z) : M unit :=
  m <- gets memory ;;
  m' <- lift_index (py_setitem m a val) ;;
  modify (with_memory m').

(** [random.randint(lo, hi)] *)
Definition randint (lo hi : Z) : M Z :=
  e <- gets entropy ;;
  match e with
  | [] => ret lo
  | r :: e' => modify (with_entropy e') ;; ret (lo + r mod (hi - lo + 1))
  end.

(** [[[0 for x in range(SCREEN_WIDTH)] for y in range(SCREEN_HEIGHT)]] *)
Definition blank_screen : list (list Z) :=
  (fun _ => (fun _ => 0) <$> range 0 SCREEN_WIDTH) <$> range 0 SCREEN_HEIGHT.

Definition reset_screen : M unit :=
  modify (with_screen blank_screen).

(** [self.screen[y][x] = value] *)
Definition set_pixel (x y value : Z) : M unit :=
  scr <- gets screen ;;
  row <- lift_index (py_getitem scr y) ;;
  row' <- lift_index (py_setitem row x value) ;;
  scr' <- lift_index (py_setitem scr y row') ;;
  modify (with_screen scr').

(** [self.screen[y][x]] *)
Definition get_pixel (x y : Z) : M Z :=
  scr <- gets screen ;;
  row <- lift_index (py_getitem scr y) ;;
  lift_index (py_getitem row x).

(** ** The instructions

    One definition per instruction class: its [execute] method. *)

Inductive Instruction :=
| OP0NNN | OP00E0 | OP00EE | OP1NNN | OP2NNN | OP3XNN | OP4XNN | OP5XY0
| OP6XNN | OP7XNN | OP8XY0 | OP8XY1 | OP8XY2 | OP8XY3 | OP8XY4 | OP8XY5
| OP8XY6 | OP8XY7 | OP8XYE | OP9XY0 | OPANNN | OPBNNN | OPCXNN | OPDXYN
| OPEX9E | OPEXA1 | OPFX07 | OPFX0A | OPFX15 | OPFX18 | OPFX1E | OPFX29
| OPFX33 | OPFX55 | OPFX65.

(** Calls RCA 1802 program at address NNN. *)
Definition OP0NNN_execute (opcode : Z) : M unit := ret tt.

(** Clears the screen. *)
Definition OP00E0_execute (opcode : Z) : M unit := reset_screen.

(** Returns from a subroutine. *)
Definition OP00EE_execute (opcode : Z) : M unit :=
  st <- gets stack ;;
  top <- lift_index (py_getitem st (-1)) ;;
  modify (with_stack (take (length st - 1)%nat st)) ;;
  modify (with_program_counter top).

(** Jumps to address NNN. *)
Definition OP1NNN_execute (opcode : Z) : M unit :=
  let nnn := Z.land opcode 0x0fff in
  modify (with_program_counter nnn) ;;
  pc <- gets program_counter ;;
  modify (with_program_counter (pc - 2)).

(** Calls subroutine at NNN. *)
Definition OP2NNN_execute (opcode : Z) : M unit :=
  let nnn := Z.land opcode 0x0fff in
  pc <- gets program_counter ;;
  st <- gets stack ;;
  modify (with_stack (st ++ [pc])) ;;
  modify (with_program_counter nnn) ;;
  pc <- gets program_counter ;;
  modify (with_program_counter (pc - 2)).

(** [self.cpu.program_counter += 2] *)
Definition skip_next : M unit :=
  pc <- gets program_counter ;;
  modify (with_program_counter (pc + 2)).

(** Skips the next instruction if VX equals NN. *)
Definition OP3XNN_execute (opcode : Z) : M unit :=
  let x := Z.land opcode 0x0f00 ≫ 8 in
  let nn := Z.land opcode 0x00ff in
  vx <- get_v x ;;
  if vx =? nn then skip_next else ret tt.

(** Skips the next instruction if VX doesn't equal NN. *)
Definition OP4XNN_execute (opcode : Z) : M unit :=
  let x := Z.land opcode 0x0f00 ≫ 8 in
  let nn := Z.land opcode 0x00ff in
  vx <- get_v x ;;
  if negb (vx =? nn) then skip_next else ret tt.

(** Skips the next instruction if VX equals VY. *)
Definition OP5XY0_execute (opcode : Z) : M unit :=
  let x := Z.land opcode 0x0f00 ≫ 8 in
  let y := Z.land opcode 0x00f0 ≫ 4 in
  vx <- get_v x ;;
  vy <- get_v y ;;
  if vx =? vy then skip_next else ret tt.

(** Sets VX to NN. *)
Definition OP6XNN_execute (opcode : Z) : M unit :=
  let x := Z.land opcode 0x0f00 ≫ 8 in
  let nn := Z.land opcode 0x00ff in
  set_v x nn.

(** Adds NN to VX. *)
Definition OP7XNN_execute (opcode : Z) : M unit :=
  let x := Z.land opcode 0x0f00 ≫ 8 in
  let nn := Z.land opcode 0x00ff in
  vx <- get_v x ;;
  set_v x (vx + nn).

(** Sets VX to the value of VY. *)
Definition OP8XY0_execute (opcode : Z) : M unit :=
  let x := Z.land opcode 0x0f00 ≫ 8 in
  let y := Z.land opcode 0x00f0 ≫ 4 in
  vy <- get_v y ;;
  set_v x vy.

(** Sets VX to VX or VY. *)
Definition OP8XY1_execute (opcode : Z) : M unit :=
  let x := Z.land opcode 0x0f00 ≫ 8 in
  let y := Z.land opcode 0x00f0 ≫ 4 in
  vx <- get_v x ;;
  vy <- get_v y ;;
  set_v x (Z.lor vx vy).

(** Sets VX to VX and VY. *)
Definition OP8XY2_execute (opcode : Z) : M unit :=
  let x := Z.land opcode 0x0f00 ≫ 8 in
  let y := Z.land opcode 0x00f0 ≫ 4 in
  vx <- get_v x ;;
  vy <- get_v y ;;
  set_v x (Z.land vx vy).

(** Sets VX to VX xor VY. *)
Definition OP8XY3_execute (opcode : Z) : M unit :=
  let x := Z.land opcode 0x0f00 ≫ 8 in
  let y := Z.land opcode 0x00f0 ≫ 4 in
  vx <- get_v x ;;
  vy <- get_v y ;;
  set_v x (Z.lxor vx vy).

(** Adds VY to VX. VF is set to 1 when there's a carry,
    and to 0 when there isn't. *)
Definition OP8XY4_execute (opcode : Z) : M unit :=
  let x := Z.land opcode 0x0f00 ≫ 8 in
  let y := Z.land opcode 0x00f0 ≫ 4 in
  vx <- get_v x ;;
  vy <- get_v y ;;
  let result := vx + vy in
  let carry := if result >? 0xff then 1 else 0 in
  set_v x (result mod 0xff) ;;
  set_v 0xf carry.

(** VY is subtracted from VX.  VF is set to 0 when there's a borrow,
    and 1 when there isn't. *)
Definition OP8XY5_execute (opcode : Z) : M unit :=
  let x := Z.land opcode 0x0f00 ≫ 8 in
  let y := Z.land opcode 0x00f0 ≫ 4 in
  vx <- get_v x ;;
  vy <- get_v y ;;
  let result := vx - vy in
  let '(borrow, result) :=
    if result <? 0 then (1, result + 0xff) else (0, result) in
  set_v x result ;;
  set_v 0xf (1 - borrow).

(** Shifts VX right by one.  VF is set to the value of the
    least significant bit of VX before the shift. *)
Definition OP8XY6_execute (opcode : Z) : M unit :=
  let x := Z.land opcode 0x0f00 ≫ 8 in
  let y := Z.land opcode 0x00f0 ≫ 4 in
  vx <- get_v x ;;
  let lsb := Z.land vx 1 in
  set_v 0xf lsb ;;
  set_v x (vx ≫ 1).

(** Sets VX to VY minus VX.  VF is set to 0 when there's a borrow,
    and 1 when there isn't. *)
Definition OP8XY7_execute (opcode : Z) : M unit :=
  let x := Z.land opcode 0x0f00 ≫ 8 in
  let y := Z.land opcode 0x00f0 ≫ 4 in
  vx <- get_v x ;;
  vy <- get_v y ;;
  let result := vy - vx in
  let '(borrow, result) :=
    if result <? 0 then (1, result + 0xff) else (0, result) in
  set_v x result ;;
  set_v 0xf (1 - borrow).

(** Shifts VX left by one.  VF is set to the value of the
    most significant bit of VX before the shift. *)
Definition OP8XYE_execute (opcode : Z) : M unit :=
  let x := Z.land opcode 0x0f00 ≫ 8 in
  let y := Z.land opcode 0x00f0 ≫ 4 in
  vx <- get_v x ;;
  let msb := vx ≫ 7 in
  set_v 0xf msb ;;
  set_v x (vx ≪ 1).

(** Skips the next instruction if VX doesn't equal VY. *)
Definition OP9XY0_execute (opcode : Z) : M unit :=
  let x := Z.land opcode 0x0f00 ≫ 8 in
  let y := Z.land opcode 0x00f0 ≫ 4 in
  vx <- get_v x ;;
  vy <- get_v y ;;
  if negb (vx =? vy) then skip_next else ret tt.

(** Sets I to the address NNN. *)
Definition OPANNN_execute (opcode : Z) : M unit :=
  let nnn := Z.land opcode 0x0fff in
  modify (with_i_register nnn).

(** Jumps to the address NNN plus V0. *)
Definition OPBNNN_execute (opcode : Z) : M unit :=
  let nnn := Z.land opcode 0x0fff in
  v0 <- get_v 0 ;;
  modify (with_program_counter (nnn + v0)) ;;
  pc <- gets program_counter ;;
  modify (with_program_counter (pc - 2)).

(** Sets VX to a random number and NN. *)
Definition OPCXNN_execute (opcode : Z) : M unit :=
  let x := Z.land opcode 0x0f00 ≫ 8 in
  let nn := Z.land opcode 0x00ff in
  rnd <- randint 0 255 ;;
  set_v x (Z.land rnd nn).

(** [0 if (sprite_row & (1 << (7 - x_offset))) == 0 else 1] *)
Definition sprite_bit (sprite_row x_offset : Z) : Z :=
  if Z.land sprite_row (1 ≪ (7 - x_offset)) =? 0 then 0 else 1.

(** The body of the inner loop of [OPDXYN.execute]: one pixel of a sprite
    row.  The loop's local variables are [yc], which the body reduces in
    place, and [x_offset]. *)
Definition draw_pixel (sprite_row : Z) (xc : Z) (loc : Z * Z) : M (Z * Z) :=
  let '(yc, x_offset) := loc in
  let xc := xc mod SCREEN_WIDTH in
  let yc := yc mod SCREEN_HEIGHT in
  current_pixel <- get_pixel xc yc ;;
  let sprite_pixel := sprite_bit sprite_row x_offset in
  let new_pixel := Z.lxor current_pixel sprite_pixel in
  let x_offset := x_offset + 1 in
  (if (current_pixel =? 1) && (sprite_pixel =? 1) then set_v 0xf 1 else ret tt) ;;
  set_pixel xc yc new_pixel ;;
  ret (yc, x_offset).

(** The body of the outer loop: one sprite row; [y_offset] is the loop's
    local variable. *)
Definition draw_row (vx i : Z) (yc : Z) (y_offset : Z) : M Z :=
  sprite_row <- get_mem (i + y_offset) ;;
  let y_offset := y_offset + 1 in
  let x_offset := 0 in
  for_loop (range vx (vx + 8)) (draw_pixel sprite_row) (yc, x_offset) ;;
  ret y_offset.

(** Draw a sprite at position VX, VY with N bytes of sprite data starting
    at the address stored in I.  Wraps around the screen.  Set VF to 01 if
    any set pixels are changed to unset, and 00 otherwise. *)
Definition OPDXYN_execute (opcode : Z) : M unit :=
  let x := Z.land opcode 0x0f00 ≫ 8 in
  let y := Z.land opcode 0x00f0 ≫ 4 in
  let n := Z.land opcode 0x000f in
  vx <- get_v x ;;
  vy <- get_v y ;;
  i <- gets i_register ;;
  set_v 0xf 0 ;;
  let y_offset := 0 in
  for_loop (range vy (vy + n)) (draw_row vx i) y_offset ;;
  ret tt.

(** Skips the next instruction if the key stored in VX is pressed. *)
Definition OPEX9E_execute (opcode : Z) : M unit :=
  let x := Z.land opcode 0x0f00 ≫ 8 in
  vx <- get_v x ;;
  inp <- gets inputs ;;
  key <- lift_index (py_getitem inp vx) ;;
  if key =? 1 then skip_next else ret tt.

(** Skips the next instruction if the key stored in VX isn't pressed. *)
Definition OPEXA1_execute (opcode : Z) : M unit :=
  let x := Z.land opcode 0x0f00 ≫ 8 in
  vx <- get_v x ;;
  inp <- gets inputs ;;
  key <- lift_index (py_getitem inp vx) ;;
  if key =? 0 then skip_next else ret tt.

(** Sets VX to the value of the delay timer. *)
Definition OPFX07_execute (opcode : Z) : M unit :=
  let x := Z.land opcode 0x0f00 ≫ 8 in
  dt <- gets delay_timer ;;
  set_v x dt.

(** A key press is awaited, and then stored in VX. *)
Definition OPFX0A_execute (opcode : Z) : M unit :=
  let x := Z.land opcode 0x0f00 ≫ 8 in
  rnd <- randint 0 15 ;;
  set_v x rnd.

(** Sets the delay timer to VX.  The assignment is to [self.delay_timer],
    an attribute of the instruction object. *)
Definition OPFX15_execute (opcode : Z) : M unit :=
  let x := Z.land opcode 0x0f00 ≫ 8 in
  vx <- get_v x ;;
  modify (with_OPFX15_delay_timer (Some vx)).

(** Sets the sound timer to VX.  The assignment is to [self.sound_timer],
    an attribute of the instruction object. *)
Definition OPFX18_execute (opcode : Z) : M unit :=
  let x := Z.land opcode 0x0f00 ≫ 8 in
  vx <- get_v x ;;
  modify (with_OPFX18_sound_timer (Some vx)).

(** Adds VX to I. *)
Definition OPFX1E_execute (opcode : Z) : M unit :=
  let x := Z.land opcode 0x0f00 ≫ 8 in
  vx <- get_v x ;;
  i <- gets i_register ;;
  let result := i + vx in
  set_v 0xf (if result >? 0xfff then 1 else 0) ;;
  modify (with_i_register (result mod 0xfff)).

(** Sets I to the location of the sprite for the character in VX. *)
Definition OPFX29_execute (opcode : Z) : M unit :=
  let x := Z.land opcode 0x0f00 ≫ 8 in
  vx <- get_v x ;;
  modify (with_i_register (vx * 5)).

(** The quotient [num / den] of positive integers rounded to the nearest
    integer, a tie going to the even one. *)
Definition round_half_even (num den : Z) : Z :=
  let q := num / den in
  let r := num mod den in
  if 2 * r <? den then q
  else if den <? 2 * r then q + 1
  else if Z.even q then q else q + 1.

(** The exponent [e] of the quotient of positive integers:
    [2^e <= n / b < 2^(e + 1)]. *)
Definition float_exponent (n b : Z) : Z :=
  let e := Z.log2 n - Z.log2 b in
  if (if 0 <=? e then b * 2 ^ e <=? n else b <=? n * 2 ^ (- e))
  then e else e - 1.

(** [math.floor(a / b)] for integers [a] and [b > 0].  Python divides two
    integers into the float nearest to their quotient (53 significant
    bits, ties to even), which is [m * 2^(e - 52)] below, and raises
    [OverflowError] when that is 2^1024 or more; [math.floor] then gives
    the integer below the float.  [None] is the [OverflowError].  A
    quotient under 1 in size floors to 0 or -1 by its sign, unless it
    rounds up to 1.0 or down to 0.0. *)
Definition true_div_floor (a b : Z) : option Z :=
  if a =? 0 then Some 0
  else
    let n := Z.abs a in
    let e := float_exponent n b in
    let m := if e <=? 52 then round_half_even (n * 2 ^ (52 - e)) b
             else round_half_even n (b * 2 ^ (e - 52)) in
    if e <? 0 then
      if 0 <? a then Some (if (e =? -1) && (m =? 2 ^ 53) then 1 else 0)
      else Some (if n * 2 ^ 1075 <=? b then 0 else -1)
    else if (1024 <=? e) || ((e =? 1023) && (m =? 2 ^ 53)) then None
    else if e <? 52 then Some ((Z.sgn a * m) / 2 ^ (52 - e))
    else Some (Z.sgn a * m * 2 ^ (e - 52)).

(** [math.floor(a / b)] *)
Definition floor_div (a b : Z) : M Z :=
  match true_div_floor a b with
  | Some q => ret q
  | None => raise OverflowError
  end.

(** Stores the binary-coded decimal representation of VX at I, I+1, I+2. *)
Definition OPFX33_execute (opcode : Z) : M unit :=
  let x := Z.land opcode 0x0f00 ≫ 8 in
  vx <- get_v x ;;
  hundreds <- floor_div vx 100 ;;
  let vx := vx - hundreds * 100 in
  tens <- floor_div vx 10 ;;
  let vx := vx - tens * 10 in
  let units := vx in
  i <- gets i_register ;;
  set_mem i hundreds ;;
  set_mem (i + 1) tens ;;
  set_mem (i + 2) units.

(** Stores V0 to VX in memory starting at address I. *)
Definition OPFX55_execute (opcode : Z) : M unit :=
  let x := Z.land opcode 0x0f00 ≫ 8 in
  i <- gets i_register ;;
  v <- gets v_registers ;;
  m <- gets memory ;;
  modify (with_memory (py_setslice m i (i + x + 1) (py_getslice v 0 (x + 1)))).

(** Fills V0 to VX with values from memory starting at address I. *)
Definition OPFX65_execute (opcode : Z) : M unit :=
  let x := Z.land opcode 0x0f00 ≫ 8 in
  i <- gets i_register ;;
  m <- gets memory ;;
  v <- gets v_registers ;;
  modify (with_v_registers (py_setslice v 0 (x + 1) (py_getslice m i (i + x + 1)))).

(** [instruction.execute(opcode)], dispatched on the instruction's class. *)
Definition Instruction_execute (instruction : Instruction) : Z -> M unit :=
  match instruction with
  | OP0NNN => OP0NNN_execute | OP00E0 => OP00E0_execute
  | OP00EE => OP00EE_execute | OP1NNN => OP1NNN_execute
  | OP2NNN => OP2NNN_execute | OP3XNN => OP3XNN_execute
  | OP4XNN => OP4XNN_execute | OP5XY0 => OP5XY0_execute
  | OP6XNN => OP6XNN_execute | OP7XNN => OP7XNN_execute
  | OP8XY0 => OP8XY0_execute | OP8XY1 => OP8XY1_execute
  | OP8XY2 => OP8XY2_execute | OP8XY3 => OP8XY3_execute
  | OP8XY4 => OP8XY4_execute | OP8XY5 => OP8XY5_execute
  | OP8XY6 => OP8XY6_execute | OP8XY7 => OP8XY7_execute
  | OP8XYE => OP8XYE_execute | OP9XY0 => OP9XY0_execute
  | OPANNN => OPANNN_execute | OPBNNN => OPBNNN_execute
  | OPCXNN => OPCXNN_execute | OPDXYN => OPDXYN_execute
  | OPEX9E => OPEX9E_execute | OPEXA1 => OPEXA1_execute
  | OPFX07 => OPFX07_execute | OPFX0A => OPFX0A_execute
  | OPFX15 => OPFX15_execute | OPFX18 => OPFX18_execute
  | OPFX1E => OPFX1E_execute | OPFX29 => OPFX29_execute
  | OPFX33 => OPFX33_execute | OPFX55 => OPFX55_execute
  | OPFX65 => OPFX65_execute
  end.

(** ** The CPU *)

Definition opcode_table : list (Z * Z * Instruction) :=
  [ (* mask, expected result, instruction *)
    (0xf000, 0x0fff, OP0NNN);
    (0xffff, 0x00e0, OP00E0);
    (0xffff, 0x00ee, OP00EE);
    (0xf000, 0x1000, OP1NNN);
    (0xf000, 0x2000, OP2NNN);
    (0xf000, 0x3000, OP3XNN);
    (0xf000, 0x4000, OP4XNN);
    (0xf00f, 0x5000, OP5XY0);
    (0xf000, 0x6000, OP6XNN);
    (0xf000, 0x7000, OP7XNN);
    (0xf00f, 0x8000, OP8XY0);
    (0xf00f, 0x8001, OP8XY1);
    (0xf00f, 0x8002, OP8XY2);
    (0xf00f, 0x8003, OP8XY3);
    (0xf00f, 0x8004, OP8XY4);
    (0xf00f, 0x8005, OP8XY5);
    (0xf00f, 0x8006, OP8XY6);
    (0xf00f, 0x8007, OP8XY7);
    (0xf00f, 0x800e, OP8XYE);
    (0xf00f, 0x9000, OP9XY0);
    (0xf000, 0xa000, OPANNN);
    (0xf000, 0xb000, OPBNNN);
    (0xf000, 0xc000, OPCXNN);
    (0xf000, 0xd000, OPDXYN);
    (0xf0ff, 0xe09e, OPEX9E);
    (0xf0ff, 0xe0a1, OPEXA1);
    (0xf0ff, 0xf007, OPFX07);
    (0xf0ff, 0xf00a, OPFX0A);
    (0xf0ff, 0xf015, OPFX15);
    (0xf0ff, 0xf018, OPFX18);
    (0xf0ff, 0xf01e, OPFX1E);
    (0xf0ff, 0xf029, OPFX29);
    (0xf0ff, 0xf033, OPFX33);
    (0xf0ff, 0xf055, OPFX55);
    (0xf0ff, 0xf065, OPFX65) ].

Definition character_sprites : list Z :=
  [ 0xf0; 0x90; 0x90; 0x90; 0xf0;
    0x20; 0x60; 0x20; 0x20; 0x70;
    0xf0; 0x10; 0xf0; 0x80; 0xf0;
    0xf0; 0x10; 0xf0; 0x10; 0xf0;
    0x90; 0x90; 0xf0; 0x10; 0x10;
    0xf0; 0x80; 0xf0; 0x10; 0xf0;
    0xf0; 0x80; 0xf0; 0x90; 0xf0;
    0xf0; 0x10; 0x20; 0x40; 0x40;
    0xf0; 0x90; 0xf0; 0x90; 0xf0;
    0xf0; 0x90; 0xf0; 0x10; 0xf0;
    0xf0; 0x90; 0xf0; 0x90; 0x90;
    0xe0; 0x90; 0xe0; 0x90; 0xe0;
    0xf0; 0x80; 0x80; 0x80; 0xf0;
    0xe0; 0x90; 0x90; 0x90; 0xe0;
    0xf0; 0x80; 0xf0; 0x80; 0xf0;
    0xf0; 0x80; 0xf0; 0x80; 0x80 ].

Definition init_character_sprites : M unit :=
  m <- gets memory ;;
  modify (with_memory (py_setslice m 0 80 character_sprites)).

Definition reset_cpu : M unit :=
  modify (with_memory ((fun _ => 0) <$> range 0 4096)) ;;
  modify (with_program_counter START_ADDRESS) ;;
  modify (with_stack []) ;;
  modify (with_v_registers ((fun _ => 0) <$> range 0 16)) ;;
  modify (with_i_register 0) ;;
  modify (with_delay_timer 0) ;;
  modify (with_sound_timer 0) ;;
  modify (with_inputs ((fun _ => 0) <$> range 0 16)) ;;
  reset_screen ;;
  init_character_sprites.

(** [Chip8CPU(stdscr)]: a fresh CPU, reset, with fresh instruction objects
    in its opcode table; [tape] is what [random.randint] will return. *)
Definition blank (tape : list Z) : Chip8CPU :=
  mkCPU [] 0 [] [] 0 0 0 [] [] None None tape.

Definition Chip8CPU_init (tape : list Z) : outcome unit :=
  reset_cpu (blank tape).

Definition update_timers : M unit :=
  dt <- gets delay_timer ;;
  (if dt >? 0 then modify (with_delay_timer (dt - 1)) else ret tt) ;;
  st <- gets sound_timer ;;
  (if st >? 0 then modify (with_sound_timer (st - 1)) else ret tt).

(** The loop of [load_rom] over the bytes read from the file; [i] is its
    local variable. *)
Definition load_rom (rom : list Z) : M unit :=
  let i := START_ADDRESS in
  for_loop rom (fun byte i => set_mem i byte ;; ret (i + 1)) i ;;
  ret tt.

(** Fetches the next opcode from memory and returns it. *)
Definition fetch : M Z :=
  pc <- gets program_counter ;;
  hi <- get_mem pc ;;
  lo <- get_mem (pc + 1) ;;
  let opcode := (hi ≪ 8) + lo in
  ret opcode.

(** Decodes the opcode and returns the instruction to be executed; the
    loop over a table, which falls through to [None]. *)
Fixpoint decode_in (table : list (Z * Z * Instruction)) (opcode : Z)
  : option Instruction :=
  match table with
  | [] => None
  | (mask, result, instruction) :: table' =>
      if Z.land opcode mask =? result then Some instruction
      else decode_in table' opcode
  end.

Definition decode (opcode : Z) : M (option Instruction) :=
  ret (decode_in opcode_table opcode).

(** Executes instruction. *)
Definition execute (instruction : option Instruction) (opcode : Z) : M unit :=
  match instruction with
  | Some ins => Instruction_execute ins opcode
  | None => raise AttributeError
  end.

Definition update_pc : M unit :=
  pc <- gets program_counter ;;
  modify (with_program_counter (pc + 2)).

Definition cycle : M unit :=
  opcode <- fetch ;;
  instruction <- decode opcode ;;
  execute instruction opcode ;;
  update_pc.

(** [n] cycles in a row, as the burst of [start] runs them. *)
Fixpoint cycles (n : nat) : M unit :=
  match n with
  | O => ret tt
  | S n' => cycle ;; cycles n'
  end.

(** One frame of [start]: four cycles, then the timers tick (drawing and
    sleeping change nothing of the CPU). *)
Definition frame : M unit :=
  cycles 4 ;; update_timers.

(** ** Reading a state *)

(** The value of register [x], of memory cell [a] and of pixel [(x, y)],
    as the Python expressions [v_registers[x]], [memory[a]] and
    [screen[y][x]] give them; [0] stands for a raised [IndexError]. *)
Definition reg (s : Chip8CPU) (x : Z) : Z :=
  default 0 (py_getitem (v_registers s) x).
Definition byte_at (s : Chip8CPU) (a : Z) : Z :=
  default 0 (py_getitem (memory s) a).
Definition pixel_of (scr : list (list Z)) (x y : Z) : Z :=
  default 0 (row ← py_getitem scr y; py_getitem row x).
Definition pixel (s : Chip8CPU) (x y : Z) : Z := pixel_of (screen s) x y.

(** A screen of 32 rows of 64 pixels. *)
Definition screen_sized (scr : list (list Z)) : Prop :=
  length scr = 32%nat /\ Forall (fun row => length row = 64%nat) scr.

(** A state built by running a ROM from a fresh CPU. *)
Definition boot (rom : list Z) : M unit :=
  reset_cpu ;; load_rom rom.

Definition state_of {A} (o : outcome A) : Chip8CPU :=
  match o with Ok _ s => s | Raise _ s => s end.


(** [n] timer ticks in a row. *)
Fixpoint ticks (n : nat) : M unit :=
  match n with
  | O => ret tt
  | S n' => update_timers ;; ticks n'
  end.

(** The CPU after [Chip8CPU(stdscr)] and [load_rom] of the bytes [rom]. *)
Definition booted (rom : list Z) : Chip8CPU := state_of (boot rom (blank [])).

(** The states a draw started in [s0] goes through: [s0] with the flag [f]
    in VF and the screen [scr]. *)
Definition drawing (s0 : Chip8CPU) (f : bool) (scr : list (list Z)) : Chip8CPU :=
  with_screen scr
    (with_v_registers (<[15%nat := Z.b2z f]> (v_registers s0)) s0).


(** ** Further definitions: the decode table *)

(** [(opcode & mask) == result], the test of [decode] on one table entry. *)
Definition entry_matches (opcode : Z) (e : Z * Z * Instruction) : bool :=
  Z.land opcode (fst (fst e)) =? snd (fst e).

Definition Instruction_eq_dec (a b : Instruction) : {a = b} + {a <> b}.
Proof. decide equality. Defined.

(** Two table entries that no opcode can match together: either test asks
    for a result with bits outside its mask, or the results differ on a bit
    that both masks keep. *)
Definition entries_clash (e1 e2 : Z * Z * Instruction) : bool :=
  let '(m1, r1, _) := e1 in
  let '(m2, r2, _) := e2 in
  negb (Z.land r1 m1 =? r1) || negb (Z.land r2 m2 =? r2)
  || negb (Z.land (Z.lxor r1 r2) (Z.land m1 m2) =? 0).

(** Every two entries of a table clash, unless they name the same
    instruction. *)
Definition table_exclusive (table : list (Z * Z * Instruction)) : bool :=
  forallb (fun e1 =>
    forallb (fun e2 =>
      if Instruction_eq_dec (snd e1) (snd e2) then true else entries_clash e1 e2)
      table) table.

(** ** Further definitions: invariants of methods *)

(** [inv] holds after the method [m] whenever it held before, whether [m]
    returns or raises, and what [m] returns satisfies [post]. *)
Definition keeps {A} (inv : Chip8CPU -> Prop) (m : M A) (post : A -> Prop) : Prop :=
  forall s, inv s ->
    match m s with
    | Ok a s' => inv s' /\ post a
    | Raise _ s' => inv s'
    end.

(** [n] turns of the loop of [start]. *)
Fixpoint frames (n : nat) : M unit :=
  match n with
  | O => ret tt
  | S n' => frame ;; frames n'
  end.

(** ** Further definitions: the screen and its display *)

Definition is_bit (p : Z) : Prop := p = 0 \/ p = 1.

(** A screen of 32 rows of 64 pixels, each pixel 0 or 1. *)
Definition screen_ok (scr : list (list Z)) : Prop :=
  screen_sized scr /\ Forall (Forall is_bit) scr.

(** [self.CHARS[pixel]], the characters given by their code points;
    [None] is the [KeyError] of a pixel that is neither [BLACK] nor
    [WHITE]. *)
Definition CHARS (pixel : Z) : option Z :=
  if pixel =? 0 then Some 0x20
  else if pixel =? 1 then Some 0x2588
  else None.

(** [[self.CHARS[pixel] for pixel in row]] *)
Fixpoint text_row (row : list Z) : option (list Z) :=
  match row with
  | [] => Some []
  | pixel :: row' =>
      match CHARS pixel with
      | Some ch =>
          match text_row row' with
          | Some text => Some (ch :: text)
          | None => None
          end
      | None => None
      end
  end.

(** The loop of [print_screen] from row [i] on: the calls
    [stdscr.addstr(i, 0, text)] it makes, as triples, and whether it
    returns ([true]) or stops at a [KeyError] ([false]). *)
Fixpoint print_rows (i : Z) (rows : list (list Z)) : list (Z * Z * list Z) * bool :=
  match rows with
  | [] => ([], true)
  | row :: rows' =>
      match text_row row with
      | Some text =>
          let '(calls, returned) := print_rows (i + 1) rows' in
          ((i, 0, text) :: calls, returned)
      | None => ([], false)
      end
  end.

Definition print_screen (s : Chip8CPU) : list (Z * Z * list Z) * bool :=
  print_rows 0 (screen s).

(** ** Further definitions: bytes *)

Definition is_byte (b : Z) : Prop := 0 <= b < 256.

(** Every register, every cell of memory and the delay timer hold a
    byte. *)
Definition bytes_ok (s : Chip8CPU) : Prop :=
  Forall is_byte (v_registers s) /\ Forall is_byte (memory s)
  /\ is_byte (delay_timer s).
(** * Facts about the embedding *)

(** ** Python indexing *)

Section py_list_facts.
Context {A : Type}.
Implicit Types (l : list A) (i : Z).

Lemma py_index_nonneg len i :
  0 <= i < Z.of_nat len -> py_index len i = Some (Z.to_nat i).
Proof.
  intros [H0 H1]. unfold py_index.
  destruct (Z.leb_spec 0 i); [|lia]. destruct (Z.ltb_spec i (Z.of_nat len)); [|lia].
  reflexivity.
Qed.

Lemma py_index_lt len i k : py_index len i = Some k -> (k < len)%nat.
Proof.
  unfold py_index.
  destruct (Z.leb_spec 0 i), (Z.ltb_spec i (Z.of_nat len)); simpl;
    try (intros [= <-]; lia);
    destruct (Z.leb_spec (- Z.of_nat len) i), (Z.ltb_spec i 0); simpl;
    try discriminate; intros [= <-]; lia.
Qed.

Lemma py_getitem_nonneg l i :
  0 <= i < Z.of_nat (length l) -> py_getitem l i = l !! Z.to_nat i.
Proof. intros H. unfold py_getitem. now rewrite py_index_nonneg. Qed.

Lemma py_setitem_nonneg l i v :
  0 <= i < Z.of_nat (length l) ->
  py_setitem l i v = Some (<[Z.to_nat i := v]> l).
Proof. intros H. unfold py_setitem. now rewrite py_index_nonneg. Qed.

Lemma py_getitem_is_Some l i :
  0 <= i < Z.of_nat (length l) -> exists a, py_getitem l i = Some a.
Proof.
  intros H. rewrite py_getitem_nonneg by done.
  destruct (lookup_lt_is_Some_2 l (Z.to_nat i)) as [a Ha]; [lia|]. eauto.
Qed.

Lemma py_setitem_length l i v l' :
  py_setitem l i v = Some l' -> length l' = length l.
Proof.
  unfold py_setitem. destruct (py_index _ _); [|discriminate].
  intros [= <-]. apply length_insert.
Qed.
End py_list_facts.

(** ** Opcode fields *)

Lemma land_low_bits (a : Z) (n : Z) :
  0 <= n -> Z.land a (2 ^ n - 1) = a mod 2 ^ n.
Proof.
  intros Hn. rewrite <- Z.land_ones by done. f_equal.
  rewrite Z.ones_equiv. lia.
Qed.

(** The field [(opcode & 0x0f00) >> 8] lies in [0, 16) for every integer. *)
Lemma field_x_range (opcode : Z) : 0 <= Z.land opcode 0x0f00 ≫ 8 < 16.
Proof.
  rewrite Z.shiftr_land. change (0x0f00 ≫ 8) with (2 ^ 4 - 1).
  rewrite land_low_bits by lia. apply Z.mod_pos_bound. lia.
Qed.

(** So does [(opcode & 0x00f0) >> 4]. *)
Lemma field_y_range (opcode : Z) : 0 <= Z.land opcode 0x00f0 ≫ 4 < 16.
Proof.
  rewrite Z.shiftr_land. change (0x00f0 ≫ 4) with (2 ^ 4 - 1).
  rewrite land_low_bits by lia. apply Z.mod_pos_bound. lia.
Qed.

(** And [opcode & 0x000f]. *)
Lemma field_n_range (opcode : Z) : 0 <= Z.land opcode 0x000f < 16.
Proof.
  change 0x000f with (2 ^ 4 - 1).
  rewrite land_low_bits by lia. apply Z.mod_pos_bound. lia.
Qed.

(** ** Running the monad *)

Lemma bind_Ok {A B} (m : M A) (f : A -> M B) s a s' :
  m s = Ok a s' -> bind m f s = f a s'.
Proof. unfold bind. now intros ->. Qed.

Lemma bind_Raise {A B} (m : M A) (f : A -> M B) s e s' :
  m s = Raise e s' -> bind m f s = Raise e s'.
Proof. unfold bind. now intros ->. Qed.

Lemma for_loop_app {A L} (xs ys : list A) (body : A -> L -> M L) (l : L) s :
  for_loop (xs ++ ys) body l s = bind (for_loop xs body l) (for_loop ys body) s.
Proof.
  revert l s. induction xs as [|x xs IH]; intros l s; simpl.
  - reflexivity.
  - unfold bind in *. destruct (body x l s) as [l' s'|e s']; [|reflexivity].
    apply IH.
Qed.

Section registers.
Variable s : Chip8CPU.
Hypothesis sixteen : length (v_registers s) = 16%nat.

Lemma get_v_Ok (x : Z) : 0 <= x < 16 -> get_v x s = Ok (reg s x) s.
Proof.
  intros Hx. unfold get_v, reg, bind, gets, lift_index.
  destruct (py_getitem_is_Some (v_registers s) x) as [a Ha]; [lia|].
  now rewrite Ha.
Qed.

Lemma set_v_Ok (x val : Z) :
  0 <= x < 16 ->
  set_v x val s = Ok tt (with_v_registers (<[Z.to_nat x := val]> (v_registers s)) s).
Proof.
  intros Hx. unfold set_v, bind, gets, lift_index.
  rewrite py_setitem_nonneg by lia. reflexivity.
Qed.

Lemma reg_lookup (x : Z) :
  0 <= x < 16 -> v_registers s !! Z.to_nat x = Some (reg s x).
Proof.
  intros Hx. unfold reg.
  destruct (py_getitem_is_Some (v_registers s) x) as [a Ha]; [lia|].
  rewrite Ha. rewrite py_getitem_nonneg in Ha by lia. exact Ha.
Qed.
End registers.

Lemma reg_with_v_registers (v : list Z) (s : Chip8CPU) (x : Z) :
  0 <= x < Z.of_nat (length v) ->
  reg (with_v_registers v s) x = default 0 (v !! Z.to_nat x).
Proof. intros Hx. unfold reg. simpl. now rewrite py_getitem_nonneg. Qed.

(** * The add-with-carry instruction *)

(** How [OP8XY4.execute] runs on a file of sixteen registers. *)
Lemma OP8XY4_run (s : Chip8CPU) (opcode : Z) :
  length (v_registers s) = 16%nat ->
  let x := Z.land opcode 0x0f00 ≫ 8 in
  let y := Z.land opcode 0x00f0 ≫ 4 in
  let result := reg s x + reg s y in
  OP8XY4_execute opcode s =
  Ok tt (with_v_registers
           (<[15%nat := if result >? 255 then 1 else 0]>
              (<[Z.to_nat x := result mod 255]> (v_registers s))) s).
Proof.
  intros Hlen x y result.
  pose proof (field_x_range opcode) as Hx. pose proof (field_y_range opcode) as Hy.
  fold x in Hx. fold y in Hy.
  unfold OP8XY4_execute. fold x y.
  rewrite (bind_Ok _ _ _ _ _ (get_v_Ok s Hlen x Hx)).
  rewrite (bind_Ok _ _ _ _ _ (get_v_Ok s Hlen y Hy)).
  fold result. cbv zeta.
  rewrite (bind_Ok _ _ _ _ _ (set_v_Ok s Hlen x _ Hx)).
  rewrite set_v_Ok; [reflexivity| |lia].
  simpl. now rewrite length_insert.
Qed.

(** C1, as corrected.  [OP8XY4.execute], on any sixteen registers holding
    any integers: it stores [(VX + VY) % 0xff] (modulo 255, not 256) into
    VX and then sets VF to 1 if [VX + VY] exceeds 255 and to 0 otherwise.
    Afterwards VF reads that carry, and, when X is not F, VX reads the
    reduced sum (when X is F the two stores hit the same register, and the
    carry, stored last, stays). *)
Theorem OP8XY4_sum_modulo_255 (s : Chip8CPU) (opcode : Z) :
  length (v_registers s) = 16%nat ->
  let x := Z.land opcode 0x0f00 ≫ 8 in
  let y := Z.land opcode 0x00f0 ≫ 4 in
  let vx := reg s x in
  let vy := reg s y in
  let carry := if vx + vy >? 255 then 1 else 0 in
  let s' := with_v_registers
              (<[15%nat := carry]>
                 (<[Z.to_nat x := (vx + vy) mod 255]> (v_registers s))) s in
  OP8XY4_execute opcode s = Ok tt s'
  /\ reg s' 0xf = carry
  /\ (x <> 0xf -> reg s' x = (vx + vy) mod 255).
Proof.
  intros Hlen x y vx vy carry s'.
  pose proof (field_x_range opcode) as Hx. fold x in Hx.
  split; [|split].
  - apply OP8XY4_run, Hlen.
  - unfold s'. rewrite reg_with_v_registers by (rewrite !length_insert; lia).
    change (Z.to_nat 0xf) with 15%nat.
    rewrite list_lookup_insert_eq by (rewrite length_insert; lia). reflexivity.
  - intros Hne. unfold s'.
    rewrite reg_with_v_registers by (rewrite !length_insert; lia).
    rewrite list_lookup_insert_ne by lia.
    rewrite list_lookup_insert_eq by lia. reflexivity.
Qed.

(** 200 + 100 in V0 and V1: V0 becomes 300 % 255 = 45 and VF 1. *)
Lemma OP8XY4_sum_modulo_255_witness :
  let s := with_v_registers [200; 100; 0; 0; 0; 0; 0; 0; 0; 0; 0; 0; 0; 0; 0; 0]
             (booted []) in
  length (v_registers s) = 16%nat
  /\ exists s', OP8XY4_execute 0x8014 s = Ok tt s'
                /\ reg s' 0xf = 1 /\ reg s' 0 = 45.
Proof.
  intros s. split; [reflexivity|].
  destruct (OP8XY4_sum_modulo_255 s 0x8014 eq_refl) as (Hrun & Hf & Hx).
  eexists. split; [exact Hrun|]. split; [exact Hf|].
  apply Hx. discriminate.
Defined.

(** C1, as stated, fails when X is F.  The program [VF = 0xFF; V1 = 0xFF]
    run from reset, and then the opcode 0x8F14: the sum 510 reduced modulo
    255 is 0, but VX, which is VF, holds the carry 1 afterwards. *)
Lemma OP8XY4_carry_replaces_the_sum :
  let s := state_of (cycles 2 (booted [0x6F; 0xFF; 0x61; 0xFF; 0x8F; 0x14])) in
  let x := Z.land 0x8F14 0x0f00 ≫ 8 in
  let y := Z.land 0x8F14 0x00f0 ≫ 4 in
  length (v_registers s) = 16%nat
  /\ reg s x = 255 /\ reg s y = 255
  /\ exists s',
       OP8XY4_execute 0x8F14 s = Ok tt s'
       /\ (reg s x + reg s y) mod 255 = 0
       /\ reg s' x = 1
       /\ reg s' x <> (reg s x + reg s y) mod 255.
Proof.
  intros s x y.
  split; [vm_compute; reflexivity|].
  split; [vm_compute; reflexivity|].
  split; [vm_compute; reflexivity|].
  exists (state_of (OP8XY4_execute 0x8F14 s)).
  vm_compute. repeat split; try reflexivity. discriminate.
Qed.

(** 255 + 255 is stored as 0, where a byte would keep 254. *)
Example OP8XY4_drops_255 :
  let s := with_v_registers [255; 255; 0; 0; 0; 0; 0; 0; 0; 0; 0; 0; 0; 0; 0; 0]
             (booted []) in
  v_registers (state_of (OP8XY4_execute 0x8014 s))
  = [0; 255; 0; 0; 0; 0; 0; 0; 0; 0; 0; 0; 0; 0; 0; 1].
Proof. vm_compute. reflexivity. Qed.

(** * The timers *)

Lemma update_timers_Ok (s : Chip8CPU) :
  update_timers s =
  Ok tt (with_sound_timer
           (if sound_timer s >? 0 then sound_timer s - 1 else sound_timer s)
           (with_delay_timer
              (if delay_timer s >? 0 then delay_timer s - 1 else delay_timer s) s)).
Proof.
  destruct s as [m pc st v i dt snd inp scr a15 a18 e].
  unfold update_timers, bind, gets, modify, ret. simpl.
  destruct (dt >? 0); simpl; destruct (snd >? 0); reflexivity.
Qed.

(** After [n] ticks a positive timer has lost [n], stopping at 0. *)
Lemma ticks_Ok (n : nat) (s : Chip8CPU) :
  exists s', ticks n s = Ok tt s'
    /\ delay_timer s' = (if delay_timer s >? 0
                         then Z.max 0 (delay_timer s - Z.of_nat n) else delay_timer s)
    /\ sound_timer s' = (if sound_timer s >? 0
                         then Z.max 0 (sound_timer s - Z.of_nat n) else sound_timer s).
Proof.
  revert s. induction n as [|n IH]; intros s.
  - exists s. split; [reflexivity|].
    split; [destruct (Z.gtb_spec (delay_timer s) 0)
           |destruct (Z.gtb_spec (sound_timer s) 0)]; lia.
  - simpl ticks. rewrite (bind_Ok _ _ _ _ _ (update_timers_Ok s)).
    destruct (IH (with_sound_timer
           (if sound_timer s >? 0 then sound_timer s - 1 else sound_timer s)
           (with_delay_timer
              (if delay_timer s >? 0 then delay_timer s - 1 else delay_timer s) s)))
      as (s' & Hrun & Hd & Hs).
    exists s'. split; [exact Hrun|]. rewrite Hd, Hs. simpl.
    split.
    + destruct (Z.gtb_spec (delay_timer s) 0) as [Hp|Hp].
      * destruct (Z.gtb_spec (delay_timer s - 1) 0); lia.
      * destruct (Z.gtb_spec (delay_timer s) 0); lia.
    + destruct (Z.gtb_spec (sound_timer s) 0) as [Hp|Hp].
      * destruct (Z.gtb_spec (sound_timer s - 1) 0); lia.
      * destruct (Z.gtb_spec (sound_timer s) 0); lia.
Qed.

(** C8. A tick of [update_timers] takes 1 off the delay timer and off the
    sound timer when the timer is above 0 and leaves a timer at 0 as it is;
    timers that are not negative never become negative; and a delay timer
    of 2 reads 0 after two ticks and after any number of further ticks. *)
Theorem update_timers_stops_at_zero (s : Chip8CPU) :
  (exists s', update_timers s = Ok tt s'
     /\ delay_timer s' = (if delay_timer s >? 0 then delay_timer s - 1 else delay_timer s)
     /\ sound_timer s' = (if sound_timer s >? 0 then sound_timer s - 1 else sound_timer s))
  /\ (0 <= delay_timer s -> 0 <= sound_timer s ->
      forall n, exists s', ticks n s = Ok tt s'
                           /\ 0 <= delay_timer s' /\ 0 <= sound_timer s')
  /\ (delay_timer s = 2 ->
      forall n, exists s', ticks (2 + n) s = Ok tt s' /\ delay_timer s' = 0).
Proof.
  split; [|split].
  - eexists. split; [apply update_timers_Ok|]. split; reflexivity.
  - intros Hd Hs n. destruct (ticks_Ok n s) as (s' & Hrun & Hd' & Hs').
    exists s'. split; [exact Hrun|]. rewrite Hd', Hs'.
    split; [destruct (delay_timer s >? 0)|destruct (sound_timer s >? 0)]; lia.
  - intros H2 n. destruct (ticks_Ok (2 + n) s) as (s' & Hrun & Hd' & _).
    exists s'. split; [exact Hrun|]. rewrite Hd', H2.
    destruct (Z.gtb_spec 2 0); lia.
Qed.

(** Five ticks from a delay timer of 2. *)
Lemma update_timers_stops_at_zero_witness :
  let s := with_delay_timer 2 (booted []) in
  delay_timer s = 2
  /\ exists s', ticks 5 s = Ok tt s' /\ delay_timer s' = 0.
Proof.
  intros s. split; [reflexivity|].
  destruct (update_timers_stops_at_zero s) as (_ & _ & H).
  exact (H eq_refl 3%nat).
Defined.

(** * Fetch *)

Lemma py_getitem_valid {A} (l : list A) (i : Z) :
  - Z.of_nat (length l) <= i < Z.of_nat (length l) ->
  exists a, py_getitem l i = Some a.
Proof.
  intros Hi. destruct (Z.neg_nonneg_cases i) as [Hneg|Hpos].
  - unfold py_getitem, py_index.
    destruct (Z.leb_spec 0 i); [lia|]. simpl.
    destruct (Z.leb_spec (- Z.of_nat (length l)) i); [|lia].
    destruct (Z.ltb_spec i 0); [|lia]. simpl.
    destruct (lookup_lt_is_Some_2 l (Z.to_nat (Z.of_nat (length l) + i)))
      as [a Ha]; [lia|]. eauto.
  - apply py_getitem_is_Some. lia.
Qed.

Lemma get_mem_Ok (s : Chip8CPU) (a : Z) :
  - Z.of_nat (length (memory s)) <= a < Z.of_nat (length (memory s)) ->
  get_mem a s = Ok (byte_at s a) s
  /\ py_getitem (memory s) a = Some (byte_at s a).
Proof.
  intros Ha. destruct (py_getitem_valid (memory s) a Ha) as [b Hb].
  unfold get_mem, byte_at, bind, gets, lift_index. rewrite Hb. now split.
Qed.

(** C10. [fetch], for a program counter [pc] with [pc + 1 < 4096] in a
    memory of 4096 cells or more: it returns [memory[pc] * 256 +
    memory[pc + 1]], the cell at [pc] being the high-order byte, and leaves
    the state as it was.  ([memory[...]] reads as Python reads it, so a
    negative [pc] down to minus the length of memory counts from the end;
    every [pc] from 0 on is covered.) *)
Theorem fetch_big_endian (s : Chip8CPU) :
  let pc := program_counter s in
  (4096 <= length (memory s))%nat ->
  - Z.of_nat (length (memory s)) <= pc ->
  pc + 1 < 4096 ->
  fetch s = Ok (byte_at s pc * 256 + byte_at s (pc + 1)) s
  /\ py_getitem (memory s) pc = Some (byte_at s pc)
  /\ py_getitem (memory s) (pc + 1) = Some (byte_at s (pc + 1)).
Proof.
  intros pc Hlen Hlo Hhi.
  destruct (get_mem_Ok s pc) as [Hrun1 Hget1]; [lia|].
  destruct (get_mem_Ok s (pc + 1)) as [Hrun2 Hget2]; [lia|].
  split; [|split; assumption].
  unfold fetch, bind at 1, gets. fold pc.
  rewrite (bind_Ok _ _ _ _ _ Hrun1), (bind_Ok _ _ _ _ _ Hrun2).
  unfold ret. now rewrite Z.shiftl_mul_pow2 by lia.
Qed.

(** Fetching the first opcode of a ROM that starts with the bytes 0xAB, 0xCD. *)
Lemma fetch_big_endian_witness :
  let s := booted [0xAB; 0xCD] in
  ((4096 <= length (memory s))%nat
   /\ - Z.of_nat (length (memory s)) <= program_counter s
   /\ program_counter s + 1 < 4096)
  /\ fetch s = Ok 0xABCD s.
Proof.
  intros s.
  assert (H1 : (4096 <= length (memory s))%nat) by (vm_compute; lia).
  assert (H2 : - Z.of_nat (length (memory s)) <= program_counter s)
    by (vm_compute; discriminate).
  assert (H3 : program_counter s + 1 < 4096) by (vm_compute; reflexivity).
  split; [auto|].
  destruct (fetch_big_endian s H1 H2 H3) as (Hrun & _ & _).
  rewrite Hrun. vm_compute. reflexivity.
Defined.

(** * The timer-write instructions *)

(** [OPFX15.execute] assigns VX to an attribute of the instruction object;
    no attribute of the CPU changes. *)
Lemma OPFX15_run (s : Chip8CPU) (opcode : Z) :
  length (v_registers s) = 16%nat ->
  OPFX15_execute opcode s =
  Ok tt (with_OPFX15_delay_timer (Some (reg s (Z.land opcode 0x0f00 ≫ 8))) s).
Proof.
  intros Hlen. unfold OPFX15_execute.
  now rewrite (bind_Ok _ _ _ _ _ (get_v_Ok s Hlen _ (field_x_range opcode))).
Qed.

(** So does [OPFX18.execute]. *)
Lemma OPFX18_run (s : Chip8CPU) (opcode : Z) :
  length (v_registers s) = 16%nat ->
  OPFX18_execute opcode s =
  Ok tt (with_OPFX18_sound_timer (Some (reg s (Z.land opcode 0x0f00 ≫ 8))) s).
Proof.
  intros Hlen. unfold OPFX18_execute.
  now rewrite (bind_Ok _ _ _ _ _ (get_v_Ok s Hlen _ (field_x_range opcode))).
Qed.

(** C2, on the code.  The program [V0 = 5; delay = V0; sound = V0;
    V1 = delay] run from reset: after the two timer writes V0 is 5 but the
    CPU's delay and sound timers are still 0, the value sits in the
    attributes of the two instruction objects, the timer read puts 0 into
    V1, and a tick finds both timers at 0. *)
Theorem timer_writes_miss_the_cpu_timers :
  let s := booted [0x60; 0x05; 0xF0; 0x15; 0xF0; 0x18; 0xF1; 0x07] in
  exists s3 s4 s5,
    cycles 3 s = Ok tt s3
    /\ reg s3 0 = 5 /\ delay_timer s3 = 0 /\ sound_timer s3 = 0
    /\ OPFX15_delay_timer s3 = Some 5 /\ OPFX18_sound_timer s3 = Some 5
    /\ cycle s3 = Ok tt s4 /\ reg s4 1 = 0
    /\ update_timers s3 = Ok tt s5 /\ delay_timer s5 = 0 /\ sound_timer s5 = 0.
Proof.
  intros s.
  exists (state_of (cycles 3 s)), (state_of (cycles 4 s)),
         (state_of (update_timers (state_of (cycles 3 s)))).
  vm_compute. repeat split; reflexivity.
Qed.

(** * Decoding *)

(** No opcode passes the test of the first table entry: under the mask
    0xf000 the low bit is 0, and the expected result 0x0fff has it set. *)
Lemma first_entry_never_matches (opcode : Z) :
  (Z.land opcode 0xf000 =? 0x0fff) = false.
Proof.
  apply Z.eqb_neq. intros H.
  assert (Hbit : Z.testbit (Z.land opcode 0xf000) 0 = Z.testbit 0x0fff 0)
    by now rewrite H.
  rewrite Z.land_spec in Hbit. simpl in Hbit.
  rewrite andb_false_r in Hbit. discriminate.
Qed.

(** Hence [decode] returns [OP0NNN] for no opcode at all. *)
Lemma decode_never_OP0NNN (opcode : Z) :
  decode_in opcode_table opcode <> Some OP0NNN.
Proof.
  unfold opcode_table, decode_in. rewrite first_entry_never_matches.
  repeat match goal with
         | |- context [if ?b then _ else _] => destruct b; [discriminate|]
         end.
  discriminate.
Qed.

(** [OP0NNN.execute] itself changes nothing. *)
Lemma OP0NNN_no_change (s : Chip8CPU) (opcode : Z) :
  OP0NNN_execute opcode s = Ok tt s.
Proof. reflexivity. Qed.

(** C3, on the code.  The opcode 0x0123 is of the form 0x0NNN and is
    neither 0x00E0 nor 0x00EE, yet [decode] returns [None] for it, not the
    [OP0NNN] instruction, and the cycle that fetches it raises at
    [instruction.execute] with nothing changed. *)
Theorem legacy_call_is_not_decoded :
  let s := booted [0x01; 0x23] in
  fetch s = Ok 0x0123 s
  /\ decode 0x0123 s = Ok None s
  /\ cycle s = Raise AttributeError s.
Proof. intros s. vm_compute. repeat split; reflexivity. Qed.

(** * An opcode without a table entry *)

(** C4, as corrected.  When the fetched opcode matches no entry of the
    table, [decode] returns [None] and the cycle raises [AttributeError]
    at its execute step: no attribute has changed, and the program counter
    has not been incremented. *)
Theorem unmatched_opcode_raises (s : Chip8CPU) (opcode : Z) :
  fetch s = Ok opcode s ->
  decode_in opcode_table opcode = None ->
  cycle s = Raise AttributeError s.
Proof.
  intros Hfetch Hdecode. unfold cycle.
  rewrite (bind_Ok _ _ _ _ _ Hfetch).
  unfold decode, bind, ret. rewrite Hdecode. reflexivity.
Qed.

(** The opcode 0x5AB1 (a 5XY0 with a low nibble that is not 0). *)
Lemma unmatched_opcode_raises_witness :
  let s := booted [0x5A; 0xB1] in
  (fetch s = Ok 0x5AB1 s /\ decode_in opcode_table 0x5AB1 = None)
  /\ cycle s = Raise AttributeError s.
Proof.
  intros s.
  assert (H1 : fetch s = Ok 0x5AB1 s) by (vm_compute; reflexivity).
  assert (H2 : decode_in opcode_table 0x5AB1 = None) by reflexivity.
  split; [auto|]. exact (unmatched_opcode_raises s 0x5AB1 H1 H2).
Defined.

(** C4, as stated, fails right after reset: memory at 0x200 is zero, the
    opcode 0x0000 matches no entry, and the cycle does not complete with
    the program counter moved on by 2; it raises. *)
Lemma unmatched_opcode_does_not_proceed :
  let s := booted [] in
  fetch s = Ok 0 s
  /\ decode_in opcode_table 0 = None
  /\ cycle s = Raise AttributeError s
  /\ cycle s <> Ok tt (with_program_counter (program_counter s + 2) s).
Proof.
  intros s.
  assert (H : cycle s = Raise AttributeError s) by (vm_compute; reflexivity).
  split; [vm_compute; reflexivity|]. split; [reflexivity|]. split; [exact H|].
  rewrite H. discriminate.
Qed.

(** * Block store and block load *)

Section slices.
Context {A : Type}.
Implicit Types (l m v new : list A).

Lemma py_clip_nonneg len i :
  0 <= i -> py_clip len i = Nat.min (Z.to_nat i) len.
Proof.
  intros Hi. unfold py_clip. destruct (Z.ltb_spec i 0); lia.
Qed.

(** [v[0:k]] is the first [k] elements. *)
Lemma py_getslice_prefix v k :
  0 <= k <= Z.of_nat (length v) -> py_getslice v 0 k = take (Z.to_nat k) v.
Proof.
  intros Hk. unfold py_getslice. rewrite !py_clip_nonneg by lia.
  replace (Z.to_nat 0 `min` length v)%nat with 0%nat by lia.
  replace (0 `max` (Z.to_nat k `min` length v) - 0)%nat with (Z.to_nat k) by lia.
  reflexivity.
Qed.

(** [m[i:i+k] = new] from a position within [m] or at its end. *)
Lemma py_setslice_inside m new i k :
  0 <= i <= Z.of_nat (length m) -> 0 <= k ->
  py_setslice m i (i + k) new =
  take (Z.to_nat i) m ++ new ++ drop (Z.to_nat (i + k)) m.
Proof.
  intros Hi Hk. unfold py_setslice. rewrite !py_clip_nonneg by lia.
  replace (Z.to_nat i `min` length m)%nat with (Z.to_nat i) by lia.
  f_equal. f_equal.
  destruct (Nat.le_gt_cases (Z.to_nat (i + k)) (length m)).
  - f_equal. lia.
  - rewrite !drop_ge by lia. reflexivity.
Qed.

(** Reading back the slice just assigned gives what was assigned. *)
Lemma py_getslice_setslice m new i :
  0 <= i <= Z.of_nat (length m) ->
  let k := Z.of_nat (length new) in
  py_getslice (py_setslice m i (i + k) new) i (i + k) = new.
Proof.
  intros Hi k. rewrite py_setslice_inside by lia.
  unfold py_getslice. rewrite !py_clip_nonneg by lia.
  rewrite !length_app, length_take, length_drop.
  replace (Z.to_nat i `min` (Z.to_nat i `min` length m + (length new + (length m - Z.to_nat (i + k)))))%nat
    with (Z.to_nat i) by lia.
  replace (Z.to_nat i `max` (Z.to_nat (i + k) `min` (Z.to_nat i `min` length m + (length new + (length m - Z.to_nat (i + k))))) - Z.to_nat i)%nat
    with (length new) by lia.
  rewrite drop_app_length' by (rewrite length_take; lia).
  apply take_app_length.
Qed.

(** [v[0:k] = v[0:k]] changes nothing. *)
Lemma py_setslice_prefix_same v k :
  0 <= k <= Z.of_nat (length v) ->
  py_setslice v 0 k (take (Z.to_nat k) v) = v.
Proof.
  intros Hk. unfold py_setslice. rewrite !py_clip_nonneg by lia.
  replace (Z.to_nat 0 `min` length v)%nat with 0%nat by lia.
  replace (0 `max` (Z.to_nat k `min` length v))%nat with (Z.to_nat k) by lia.
  simpl. apply take_drop.
Qed.
End slices.

(** C9.  On a file of sixteen registers, and with I anywhere from 0 to
    the length of memory (so at every address of the 4096 cells, also
    where I + X runs past the last cell), [OPFX55.execute] followed by
    [OPFX65.execute] for the same X leaves V0..VX, and the whole register
    file, as they were. *)
Theorem block_store_load_round_trip (s : Chip8CPU) (op55 op65 : Z) :
  let x := Z.land op55 0x0f00 ≫ 8 in
  Z.land op65 0x0f00 ≫ 8 = x ->
  length (v_registers s) = 16%nat ->
  0 <= i_register s <= Z.of_nat (length (memory s)) ->
  exists s1 s2,
    OPFX55_execute op55 s = Ok tt s1
    /\ OPFX65_execute op65 s1 = Ok tt s2
    /\ v_registers s2 = v_registers s
    /\ forall k, 0 <= k <= x -> reg s2 k = reg s k.
Proof.
  intros x Hsame Hlen Hi.
  pose proof (field_x_range op55) as Hx. fold x in Hx.
  set (new := py_getslice (v_registers s) 0 (x + 1)).
  set (s1 := with_memory
               (py_setslice (memory s) (i_register s) (i_register s + x + 1) new) s).
  assert (Hnew : new = take (Z.to_nat (x + 1)) (v_registers s))
    by (apply py_getslice_prefix; lia).
  assert (Hk : x + 1 = Z.of_nat (length new))
    by (rewrite Hnew, length_take; lia).
  assert (Hv : v_registers
                 (with_v_registers
                    (py_setslice (v_registers s1) 0 (x + 1)
                       (py_getslice (memory s1) (i_register s1)
                          (i_register s1 + x + 1))) s1)
               = v_registers s).
  { simpl. rewrite <- !Z.add_assoc, Hk.
    rewrite (py_getslice_setslice (memory s) new (i_register s) Hi).
    rewrite <- Hk, Hnew. apply py_setslice_prefix_same. lia. }
  exists s1. eexists. split; [reflexivity|]. split.
  - unfold OPFX65_execute, bind, gets, modify. rewrite Hsame. reflexivity.
  - split; [exact Hv|]. intros k _. unfold reg. now rewrite Hv.
Qed.

(** Storing V0..V3 at I = 4094, across the end of memory, and loading them
    back. *)
Lemma block_store_load_round_trip_witness :
  let s := with_i_register 4094
             (with_v_registers [1; 2; 3; 4; 5; 6; 7; 8; 9; 10; 11; 12; 13; 14; 15; 16]
                (booted [])) in
  (length (v_registers s) = 16%nat
   /\ 0 <= i_register s <= Z.of_nat (length (memory s)))
  /\ exists s1 s2,
       OPFX55_execute 0xF355 s = Ok tt s1
       /\ OPFX65_execute 0xF365 s1 = Ok tt s2
       /\ v_registers s2 = v_registers s.
Proof.
  intros s.
  assert (H1 : length (v_registers s) = 16%nat) by reflexivity.
  assert (H2 : 0 <= i_register s <= Z.of_nat (length (memory s)))
    by (vm_compute; split; discriminate).
  split; [auto|].
  destruct (block_store_load_round_trip s 0xF355 0xF365 eq_refl H1 H2)
    as (s1 & s2 & Hst & Hld & Hv & _).
  exists s1, s2. auto.
Defined.

(** Where I is no address of memory the round trip is lost.  The program
    [V0 = 0xFF; V0 += 0xFF (three times); I = sprite(V0)] run from reset
    leaves V0 = 1020, which is no byte, and I = 5100.  The block store of
    V0..V3 then appends four cells to the 4096 of memory, the block load
    reads an empty slice at 5100 and assigns it to [v_registers[0:4]]:
    twelve registers are left, and V0 reads 0. *)
Lemma block_round_trip_fails_beyond_memory :
  let s := state_of (cycles 5 (booted [0x60; 0xFF; 0x70; 0xFF; 0x70; 0xFF;
                                       0x70; 0xFF; 0xF0; 0x29])) in
  length (v_registers s) = 16%nat /\ reg s 0 = 1020 /\ i_register s = 5100
  /\ exists s1 s2,
       OPFX55_execute 0xF355 s = Ok tt s1
       /\ OPFX65_execute 0xF365 s1 = Ok tt s2
       /\ length (memory s1) = 4100%nat
       /\ v_registers s2 = [0; 0; 0; 0; 0; 0; 0; 0; 0; 0; 0; 0]
       /\ reg s2 0 <> reg s 0.
Proof.
  intros s.
  split; [vm_compute; reflexivity|].
  split; [vm_compute; reflexivity|].
  split; [vm_compute; reflexivity|].
  exists (state_of (OPFX55_execute 0xF355 s)),
         (state_of (OPFX65_execute 0xF365 (state_of (OPFX55_execute 0xF355 s)))).
  vm_compute. repeat split; try reflexivity. discriminate.
Qed.

(** * Sprite drawing *)

(** ** Pixels of a sized screen *)

Lemma pixel_of_lookup (scr : list (list Z)) (c r : Z) :
  screen_sized scr -> 0 <= c < 64 -> 0 <= r < 32 ->
  exists row, scr !! Z.to_nat r = Some row /\ length row = 64%nat
    /\ py_getitem scr r = Some row
    /\ py_getitem row c = Some (pixel_of scr c r)
    /\ row !! Z.to_nat c = Some (pixel_of scr c r).
Proof.
  intros [Hlen Hrows] Hc Hr.
  destruct (lookup_lt_is_Some_2 scr (Z.to_nat r)) as [row Hrow]; [lia|].
  assert (Hrowlen : length row = 64%nat).
  { exact (Forall_lookup_1 _ _ _ _ Hrows Hrow). }
  destruct (lookup_lt_is_Some_2 row (Z.to_nat c)) as [p Hp]; [lia|].
  assert (Hget : py_getitem scr r = Some row)
    by (rewrite py_getitem_nonneg by lia; exact Hrow).
  assert (Hgetp : py_getitem row c = Some p)
    by (rewrite py_getitem_nonneg by lia; exact Hp).
  exists row. unfold pixel_of. rewrite Hget. simpl. rewrite Hgetp. simpl.
  auto.
Qed.

Lemma get_pixel_Ok (s : Chip8CPU) (c r : Z) :
  screen_sized (screen s) -> 0 <= c < 64 -> 0 <= r < 32 ->
  get_pixel c r s = Ok (pixel s c r) s.
Proof.
  intros Hs Hc Hr.
  destruct (pixel_of_lookup _ c r Hs Hc Hr) as (row & _ & _ & Hget & Hp & _).
  unfold get_pixel, bind, gets, lift_index. rewrite Hget. simpl.
  rewrite Hp. reflexivity.
Qed.

(** [set_pixel] replaces one pixel and no other. *)
Lemma set_pixel_Ok (s : Chip8CPU) (c r val : Z) :
  screen_sized (screen s) -> 0 <= c < 64 -> 0 <= r < 32 ->
  exists scr',
    set_pixel c r val s = Ok tt (with_screen scr' s)
    /\ screen_sized scr'
    /\ forall c' r', 0 <= c' < 64 -> 0 <= r' < 32 ->
         pixel_of scr' c' r' =
         if (c' =? c) && (r' =? r) then val else pixel_of (screen s) c' r'.
Proof.
  intros Hs Hc Hr.
  destruct (pixel_of_lookup _ c r Hs Hc Hr) as (row & Hrow & Hrowlen & Hget & _ & _).
  destruct Hs as [Hlen Hrows].
  set (row' := <[Z.to_nat c := val]> row).
  set (scr' := <[Z.to_nat r := row']> (screen s)).
  assert (Hsized : screen_sized scr').
  { split.
    - unfold scr'. now rewrite length_insert.
    - unfold scr'. apply Forall_insert; [exact Hrows|].
      unfold row'. now rewrite length_insert. }
  exists scr'. split; [|split; [exact Hsized|]].
  - unfold set_pixel, bind, gets, lift_index. rewrite Hget. simpl.
    rewrite (py_setitem_nonneg row) by lia. simpl.
    rewrite py_setitem_nonneg by lia. reflexivity.
  - intros c' r' Hc' Hr'.
    destruct (pixel_of_lookup scr' c' r' Hsized Hc' Hr')
      as (rw' & Hrw' & _ & _ & _ & Hp').
    destruct (pixel_of_lookup (screen s) c' r' (conj Hlen Hrows) Hc' Hr')
      as (rw & Hrw & _ & _ & _ & Hp).
    destruct (Z.eqb_spec r' r) as [->|Hner].
    + unfold scr' in Hrw'. rewrite list_lookup_insert_eq in Hrw' by lia.
      injection Hrw' as <-. rewrite Hrow in Hrw. injection Hrw as <-.
      destruct (Z.eqb_spec c' c) as [->|Hnec]; simpl.
      * unfold row' in Hp'. rewrite list_lookup_insert_eq in Hp' by lia.
        now injection Hp'.
      * unfold row' in Hp'. rewrite list_lookup_insert_ne in Hp' by lia.
        congruence.
    + rewrite andb_false_r.
      unfold scr' in Hrw'. rewrite list_lookup_insert_ne in Hrw' by lia.
      congruence.
Qed.

(** ** Wrapped coordinates *)

Lemma wrap_back (m v k : Z) :
  0 < m -> 0 <= k < m -> ((v + k) mod m - v) mod m = k.
Proof.
  intros Hm Hk. rewrite Zminus_mod_idemp_l.
  replace (v + k - v) with k by lia. now apply Z.mod_small.
Qed.

Lemma wrap_forth (m v c : Z) :
  0 < m -> 0 <= c < m -> (v + (c - v) mod m) mod m = c.
Proof.
  intros Hm Hc. rewrite Zplus_mod_idemp_r.
  replace (v + (c - v)) with c by lia. now apply Z.mod_small.
Qed.

(** ** The loops of the draw *)

Section draw.
Variable s0 : Chip8CPU.
Hypothesis sixteen : length (v_registers s0) = 16%nat.

Lemma drawing_set_flag (f : bool) (scr : list (list Z)) :
  set_v 0xf 1 (drawing s0 f scr) = Ok tt (drawing s0 true scr).
Proof.
  rewrite set_v_Ok; [|simpl; now rewrite length_insert|lia].
  unfold drawing. simpl. rewrite list_insert_insert_eq. reflexivity.
Qed.

(** One pass through the body of the inner loop. *)
Lemma draw_pixel_Ok (row xc yc o : Z) (f : bool) (scr : list (list Z)) :
  screen_sized scr ->
  let c := xc mod 64 in
  let r := yc mod 32 in
  let cur := pixel_of scr c r in
  let bit := sprite_bit row o in
  exists scr',
    draw_pixel row xc (yc, o) (drawing s0 f scr)
    = Ok (r, o + 1) (drawing s0 (f || ((cur =? 1) && (bit =? 1))) scr')
    /\ screen_sized scr'
    /\ forall c' r', 0 <= c' < 64 -> 0 <= r' < 32 ->
         pixel_of scr' c' r' =
         if (c' =? c) && (r' =? r) then Z.lxor cur bit else pixel_of scr c' r'.
Proof.
  intros Hsized c r cur bit.
  assert (Hc : 0 <= c < 64) by (apply Z.mod_pos_bound; lia).
  assert (Hr : 0 <= r < 32) by (apply Z.mod_pos_bound; lia).
  set (f' := f || ((cur =? 1) && (bit =? 1))).
  destruct (set_pixel_Ok (drawing s0 f' scr) c r (Z.lxor cur bit) Hsized Hc Hr)
    as (scr' & Hset & Hsized' & Hpix).
  exists scr'. split; [|split; [exact Hsized'|exact Hpix]].
  unfold draw_pixel. change (xc mod SCREEN_WIDTH) with c.
  change (yc mod SCREEN_HEIGHT) with r.
  rewrite (bind_Ok _ _ _ _ _ (get_pixel_Ok (drawing s0 f scr) c r Hsized Hc Hr)).
  change (pixel (drawing s0 f scr) c r) with cur. fold bit.
  assert (Hflag : (if (cur =? 1) && (bit =? 1) then set_v 0xf 1 else ret tt)
                    (drawing s0 f scr) = Ok tt (drawing s0 f' scr)).
  { unfold f'. destruct ((cur =? 1) && (bit =? 1)).
    - rewrite orb_true_r. apply drawing_set_flag.
    - rewrite orb_false_r. reflexivity. }
  rewrite (bind_Ok _ _ _ _ _ Hflag).
  rewrite (bind_Ok _ _ _ _ _ Hset). reflexivity.
Qed.

(** The inner loop, after [m] of its eight passes over the row [yc]. *)
Lemma draw_columns_Ok (row vx yc : Z) (m : nat) (f : bool) (scr : list (list Z)) :
  (m <= 8)%nat -> screen_sized scr ->
  exists scr' f' loc',
    for_loop (seqZ vx (Z.of_nat m)) (draw_pixel row) (yc, 0) (drawing s0 f scr)
    = Ok loc' (drawing s0 f' scr')
    /\ fst loc' mod 32 = yc mod 32 /\ snd loc' = Z.of_nat m
    /\ screen_sized scr'
    /\ (f' = true <->
        f = true \/ exists k, 0 <= k < Z.of_nat m
                     /\ pixel_of scr ((vx + k) mod 64) (yc mod 32) = 1
                     /\ sprite_bit row k = 1)
    /\ forall c r, 0 <= c < 64 -> 0 <= r < 32 ->
         pixel_of scr' c r =
         if (r =? yc mod 32) && ((c - vx) mod 64 <? Z.of_nat m)
         then Z.lxor (pixel_of scr c r) (sprite_bit row ((c - vx) mod 64))
         else pixel_of scr c r.
Proof.
  intros Hm Hsized. induction m as [|m IH].
  - exists scr, f, (yc, 0). split; [reflexivity|].
    split; [reflexivity|]. split; [reflexivity|]. split; [exact Hsized|].
    split.
    + split; [auto|]. intros [H|(k & Hk & _)]; [exact H|lia].
    + intros c r Hc Hr.
      pose proof (Z.mod_pos_bound (c - vx) 64 ltac:(lia)) as Hb.
      destruct (Z.ltb_spec ((c - vx) mod 64) (Z.of_nat 0)); [lia|].
      now rewrite andb_false_r.
  - destruct IH as (scr1 & f1 & [y1 o1] & Hrun & Hy1 & Ho1 & Hsized1 & Hf1 & Hpix1);
      [lia|]. simpl in Hy1, Ho1. subst o1.
    destruct (draw_pixel_Ok row (vx + Z.of_nat m) y1 (Z.of_nat m) f1 scr1 Hsized1)
      as (scr2 & Hstep & Hsized2 & Hpix2).
    rewrite Hy1 in Hstep, Hpix2.
    set (c0 := (vx + Z.of_nat m) mod 64) in *.
    set (r0 := yc mod 32) in *.
    assert (Hc0 : 0 <= c0 < 64) by (apply Z.mod_pos_bound; lia).
    assert (Hr0 : 0 <= r0 < 32) by (apply Z.mod_pos_bound; lia).
    assert (Hback : (c0 - vx) mod 64 = Z.of_nat m)
      by (apply wrap_back; lia).
    assert (Hcur : pixel_of scr1 c0 r0 = pixel_of scr c0 r0).
    { rewrite Hpix1 by assumption. rewrite Hback.
      destruct (Z.ltb_spec (Z.of_nat m) (Z.of_nat m)); [lia|].
      now rewrite andb_false_r. }
    rewrite Hcur in Hstep, Hpix2.
    eexists scr2, _, _. split.
    { rewrite seqZ_S, for_loop_app. rewrite (bind_Ok _ _ _ _ _ Hrun).
      simpl for_loop. rewrite (bind_Ok _ _ _ _ _ Hstep). reflexivity. }
    split; [simpl; unfold r0; apply Z.mod_mod; lia|].
    split; [simpl; lia|]. split; [exact Hsized2|]. split.
    + rewrite orb_true_iff, andb_true_iff, !Z.eqb_eq, Hf1. split.
      * intros [[H|(k & Hk & Hp & Hb)]|[Hp Hb]].
        -- now left.
        -- right. exists k. split; [lia|]. now split.
        -- right. exists (Z.of_nat m). split; [lia|]. now split.
      * intros [H|(k & Hk & Hp & Hb)].
        -- left. now left.
        -- destruct (Z.eq_dec k (Z.of_nat m)) as [->|Hne].
           ++ right. now split.
           ++ left. right. exists k. split; [lia|]. now split.
    + intros c r Hc Hr. rewrite Hpix2 by assumption.
      destruct (Z.eqb_spec r r0) as [->|Hner]; simpl.
      * destruct (Z.eqb_spec c c0) as [->|Hnec]; simpl.
        -- rewrite Hback.
           destruct (Z.ltb_spec (Z.of_nat m) (Z.of_nat (S m))); [|lia].
           reflexivity.
        -- rewrite Hpix1 by assumption. rewrite Z.eqb_refl. simpl.
           assert (Hne : (c - vx) mod 64 <> Z.of_nat m).
           { intros Heq. apply Hnec. unfold c0. rewrite <- Heq.
             symmetry. apply wrap_forth; lia. }
           destruct (Z.ltb_spec ((c - vx) mod 64) (Z.of_nat m)),
                    (Z.ltb_spec ((c - vx) mod 64) (Z.of_nat (S m)));
             try reflexivity; lia.
      * rewrite andb_false_r. rewrite Hpix1 by assumption.
        destruct (Z.eqb_spec r r0); [contradiction|]. reflexivity.
Qed.

(** One pass through the body of the outer loop: a whole sprite row. *)
Lemma draw_row_Ok (vx i yc y_offset : Z) (f : bool) (scr : list (list Z)) :
  screen_sized scr ->
  - Z.of_nat (length (memory s0)) <= i + y_offset < Z.of_nat (length (memory s0)) ->
  let row := byte_at s0 (i + y_offset) in
  exists scr' f',
    draw_row vx i yc y_offset (drawing s0 f scr)
    = Ok (y_offset + 1) (drawing s0 f' scr')
    /\ screen_sized scr'
    /\ (f' = true <->
        f = true \/ exists k, 0 <= k < 8
                     /\ pixel_of scr ((vx + k) mod 64) (yc mod 32) = 1
                     /\ sprite_bit row k = 1)
    /\ forall c r, 0 <= c < 64 -> 0 <= r < 32 ->
         pixel_of scr' c r =
         if (r =? yc mod 32) && ((c - vx) mod 64 <? 8)
         then Z.lxor (pixel_of scr c r) (sprite_bit row ((c - vx) mod 64))
         else pixel_of scr c r.
Proof.
  intros Hsized Hmem row.
  destruct (get_mem_Ok (drawing s0 f scr) (i + y_offset) Hmem) as [Hget _].
  change (byte_at (drawing s0 f scr) (i + y_offset)) with row in Hget.
  destruct (draw_columns_Ok row vx yc 8 f scr (le_n 8) Hsized)
    as (scr' & f' & loc' & Hrun & _ & _ & Hsized' & Hf' & Hpix).
  exists scr', f'. split; [|split; [exact Hsized'|split; [exact Hf'|exact Hpix]]].
  unfold draw_row. rewrite (bind_Ok _ _ _ _ _ Hget). cbv zeta.
  unfold range. replace (vx + 8 - vx) with (Z.of_nat 8) by lia.
  rewrite (bind_Ok _ _ _ _ _ Hrun). reflexivity.
Qed.

(** The outer loop, after [m] sprite rows. *)
Lemma draw_rows_Ok (vx vy i : Z) (m : nat) (f : bool) (scr : list (list Z)) :
  (m <= 32)%nat -> screen_sized scr ->
  (forall j, 0 <= j < Z.of_nat m ->
     - Z.of_nat (length (memory s0)) <= i + j < Z.of_nat (length (memory s0))) ->
  exists scr' f',
    for_loop (seqZ vy (Z.of_nat m)) (draw_row vx i) 0 (drawing s0 f scr)
    = Ok (Z.of_nat m) (drawing s0 f' scr')
    /\ screen_sized scr'
    /\ (f' = true <->
        f = true \/ exists j k, 0 <= j < Z.of_nat m /\ 0 <= k < 8
                     /\ pixel_of scr ((vx + k) mod 64) ((vy + j) mod 32) = 1
                     /\ sprite_bit (byte_at s0 (i + j)) k = 1)
    /\ forall c r, 0 <= c < 64 -> 0 <= r < 32 ->
         pixel_of scr' c r =
         if ((r - vy) mod 32 <? Z.of_nat m) && ((c - vx) mod 64 <? 8)
         then Z.lxor (pixel_of scr c r)
                (sprite_bit (byte_at s0 (i + (r - vy) mod 32)) ((c - vx) mod 64))
         else pixel_of scr c r.
Proof.
  intros Hm Hsized Hmem. induction m as [|m IH].
  - exists scr, f. split; [reflexivity|]. split; [exact Hsized|]. split.
    + split; [auto|]. intros [H|(j & k & Hj & _)]; [exact H|lia].
    + intros c r Hc Hr.
      pose proof (Z.mod_pos_bound (r - vy) 32 ltac:(lia)) as Hb.
      destruct (Z.ltb_spec ((r - vy) mod 32) (Z.of_nat 0)); [lia|].
      reflexivity.
  - destruct IH as (scr1 & f1 & Hrun & Hsized1 & Hf1 & Hpix1);
      [lia|intros j Hj; apply Hmem; lia|].
    destruct (draw_row_Ok vx i (vy + Z.of_nat m) (Z.of_nat m) f1 scr1 Hsized1)
      as (scr2 & f2 & Hstep & Hsized2 & Hf2 & Hpix2); [apply Hmem; lia|].
    set (r0 := (vy + Z.of_nat m) mod 32) in *.
    assert (Hr0 : 0 <= r0 < 32) by (apply Z.mod_pos_bound; lia).
    assert (Hback : (r0 - vy) mod 32 = Z.of_nat m)
      by (apply wrap_back; lia).
    assert (Hold : forall c, 0 <= c < 64 -> pixel_of scr1 c r0 = pixel_of scr c r0).
    { intros c Hc. rewrite Hpix1 by assumption. rewrite Hback.
      destruct (Z.ltb_spec (Z.of_nat m) (Z.of_nat m)); [lia|]. reflexivity. }
    exists scr2, f2. split.
    { rewrite seqZ_S, for_loop_app. rewrite (bind_Ok _ _ _ _ _ Hrun).
      simpl for_loop. rewrite (bind_Ok _ _ _ _ _ Hstep). unfold ret.
      f_equal. lia. }
    split; [exact Hsized2|]. split.
    + rewrite Hf2, Hf1. split.
      * intros [[H|(j & k & Hj & Hk & Hp & Hb)]|(k & Hk & Hp & Hb)].
        -- now left.
        -- right. exists j, k. split; [lia|]. now repeat split.
        -- right. exists (Z.of_nat m), k. split; [lia|].
           rewrite Hold in Hp by (apply Z.mod_pos_bound; lia).
           now repeat split.
      * intros [H|(j & k & Hj & Hk & Hp & Hb)].
        -- left. now left.
        -- destruct (Z.eq_dec j (Z.of_nat m)) as [->|Hne].
           ++ right. exists k. rewrite Hold by (apply Z.mod_pos_bound; lia).
              now repeat split.
           ++ left. right. exists j, k. split; [lia|]. now repeat split.
    + intros c r Hc Hr. rewrite Hpix2 by assumption.
      destruct (Z.eqb_spec r r0) as [->|Hner]; simpl.
      * rewrite Hback, Hold by assumption.
        destruct (Z.ltb_spec (Z.of_nat m) (Z.of_nat (S m))); [|lia].
        reflexivity.
      * rewrite Hpix1 by assumption.
        assert (Hne : (r - vy) mod 32 <> Z.of_nat m).
        { intros Heq. apply Hner. unfold r0. rewrite <- Heq.
          symmetry. apply wrap_forth; lia. }
        destruct (Z.ltb_spec ((r - vy) mod 32) (Z.of_nat m)),
                 (Z.ltb_spec ((r - vy) mod 32) (Z.of_nat (S m)));
          try reflexivity; lia.
Qed.
End draw.

(** ** The draw instruction as a whole *)

Lemma drawing_start (s : Chip8CPU) :
  with_v_registers (<[Z.to_nat 0xf := 0]> (v_registers s)) s
  = drawing s false (screen s).
Proof. destruct s. reflexivity. Qed.

Lemma reg_drawing (s : Chip8CPU) (f : bool) (scr : list (list Z)) (x : Z) :
  length (v_registers s) = 16%nat -> 0 <= x < 16 ->
  reg (drawing s f scr) x = if x =? 15 then Z.b2z f else reg s x.
Proof.
  intros Hlen Hx. unfold drawing.
  change (reg (with_screen scr ?t) x) with (reg t x).
  rewrite reg_with_v_registers by (rewrite length_insert; lia).
  destruct (Z.eqb_spec x 15) as [->|Hne].
  - change (Z.to_nat 15) with 15%nat.
    rewrite list_lookup_insert_eq by lia. reflexivity.
  - rewrite list_lookup_insert_ne by lia.
    now rewrite (reg_lookup s Hlen x Hx).
Qed.

(** What [OPDXYN.execute] does to a state with sixteen registers, a sized
    screen and the [N] sprite bytes readable at I: it returns, having
    changed VF and the screen only.  A pixel at column [c] and row [r] is
    XORed with bit [(c - VX) mod 64] of sprite row [(r - VY) mod 32] when
    these two lie below 8 and [N], and is kept otherwise; VF is 1 exactly
    when some sprite bit that is set met a pixel that was 1. *)
Lemma OPDXYN_run (s : Chip8CPU) (opcode : Z) :
  let x := Z.land opcode 0x0f00 ≫ 8 in
  let y := Z.land opcode 0x00f0 ≫ 4 in
  let n := Z.land opcode 0x000f in
  let vx := reg s x in
  let vy := reg s y in
  let i := i_register s in
  length (v_registers s) = 16%nat ->
  screen_sized (screen s) ->
  (forall j, 0 <= j < n ->
     - Z.of_nat (length (memory s)) <= i + j < Z.of_nat (length (memory s))) ->
  exists scr' f,
    OPDXYN_execute opcode s = Ok tt (drawing s f scr')
    /\ screen_sized scr'
    /\ (f = true <->
        exists j k, 0 <= j < n /\ 0 <= k < 8
          /\ pixel s ((vx + k) mod 64) ((vy + j) mod 32) = 1
          /\ sprite_bit (byte_at s (i + j)) k = 1)
    /\ forall c r, 0 <= c < 64 -> 0 <= r < 32 ->
         pixel_of scr' c r =
         if ((r - vy) mod 32 <? n) && ((c - vx) mod 64 <? 8)
         then Z.lxor (pixel s c r)
                (sprite_bit (byte_at s (i + (r - vy) mod 32)) ((c - vx) mod 64))
         else pixel s c r.
Proof.
  intros x y n vx vy i Hlen Hsized Hmem.
  pose proof (field_x_range opcode) as Hx. fold x in Hx.
  pose proof (field_y_range opcode) as Hy. fold y in Hy.
  pose proof (field_n_range opcode) as Hn. fold n in Hn.
  destruct (draw_rows_Ok s Hlen vx vy i (Z.to_nat n) false (screen s))
    as (scr' & f & Hrun & Hsized' & Hf & Hpix);
    [lia|exact Hsized|intros j Hj; apply Hmem; lia|].
  rewrite Z2Nat.id in Hrun, Hf, Hpix by lia.
  exists scr', f. split; [|split; [exact Hsized'|split; [|exact Hpix]]].
  - unfold OPDXYN_execute. fold x y n.
    rewrite (bind_Ok _ _ _ _ _ (get_v_Ok s Hlen x Hx)).
    rewrite (bind_Ok _ _ _ _ _ (get_v_Ok s Hlen y Hy)).
    fold vx vy.
    rewrite (bind_Ok _ _ _ _ _ (eq_refl : gets i_register s = Ok i s)).
    rewrite (bind_Ok _ _ _ _ _ (set_v_Ok s Hlen 0xf 0 ltac:(lia))).
    rewrite drawing_start. cbv zeta.
    unfold range. replace (vy + n - vy) with n by lia.
    rewrite (bind_Ok _ _ _ _ _ Hrun). reflexivity.
  - rewrite Hf. split.
    + intros [H|H]; [discriminate|exact H].
    + intros H. now right.
Qed.

(** C7.  [OPDXYN.execute], whatever VX, VY and N are: bit [k] of sprite
    row [j] is composited at column [(VX + k) mod 64] of row
    [(VY + j) mod 32], by XOR with the pixel there, and every pixel that is
    not such a target is kept; nothing is clipped.  (With VX = 60 the bits
    4..7, at columns 64..67, land in columns 0..3.) *)
Theorem OPDXYN_wraps_around (s : Chip8CPU) (opcode : Z) :
  let x := Z.land opcode 0x0f00 ≫ 8 in
  let y := Z.land opcode 0x00f0 ≫ 4 in
  let n := Z.land opcode 0x000f in
  let vx := reg s x in
  let vy := reg s y in
  let i := i_register s in
  length (v_registers s) = 16%nat ->
  screen_sized (screen s) ->
  (forall j, 0 <= j < n ->
     - Z.of_nat (length (memory s)) <= i + j < Z.of_nat (length (memory s))) ->
  exists s',
    OPDXYN_execute opcode s = Ok tt s'
    /\ (forall j k, 0 <= j < n -> 0 <= k < 8 ->
          pixel s' ((vx + k) mod 64) ((vy + j) mod 32)
          = Z.lxor (pixel s ((vx + k) mod 64) ((vy + j) mod 32))
                   (sprite_bit (byte_at s (i + j)) k))
    /\ (forall c r, 0 <= c < 64 -> 0 <= r < 32 ->
          (forall j k, 0 <= j < n -> 0 <= k < 8 ->
             c = (vx + k) mod 64 -> r = (vy + j) mod 32 -> False) ->
          pixel s' c r = pixel s c r).
Proof.
  intros x y n vx vy i Hlen Hsized Hmem.
  pose proof (field_n_range opcode) as Hn. fold n in Hn.
  destruct (OPDXYN_run s opcode Hlen Hsized Hmem)
    as (scr' & f & Hrun & _ & _ & Hpix).
  fold x y n vx vy i in Hpix.
  exists (drawing s f scr'). split; [exact Hrun|]. split.
  - intros j k Hj Hk.
    change (pixel (drawing s f scr') ?c ?r) with (pixel_of scr' c r).
    rewrite Hpix by (apply Z.mod_pos_bound; lia).
    rewrite !wrap_back by lia.
    destruct (Z.ltb_spec j n); [|lia]. destruct (Z.ltb_spec k 8); [|lia].
    reflexivity.
  - intros c r Hc Hr Hfree.
    change (pixel (drawing s f scr') c r) with (pixel_of scr' c r).
    rewrite Hpix by assumption.
    pose proof (Z.mod_pos_bound (r - vy) 32 ltac:(lia)) as Hj.
    pose proof (Z.mod_pos_bound (c - vx) 64 ltac:(lia)) as Hk.
    destruct (Z.ltb_spec ((r - vy) mod 32) n); [|reflexivity].
    destruct (Z.ltb_spec ((c - vx) mod 64) 8); [|reflexivity].
    exfalso. apply (Hfree ((r - vy) mod 32) ((c - vx) mod 64)); try lia.
    + symmetry. apply wrap_forth; lia.
    + symmetry. apply wrap_forth; lia.
Qed.

(** A row 0xFF drawn at x = 60, y = 0 on the cleared screen: the sprite's
    columns 64..67 are written to columns 0..3. *)
Lemma OPDXYN_wraps_around_witness :
  let s := with_i_register 0x200
             (with_v_registers [60; 0; 0; 0; 0; 0; 0; 0; 0; 0; 0; 0; 0; 0; 0; 0]
                (booted [0xFF])) in
  (length (v_registers s) = 16%nat /\ screen_sized (screen s)
   /\ forall j, 0 <= j < 1 ->
        - Z.of_nat (length (memory s)) <= 0x200 + j < Z.of_nat (length (memory s)))
  /\ exists s',
       OPDXYN_execute 0xD011 s = Ok tt s'
       /\ pixel s' 60 0 = 1 /\ pixel s' 63 0 = 1
       /\ pixel s' 0 0 = 1 /\ pixel s' 1 0 = 1
       /\ pixel s' 2 0 = 1 /\ pixel s' 3 0 = 1
       /\ pixel s' 4 0 = 0.
Proof.
  intros s.
  assert (H1 : length (v_registers s) = 16%nat) by reflexivity.
  assert (H2 : screen_sized (screen s)).
  { split; [vm_compute; reflexivity|].
    vm_compute. repeat constructor. }
  assert (H3 : forall j, 0 <= j < 1 ->
            - Z.of_nat (length (memory s)) <= 0x200 + j < Z.of_nat (length (memory s))).
  { intros j Hj. replace (length (memory s)) with 4096%nat
      by (vm_compute; reflexivity). lia. }
  split; [auto|].
  destruct (OPDXYN_wraps_around s 0xD011 H1 H2 H3) as (s' & Hrun & Hdraw & Hkeep).
  exists s'. split; [exact Hrun|].
  cbv zeta in Hdraw, Hkeep.
  change (Z.land 0xD011 0x000f) with 1 in Hdraw, Hkeep.
  pose proof (Hdraw 0 0 ltac:(lia) ltac:(lia)) as D0.
  pose proof (Hdraw 0 3 ltac:(lia) ltac:(lia)) as D3.
  pose proof (Hdraw 0 4 ltac:(lia) ltac:(lia)) as D4.
  pose proof (Hdraw 0 5 ltac:(lia) ltac:(lia)) as D5.
  pose proof (Hdraw 0 6 ltac:(lia) ltac:(lia)) as D6.
  pose proof (Hdraw 0 7 ltac:(lia) ltac:(lia)) as D7.
  assert (K4 : pixel s' 4 0 = pixel s 4 0).
  { apply Hkeep; [lia|lia|]. intros j k Hj Hk.
    assert (k = 0 \/ k = 1 \/ k = 2 \/ k = 3 \/ k = 4 \/ k = 5 \/ k = 6 \/ k = 7)
      as Hcases by lia.
    destruct Hcases as [->|[->|[->|[->|[->|[->|[->| ->]]]]]]];
      vm_compute; discriminate. }
  vm_compute in D0, D3, D4, D5, D6, D7, K4 |- *.
  repeat split; assumption.
Defined.

(** ** Drawing the same sprite twice *)

Lemma py_getitem_Some_valid {A} (l : list A) (i : Z) (a : A) :
  py_getitem l i = Some a ->
  - Z.of_nat (length l) <= i < Z.of_nat (length l).
Proof.
  unfold py_getitem, py_index.
  destruct (Z.leb_spec 0 i), (Z.ltb_spec i (Z.of_nat (length l))); simpl;
    try lia;
    destruct (Z.leb_spec (- Z.of_nat (length l)) i), (Z.ltb_spec i 0); simpl;
    try lia; discriminate.
Qed.

Lemma blank_screen_sized : screen_sized blank_screen.
Proof. split; [reflexivity|]. vm_compute. repeat constructor. Qed.

Lemma pixel_of_blank_screen (c r : Z) :
  0 <= c < 64 -> 0 <= r < 32 -> pixel_of blank_screen c r = 0.
Proof.
  intros Hc Hr.
  destruct (pixel_of_lookup blank_screen c r blank_screen_sized Hc Hr)
    as (row & Hrow & _ & _ & _ & Hp).
  change blank_screen with (replicate 32 (replicate 64 0)) in Hrow.
  apply lookup_replicate_1 in Hrow as [-> _].
  apply lookup_replicate_1 in Hp as [Hp _]. now symmetry.
Qed.

(** Every bit of the row 0xFF is set. *)
Lemma sprite_bit_0xFF (k : Z) : 0 <= k < 8 -> sprite_bit 0xFF k = 1.
Proof.
  intros Hk.
  assert (k = 0 \/ k = 1 \/ k = 2 \/ k = 3 \/ k = 4 \/ k = 5 \/ k = 6 \/ k = 7)
    as Hcases by lia.
  destruct Hcases as [->|[->|[->|[->|[->|[->|[->| ->]]]]]]]; reflexivity.
Qed.

(** C6.  On a cleared screen, with VX = VY = 0, N = 1 and the byte 0xFF
    at I: the draw sets the 8 pixels of row 0, columns 0..7 (and no other)
    and leaves VF = 0; the same draw again clears these 8 pixels, the
    screen is all 0 again, and VF = 1. *)
Theorem draw_twice_sets_then_clears (s : Chip8CPU) (opcode : Z) :
  let x := Z.land opcode 0x0f00 ≫ 8 in
  let y := Z.land opcode 0x00f0 ≫ 4 in
  Z.land opcode 0x000f = 1 ->
  length (v_registers s) = 16%nat ->
  screen s = blank_screen ->
  reg s x = 0 -> reg s y = 0 ->
  py_getitem (memory s) (i_register s) = Some 0xFF ->
  exists s1 s2,
    OPDXYN_execute opcode s = Ok tt s1
    /\ (forall c, 0 <= c < 8 -> pixel s1 c 0 = 1)
    /\ (forall c r, 0 <= c < 64 -> 0 <= r < 32 ->
          pixel s1 c r = if (r =? 0) && (c <? 8) then 1 else 0)
    /\ reg s1 0xf = 0
    /\ OPDXYN_execute opcode s1 = Ok tt s2
    /\ (forall c, 0 <= c < 8 -> pixel s2 c 0 = 0)
    /\ (forall c r, 0 <= c < 64 -> 0 <= r < 32 -> pixel s2 c r = 0)
    /\ reg s2 0xf = 1.
Proof.
  intros x y Hn Hlen Hscr Hvx Hvy Hbyte.
  pose proof (field_x_range opcode) as Hx. fold x in Hx.
  pose proof (field_y_range opcode) as Hy. fold y in Hy.
  pose proof (py_getitem_Some_valid _ _ _ Hbyte) as Hvalid.
  assert (Hff : byte_at s (i_register s + 0) = 0xFF)
    by (unfold byte_at; rewrite Z.add_0_r, Hbyte; reflexivity).
  assert (Hsized : screen_sized (screen s))
    by (rewrite Hscr; apply blank_screen_sized).
  assert (Hblank : forall c r, 0 <= c < 64 -> 0 <= r < 32 -> pixel s c r = 0)
    by (intros c r Hc Hr; unfold pixel; rewrite Hscr;
        now apply pixel_of_blank_screen).
  (* the first draw *)
  destruct (OPDXYN_run s opcode Hlen Hsized) as (scr1 & f1 & Hrun1 & Hsized1 & Hf1 & Hpix1).
  { fold x y. rewrite Hn. intros j Hj. replace j with 0 by lia.
    rewrite Z.add_0_r. exact Hvalid. }
  fold x y in Hf1, Hpix1. rewrite Hn, Hvx, Hvy in Hf1, Hpix1.
  assert (Hf1' : f1 = false).
  { destruct f1; [|reflexivity].
    destruct (proj1 Hf1 eq_refl) as (j & k & Hj & Hk & Hp & _).
    rewrite Hblank in Hp by (apply Z.mod_pos_bound; lia). discriminate. }
  subst f1.
  assert (Hone : forall c r, 0 <= c < 64 -> 0 <= r < 32 ->
            pixel_of scr1 c r = if (r =? 0) && (c <? 8) then 1 else 0).
  { intros c r Hc Hr. rewrite Hpix1 by assumption.
    rewrite !Z.sub_0_r, !Z.mod_small by lia. rewrite Hblank by assumption.
    destruct (Z.ltb_spec r 1), (Z.eqb_spec r 0); try lia; simpl; [|reflexivity].
    destruct (Z.ltb_spec c 8); [|reflexivity].
    subst r. rewrite Hff, sprite_bit_0xFF by lia. reflexivity. }
  set (s1 := drawing s false scr1) in *.
  assert (Hlen1 : length (v_registers s1) = 16%nat)
    by (unfold s1, drawing; simpl; now rewrite length_insert).
  assert (Hvx1 : reg s1 x = 0).
  { unfold s1. rewrite reg_drawing by assumption.
    destruct (x =? 15); [reflexivity|exact Hvx]. }
  assert (Hvy1 : reg s1 y = 0).
  { unfold s1. rewrite reg_drawing by assumption.
    destruct (y =? 15); [reflexivity|exact Hvy]. }
  (* the second draw *)
  destruct (OPDXYN_run s1 opcode Hlen1 Hsized1) as (scr2 & f2 & Hrun2 & Hsized2 & Hf2 & Hpix2).
  { fold x y. rewrite Hn. intros j Hj. replace j with 0 by lia.
    rewrite Z.add_0_r. exact Hvalid. }
  fold x y in Hf2, Hpix2. rewrite Hn, Hvx1, Hvy1 in Hf2, Hpix2.
  change (i_register s1) with (i_register s) in Hf2, Hpix2.
  change (byte_at s1) with (byte_at s) in Hf2, Hpix2.
  change (pixel s1) with (pixel_of scr1) in Hf2, Hpix2.
  assert (Hf2' : f2 = true).
  { apply Hf2. exists 0, 0. split; [lia|]. split; [lia|]. split.
    - rewrite Hone by (apply Z.mod_pos_bound; lia). reflexivity.
    - rewrite Hff. reflexivity. }
  subst f2.
  assert (Hzero : forall c r, 0 <= c < 64 -> 0 <= r < 32 -> pixel_of scr2 c r = 0).
  { intros c r Hc Hr. rewrite Hpix2 by assumption.
    rewrite !Z.sub_0_r, !Z.mod_small by lia. rewrite Hone by assumption.
    destruct (Z.ltb_spec r 1), (Z.eqb_spec r 0); try lia; simpl; [|reflexivity].
    destruct (Z.ltb_spec c 8); [|reflexivity].
    subst r. rewrite Hff, sprite_bit_0xFF by lia. reflexivity. }
  exists s1, (drawing s1 true scr2).
  split; [exact Hrun1|]. split.
  { intros c Hc. change (pixel s1 c 0) with (pixel_of scr1 c 0).
    rewrite Hone by lia. destruct (Z.ltb_spec c 8); [reflexivity|lia]. }
  split; [exact Hone|]. split.
  { unfold s1. rewrite reg_drawing by (assumption || lia). reflexivity. }
  split; [exact Hrun2|]. split.
  { intros c Hc. apply Hzero; lia. }
  split; [exact Hzero|].
  rewrite reg_drawing by (assumption || lia). reflexivity.
Qed.

(** The sprite byte 0xFF at 0x200, I pointing at it, V0 = V1 = 0. *)
Lemma draw_twice_sets_then_clears_witness :
  let s := with_i_register 0x200 (booted [0xFF]) in
  (Z.land 0xD011 0x000f = 1
   /\ length (v_registers s) = 16%nat
   /\ screen s = blank_screen
   /\ reg s 0 = 0 /\ reg s 1 = 0
   /\ py_getitem (memory s) (i_register s) = Some 0xFF)
  /\ exists s1 s2,
       OPDXYN_execute 0xD011 s = Ok tt s1
       /\ pixel s1 7 0 = 1 /\ reg s1 0xf = 0
       /\ OPDXYN_execute 0xD011 s1 = Ok tt s2
       /\ pixel s2 7 0 = 0 /\ reg s2 0xf = 1.
Proof.
  intros s.
  assert (H1 : Z.land 0xD011 0x000f = 1) by reflexivity.
  assert (H2 : length (v_registers s) = 16%nat) by reflexivity.
  assert (H3 : screen s = blank_screen) by (vm_compute; reflexivity).
  assert (H4 : reg s 0 = 0) by reflexivity.
  assert (H5 : reg s 1 = 0) by reflexivity.
  assert (H6 : py_getitem (memory s) (i_register s) = Some 0xFF)
    by (vm_compute; reflexivity).
  split; [auto 10|].
  destruct (draw_twice_sets_then_clears s 0xD011 H1 H2 H3 H4 H5 H6)
    as (s1 & s2 & Hrun1 & Hset & _ & Hf1 & Hrun2 & Hclear & _ & Hf2).
  exists s1, s2. split; [exact Hrun1|].
  split; [apply Hset; lia|]. split; [exact Hf1|]. split; [exact Hrun2|].
  split; [apply Hclear; lia|exact Hf2].
Defined.

(** The same as a program run from reset: [I = 0x206; draw V0, V1, 1]
    twice, the byte 0xFF lying at 0x206. *)
Example draw_twice_program :
  let s := booted [0xA2; 0x06; 0xD0; 0x11; 0xD0; 0x11; 0xFF] in
  let s1 := state_of (cycles 2 s) in
  let s2 := state_of (cycles 3 s) in
  cycle s1 = Ok tt s2
  /\ screen s1 = <[0%nat := replicate 8 1 ++ replicate 56 0]> blank_screen
  /\ reg s1 0xf = 0
  /\ screen s2 = blank_screen
  /\ reg s2 0xf = 1.
Proof. vm_compute. repeat split; reflexivity. Qed.

(** * The flag register *)

(** ** Where the flag is a bit *)

(** After the carry and borrow instructions and after [OPFX1E], which
    store the flag last, VF is 0 or 1 on every file of sixteen registers. *)
Lemma flag_stored_last_is_a_bit (s : Chip8CPU) (opcode : Z) (ins : Instruction) :
  length (v_registers s) = 16%nat ->
  ins = OP8XY4 \/ ins = OP8XY5 \/ ins = OP8XY7 \/ ins = OPFX1E ->
  exists s', Instruction_execute ins opcode s = Ok tt s'
             /\ (reg s' 0xf = 0 \/ reg s' 0xf = 1).
Proof.
  intros Hlen Hins.
  pose proof (field_x_range opcode) as Hx. pose proof (field_y_range opcode) as Hy.
  assert (Hbit : forall (v : list Z) (b : Z) (t : Chip8CPU),
            length v = 16%nat -> b = 0 \/ b = 1 ->
            reg (with_v_registers (<[15%nat := b]> v) t) 0xf = 0
            \/ reg (with_v_registers (<[15%nat := b]> v) t) 0xf = 1).
  { intros v b t Hv Hb.
    rewrite reg_with_v_registers by (rewrite length_insert; lia).
    change (Z.to_nat 0xf) with 15%nat.
    rewrite list_lookup_insert_eq by lia. exact Hb. }
  destruct Hins as [->|[->|[->| ->]]]; simpl Instruction_execute.
  - eexists. split; [apply OP8XY4_run, Hlen|].
    apply Hbit; [now rewrite length_insert|].
    destruct (_ >? 255); auto.
  - unfold OP8XY5_execute.
    rewrite (bind_Ok _ _ _ _ _ (get_v_Ok s Hlen _ Hx)).
    rewrite (bind_Ok _ _ _ _ _ (get_v_Ok s Hlen _ Hy)).
    destruct (_ <? 0);
      rewrite (bind_Ok _ _ _ _ _ (set_v_Ok s Hlen _ _ Hx));
      (rewrite set_v_Ok; [|simpl; now rewrite length_insert|lia]);
      (eexists; split; [reflexivity|]);
      (apply Hbit; [simpl; now rewrite length_insert|lia]).
  - unfold OP8XY7_execute.
    rewrite (bind_Ok _ _ _ _ _ (get_v_Ok s Hlen _ Hx)).
    rewrite (bind_Ok _ _ _ _ _ (get_v_Ok s Hlen _ Hy)).
    destruct (_ <? 0);
      rewrite (bind_Ok _ _ _ _ _ (set_v_Ok s Hlen _ _ Hx));
      (rewrite set_v_Ok; [|simpl; now rewrite length_insert|lia]);
      (eexists; split; [reflexivity|]);
      (apply Hbit; [simpl; now rewrite length_insert|lia]).
  - unfold OPFX1E_execute.
    rewrite (bind_Ok _ _ _ _ _ (get_v_Ok s Hlen _ Hx)).
    rewrite (bind_Ok _ _ _ _ _ (eq_refl : gets i_register s = Ok (i_register s) s)).
    rewrite (bind_Ok _ _ _ _ _ (set_v_Ok s Hlen 0xf _ ltac:(lia))).
    eexists. split; [reflexivity|].
    change (reg (with_i_register ?i ?t) 0xf) with (reg t 0xf).
    apply Hbit; [exact Hlen|]. destruct (_ >? 0xfff); auto.
Qed.

(** After a draw that returns, VF is 0 or 1. *)
Lemma draw_flag_is_a_bit (s : Chip8CPU) (opcode : Z) :
  length (v_registers s) = 16%nat ->
  screen_sized (screen s) ->
  (forall j, 0 <= j < Z.land opcode 0x000f ->
     - Z.of_nat (length (memory s)) <= i_register s + j
       < Z.of_nat (length (memory s))) ->
  exists s', OPDXYN_execute opcode s = Ok tt s'
             /\ (reg s' 0xf = 0 \/ reg s' 0xf = 1).
Proof.
  intros Hlen Hsized Hmem.
  destruct (OPDXYN_run s opcode Hlen Hsized Hmem) as (scr' & f & Hrun & _).
  exists (drawing s f scr'). split; [exact Hrun|].
  rewrite reg_drawing by (assumption || lia).
  destruct f; auto.
Qed.

(** The shifts leave a bit in VF when X is not F and, for the left
    shift, VX is a byte. *)
Lemma shift_flag_is_a_bit (s : Chip8CPU) (opcode : Z) :
  length (v_registers s) = 16%nat ->
  let x := Z.land opcode 0x0f00 ≫ 8 in
  x <> 0xf ->
  (exists s', OP8XY6_execute opcode s = Ok tt s'
              /\ (reg s' 0xf = 0 \/ reg s' 0xf = 1))
  /\ (0 <= reg s x < 256 ->
      exists s', OP8XYE_execute opcode s = Ok tt s'
                 /\ (reg s' 0xf = 0 \/ reg s' 0xf = 1)).
Proof.
  intros Hlen x Hne.
  pose proof (field_x_range opcode) as Hx. fold x in Hx.
  assert (Hrun : forall a b,
            (set_v 0xf a ;; set_v x b) s
            = Ok tt (with_v_registers
                       (<[Z.to_nat x := b]> (<[15%nat := a]> (v_registers s))) s)).
  { intros a b.
    rewrite (bind_Ok _ _ _ _ _ (set_v_Ok s Hlen 0xf a ltac:(lia))).
    rewrite set_v_Ok; [reflexivity|simpl; now rewrite length_insert|lia]. }
  assert (Hflag : forall a b,
            reg (with_v_registers
                   (<[Z.to_nat x := b]> (<[15%nat := a]> (v_registers s))) s) 0xf = a).
  { intros a b. rewrite reg_with_v_registers by (rewrite !length_insert; lia).
    change (Z.to_nat 0xf) with 15%nat.
    rewrite list_lookup_insert_ne by lia.
    rewrite list_lookup_insert_eq by lia. reflexivity. }
  split.
  - unfold OP8XY6_execute. fold x.
    rewrite (bind_Ok _ _ _ _ _ (get_v_Ok s Hlen x Hx)). cbv zeta.
    rewrite Hrun. eexists. split; [reflexivity|]. rewrite Hflag.
    change 1 with (2 ^ 1 - 1). rewrite land_low_bits by lia.
    pose proof (Z.mod_pos_bound (reg s x) (2 ^ 1) ltac:(lia)). lia.
  - intros Hbyte. unfold OP8XYE_execute. fold x.
    rewrite (bind_Ok _ _ _ _ _ (get_v_Ok s Hlen x Hx)). cbv zeta.
    rewrite Hrun. eexists. split; [reflexivity|]. rewrite Hflag.
    rewrite Z.shiftr_div_pow2 by lia.
    assert (0 <= reg s x / 2 ^ 7 < 2); [|lia].
    split; [apply Z.div_pos; lia|apply Z.div_lt_upper_bound; lia].
Qed.

(** ** The shifts *)

(** C5, on the code.  Three programs run from reset.  [VF = 6; VF >>= 1]
    leaves VF = 3: the flag is stored first and the shifted value, stored
    into the same register, replaces it.  [VF = 1; VF <<= 1] leaves VF = 2
    the same way.  [V0 = 0xFF; V0 += 0xFF; V0 <<= 1] leaves VF = 3: V0
    holds 510 after the addition, and 510 >> 7, taken as the most
    significant bit, is 3. *)
Theorem shifts_leave_VF_above_one :
  (exists s', cycles 2 (booted [0x6F; 0x06; 0x8F; 0x06]) = Ok tt s'
              /\ reg s' 0xf = 3)
  /\ (exists s', cycles 2 (booted [0x6F; 0x01; 0x8F; 0x0E]) = Ok tt s'
                 /\ reg s' 0xf = 2)
  /\ (exists s', cycles 3 (booted [0x60; 0xFF; 0x70; 0xFF; 0x80; 0x0E]) = Ok tt s'
                 /\ reg s' 0xf = 3).
Proof.
  split; [|split].
  - exists (state_of (cycles 2 (booted [0x6F; 0x06; 0x8F; 0x06]))).
    vm_compute. split; reflexivity.
  - exists (state_of (cycles 2 (booted [0x6F; 0x01; 0x8F; 0x0E]))).
    vm_compute. split; reflexivity.
  - exists (state_of (cycles 3 (booted [0x60; 0xFF; 0x70; 0xFF; 0x80; 0x0E]))).
    vm_compute. split; reflexivity.
Qed.

(** * The decode table *)

Lemma decode_in_first_match (table : list (Z * Z * Instruction)) (opcode : Z) :
  decode_in table opcode
  = match List.filter (entry_matches opcode) table with
    | [] => None
    | e :: _ => Some (snd e)
    end.
Proof.
  induction table as [|[[mask res] ins] table IH]; simpl; [reflexivity|].
  unfold entry_matches at 1. simpl.
  destruct (Z.land opcode mask =? res); [reflexivity|exact IH].
Qed.

(** Entries that clash are matched by no common opcode. *)
Lemma entries_clash_sound (opcode : Z) (e1 e2 : Z * Z * Instruction) :
  entry_matches opcode e1 = true -> entry_matches opcode e2 = true ->
  entries_clash e1 e2 = false.
Proof.
  destruct e1 as [[m1 r1] i1], e2 as [[m2 r2] i2].
  unfold entry_matches, entries_clash. simpl.
  rewrite !Z.eqb_eq. intros H1 H2.
  assert (S1 : Z.land r1 m1 = r1)
    by (rewrite <- H1, <- Z.land_assoc, Z.land_diag; reflexivity).
  assert (S2 : Z.land r2 m2 = r2)
    by (rewrite <- H2, <- Z.land_assoc, Z.land_diag; reflexivity).
  assert (C : Z.land (Z.lxor r1 r2) (Z.land m1 m2) = 0).
  { apply Z.bits_inj'. intros k Hk.
    rewrite Z.land_spec, Z.lxor_spec, Z.land_spec, Z.bits_0.
    rewrite <- H1, <- H2, !Z.land_spec.
    destruct (Z.testbit opcode k), (Z.testbit m1 k), (Z.testbit m2 k);
      reflexivity. }
  rewrite S1, S2, C, !Z.eqb_refl. reflexivity.
Qed.

Lemma opcode_table_exclusive : table_exclusive opcode_table = true.
Proof. vm_compute. reflexivity. Qed.

(** X1.  No opcode passes the test of two entries of the opcode table that
    name different instructions: whichever entry an opcode matches, its
    instruction is the one [decode] returns, so the order of the table
    decides nothing. *)
Theorem decode_returns_any_match (opcode : Z) (e : Z * Z * Instruction) :
  In e opcode_table ->
  Z.land opcode (fst (fst e)) = snd (fst e) ->
  decode_in opcode_table opcode = Some (snd e).
Proof.
  intros Hin Hmatch.
  assert (He : entry_matches opcode e = true) by now apply Z.eqb_eq.
  rewrite decode_in_first_match.
  destruct (List.filter (entry_matches opcode) opcode_table) as [|f rest] eqn:Hf.
  - exfalso.
    assert (Hmem : In e (List.filter (entry_matches opcode) opcode_table))
      by (apply filter_In; split; assumption).
    rewrite Hf in Hmem. exact Hmem.
  - assert (Hfin : In f (List.filter (entry_matches opcode) opcode_table))
      by (rewrite Hf; now left).
    apply filter_In in Hfin as [Hfin Hfm].
    pose proof opcode_table_exclusive as Hex. unfold table_exclusive in Hex.
    rewrite forallb_forall in Hex. specialize (Hex f Hfin).
    rewrite forallb_forall in Hex. specialize (Hex e Hin).
    destruct (Instruction_eq_dec (snd f) (snd e)) as [->|_]; [reflexivity|].
    rewrite (entries_clash_sound opcode f e Hfm He) in Hex. discriminate.
Qed.

(** The opcode 0x8AB4 and the entry of [OP8XY4]. *)
Lemma decode_returns_any_match_witness :
  (In (0xf00f, 0x8004, OP8XY4) opcode_table
   /\ Z.land 0x8AB4 0xf00f = 0x8004)
  /\ decode_in opcode_table 0x8AB4 = Some OP8XY4.
Proof.
  assert (H1 : In (0xf00f, 0x8004, OP8XY4) opcode_table)
    by (unfold opcode_table; simpl; tauto).
  assert (H2 : Z.land 0x8AB4 0xf00f = 0x8004) by reflexivity.
  split; [auto|].
  exact (decode_returns_any_match 0x8AB4 (0xf00f, 0x8004, OP8XY4) H1 H2).
Defined.

(** * Invariants of methods *)

Section keeps.
Context (inv : Chip8CPU -> Prop).

Lemma keeps_ret {A} (a : A) (post : A -> Prop) :
  post a -> keeps inv (ret a) post.
Proof. intros Ha s Hs. simpl. auto. Qed.

Lemma keeps_raise {A} (e : exception) (post : A -> Prop) :
  keeps inv (raise e) post.
Proof. intros s Hs. exact Hs. Qed.

Lemma keeps_gets {A} (f : Chip8CPU -> A) (post : A -> Prop) :
  (forall s, inv s -> post (f s)) -> keeps inv (gets f) post.
Proof. intros Hf s Hs. simpl. auto. Qed.

Lemma keeps_modify (f : Chip8CPU -> Chip8CPU) (post : unit -> Prop) :
  (forall s, inv s -> inv (f s)) -> post tt -> keeps inv (modify f) post.
Proof. intros Hf Hp s Hs. simpl. auto. Qed.

Lemma keeps_lift_index {A} (o : option A) (post : A -> Prop) :
  (forall a, o = Some a -> post a) -> keeps inv (lift_index o) post.
Proof. intros Ho s Hs. destruct o; simpl; auto. Qed.

Lemma keeps_bind {A B} (m : M A) (f : A -> M B)
      (mid : A -> Prop) (post : B -> Prop) :
  keeps inv m mid -> (forall a, mid a -> keeps inv (f a) post) ->
  keeps inv (bind m f) post.
Proof.
  intros Hm Hf s Hs. unfold bind. specialize (Hm s Hs).
  destruct (m s) as [a s'|e s']; [|exact Hm].
  destruct Hm as [Hs' Ha]. exact (Hf a Ha s' Hs').
Qed.

Lemma keeps_weaken {A} (m : M A) (post post' : A -> Prop) :
  keeps inv m post -> (forall a, post a -> post' a) -> keeps inv m post'.
Proof.
  intros Hm Himp s Hs. specialize (Hm s Hs).
  destruct (m s); [|exact Hm]. destruct Hm. auto.
Qed.

Lemma keeps_for_loop {A L} (xs : list A) (body : A -> L -> M L)
      (post : L -> Prop) (l : L) :
  (forall x l, post l -> keeps inv (body x l) post) -> post l ->
  keeps inv (for_loop xs body l) post.
Proof.
  intros Hbody. revert l. induction xs as [|x xs IH]; intros l Hl; simpl.
  - now apply keeps_ret.
  - eapply keeps_bind; [apply Hbody, Hl|]. intros l' Hl'. now apply IH.
Qed.

Lemma keeps_state_of {A} (m : M A) (post : A -> Prop) (s : Chip8CPU) :
  keeps inv m post -> inv s -> inv (state_of (m s)).
Proof.
  intros Hm Hs. specialize (Hm s Hs). destruct (m s); simpl; tauto.
Qed.
End keeps.

(** A step of a proof that a method keeps an invariant which its
    assignments keep by computation. *)
Ltac keeps_step :=
  match goal with
  | |- keeps _ (ret _) _ => apply keeps_ret; exact I
  | |- keeps _ (raise _) _ => apply keeps_raise
  | |- keeps _ (gets _) _ => apply keeps_gets; intros; exact I
  | |- keeps _ (lift_index _) _ => apply keeps_lift_index; intros; exact I
  | |- keeps _ (modify _) _ =>
      apply keeps_modify; [intros ? Hkept; exact Hkept|exact I]
  | |- keeps _ (bind _ _) _ =>
      eapply keeps_bind with (mid := fun _ => True); [|intros ? _]
  | |- keeps _ (for_loop _ _ _) _ =>
      apply keeps_for_loop; [intros ? ? _|exact I]
  | |- keeps _ (if ?b then _ else _) _ => destruct b
  | |- keeps _ (match ?x with _ => _ end) _ => destruct x
  end.

Ltac keeps_unfold :=
  unfold OP0NNN_execute, OP00E0_execute, OP00EE_execute, OP1NNN_execute,
    OP2NNN_execute, OP3XNN_execute, OP4XNN_execute, OP5XY0_execute,
    OP6XNN_execute, OP7XNN_execute, OP8XY0_execute, OP8XY1_execute,
    OP8XY2_execute, OP8XY3_execute, OP8XY4_execute, OP8XY5_execute,
    OP8XY6_execute, OP8XY7_execute, OP8XYE_execute, OP9XY0_execute,
    OPANNN_execute, OPBNNN_execute, OPCXNN_execute, OPDXYN_execute,
    OPEX9E_execute, OPEXA1_execute, OPFX07_execute, OPFX0A_execute,
    OPFX15_execute, OPFX18_execute, OPFX1E_execute, OPFX29_execute,
    OPFX33_execute, OPFX55_execute, OPFX65_execute,
    draw_row, draw_pixel, skip_next, floor_div, randint, reset_screen,
    get_pixel, set_pixel, get_v, set_v, get_mem, set_mem, update_pc;
  cbv zeta.

Ltac keeps_auto := keeps_unfold; repeat keeps_step.

(** No instruction assigns to the timers of the CPU or to its inputs. *)
Lemma Instruction_keeps_timers_and_inputs
      (ins : Instruction) (opcode : Z) (dt st : Z) (inp : list Z) :
  keeps (fun s => delay_timer s = dt /\ sound_timer s = st /\ inputs s = inp)
        (Instruction_execute ins opcode) (fun _ => True).
Proof. destruct ins; simpl Instruction_execute; keeps_auto. Qed.

Lemma cycle_keeps_timers_and_inputs (dt st : Z) (inp : list Z) :
  keeps (fun s => delay_timer s = dt /\ sound_timer s = st /\ inputs s = inp)
        cycle (fun _ => True).
Proof.
  unfold cycle, fetch, decode, execute. keeps_auto.
  apply Instruction_keeps_timers_and_inputs.
Qed.

Lemma cycles_keeps (inv : Chip8CPU -> Prop) (n : nat) :
  keeps inv cycle (fun _ => True) -> keeps inv (cycles n) (fun _ => True).
Proof.
  intros Hc. induction n as [|n IH]; simpl.
  - now apply keeps_ret.
  - apply keeps_bind with (mid := fun _ => True); [exact Hc|].
    intros _ _. exact IH.
Qed.

Lemma frames_keep_zero (n : nat) (inp : list Z) :
  keeps (fun s => delay_timer s = 0 /\ sound_timer s = 0 /\ inputs s = inp)
        (frames n) (fun _ => True).
Proof.
  induction n as [|n IH]; simpl.
  - now apply keeps_ret.
  - apply keeps_bind with (mid := fun _ => True); [|intros _ _; exact IH].
    unfold frame. apply keeps_bind with (mid := fun _ => True).
    + apply cycles_keeps, cycle_keeps_timers_and_inputs.
    + intros _ _ s (Hd & Hs & Hi). rewrite update_timers_Ok, Hd, Hs.
      simpl. auto.
Qed.

Lemma boot_keeps_zero (tape rom : list Z) :
  let s := state_of (boot rom (blank tape)) in
  delay_timer s = 0 /\ sound_timer s = 0 /\ inputs s = replicate 16 0.
Proof.
  assert (Hboot : boot rom (blank tape)
                  = load_rom rom (state_of (reset_cpu (blank tape))))
    by reflexivity.
  rewrite Hboot.
  apply (keeps_state_of
           (fun s => delay_timer s = 0 /\ sound_timer s = 0
                     /\ inputs s = replicate 16 0)
           (load_rom rom) (fun _ => True)).
  - unfold load_rom. keeps_auto.
  - repeat split.
Qed.

(** X2.  A cycle, however it ends, leaves the delay timer, the sound timer
    and the inputs of the CPU as they were; and on a CPU made by
    [Chip8CPU(...)] and [load_rom], after any number of turns of the loop
    of [start] (four cycles and a timer tick each), both timers are 0 and
    the sixteen inputs are 0, wherever the run stopped. *)
Theorem timers_and_inputs_stay_zero :
  (forall s,
     delay_timer (state_of (cycle s)) = delay_timer s
     /\ sound_timer (state_of (cycle s)) = sound_timer s
     /\ inputs (state_of (cycle s)) = inputs s)
  /\ (forall (tape rom : list Z) (n : nat),
        let s := state_of (frames n (state_of (boot rom (blank tape)))) in
        delay_timer s = 0 /\ sound_timer s = 0 /\ inputs s = replicate 16 0).
Proof.
  split.
  - intros s.
    apply (keeps_state_of _ cycle (fun _ => True)
             s (cycle_keeps_timers_and_inputs _ _ _)).
    auto.
  - intros tape rom n.
    apply (keeps_state_of _ (frames n) (fun _ => True)
             _ (frames_keep_zero n (replicate 16 0))).
    apply boot_keeps_zero.
Qed.

(** * Control flow, cycle by cycle *)

(** A cycle whose opcode matches a table entry runs that entry's
    instruction and then [update_pc]. *)
Lemma cycle_runs (s : Chip8CPU) (opcode : Z) (e : Z * Z * Instruction) :
  fetch s = Ok opcode s ->
  In e opcode_table ->
  Z.land opcode (fst (fst e)) = snd (fst e) ->
  cycle s = (Instruction_execute (snd e) opcode ;; update_pc) s.
Proof.
  intros Hfetch Hin Hmatch. unfold cycle.
  rewrite (bind_Ok _ _ _ _ _ Hfetch).
  unfold decode, bind at 1, ret.
  rewrite (decode_returns_any_match opcode e Hin Hmatch). reflexivity.
Qed.

Lemma bind_at {A B} (m m' : M A) (f : A -> M B) (s : Chip8CPU) :
  m s = m' s -> bind m f s = bind m' f s.
Proof. unfold bind. now intros ->. Qed.

Ltac in_table := unfold opcode_table; simpl; tauto.

Lemma with_program_counter_twice (a b : Z) (s : Chip8CPU) :
  with_program_counter a (with_program_counter b s) = with_program_counter a s.
Proof. reflexivity. Qed.

(** X3.  The four skip instructions, over a whole cycle: the program
    counter moves on by 4 when the condition of the skip holds and by 2
    when it does not, and nothing else of the state changes. *)
Theorem skip_moves_pc_by_four (s : Chip8CPU) (opcode : Z) :
  fetch s = Ok opcode s ->
  length (v_registers s) = 16%nat ->
  let vx := reg s (Z.land opcode 0x0f00 ≫ 8) in
  let vy := reg s (Z.land opcode 0x00f0 ≫ 4) in
  let nn := Z.land opcode 0x00ff in
  let pc := program_counter s in
  (Z.land opcode 0xf000 = 0x3000 ->
   cycle s = Ok tt (with_program_counter (if vx =? nn then pc + 4 else pc + 2) s))
  /\ (Z.land opcode 0xf000 = 0x4000 ->
      cycle s = Ok tt (with_program_counter (if vx =? nn then pc + 2 else pc + 4) s))
  /\ (Z.land opcode 0xf00f = 0x5000 ->
      cycle s = Ok tt (with_program_counter (if vx =? vy then pc + 4 else pc + 2) s))
  /\ (Z.land opcode 0xf00f = 0x9000 ->
      cycle s = Ok tt (with_program_counter (if vx =? vy then pc + 2 else pc + 4) s)).
Proof.
  intros Hfetch Hlen vx vy nn pc.
  pose proof (field_x_range opcode) as Hx. pose proof (field_y_range opcode) as Hy.
  assert (Hskip : (skip_next ;; update_pc) s = Ok tt (with_program_counter (pc + 4) s)).
  { unfold skip_next, update_pc, bind, gets, modify. simpl.
    rewrite with_program_counter_twice. do 2 f_equal. unfold pc. lia. }
  assert (Hstay : (ret tt ;; update_pc) s = Ok tt (with_program_counter (pc + 2) s))
    by reflexivity.
  assert (Hcond : forall (b : bool) (m : M unit),
            m s = (if b then skip_next else ret tt) s ->
            (m ;; update_pc) s
            = Ok tt (with_program_counter (if b then pc + 4 else pc + 2) s)).
  { intros b m Hm. rewrite (bind_at _ _ _ s Hm).
    destruct b; [exact Hskip|exact Hstay]. }
  assert (Hcond' : forall (b : bool) (m : M unit),
            m s = (if negb b then skip_next else ret tt) s ->
            (m ;; update_pc) s
            = Ok tt (with_program_counter (if b then pc + 2 else pc + 4) s)).
  { intros b m Hm. rewrite (bind_at _ _ _ s Hm).
    destruct b; [exact Hstay|exact Hskip]. }
  repeat split; intros Hop.
  - rewrite (cycle_runs s opcode (0xf000, 0x3000, OP3XNN) Hfetch ltac:(in_table) Hop).
    change (Instruction_execute _ opcode) with (OP3XNN_execute opcode).
    apply Hcond. unfold OP3XNN_execute.
    now rewrite (bind_Ok _ _ _ _ _ (get_v_Ok s Hlen _ Hx)).
  - rewrite (cycle_runs s opcode (0xf000, 0x4000, OP4XNN) Hfetch ltac:(in_table) Hop).
    change (Instruction_execute _ opcode) with (OP4XNN_execute opcode).
    apply Hcond'. unfold OP4XNN_execute.
    now rewrite (bind_Ok _ _ _ _ _ (get_v_Ok s Hlen _ Hx)).
  - rewrite (cycle_runs s opcode (0xf00f, 0x5000, OP5XY0) Hfetch ltac:(in_table) Hop).
    change (Instruction_execute _ opcode) with (OP5XY0_execute opcode).
    apply Hcond. unfold OP5XY0_execute.
    rewrite (bind_Ok _ _ _ _ _ (get_v_Ok s Hlen _ Hx)).
    now rewrite (bind_Ok _ _ _ _ _ (get_v_Ok s Hlen _ Hy)).
  - rewrite (cycle_runs s opcode (0xf00f, 0x9000, OP9XY0) Hfetch ltac:(in_table) Hop).
    change (Instruction_execute _ opcode) with (OP9XY0_execute opcode).
    apply Hcond'. unfold OP9XY0_execute.
    rewrite (bind_Ok _ _ _ _ _ (get_v_Ok s Hlen _ Hx)).
    now rewrite (bind_Ok _ _ _ _ _ (get_v_Ok s Hlen _ Hy)).
Qed.

(** [V0 = 5] and then the opcode 0x3005. *)
Lemma skip_moves_pc_by_four_witness :
  let s := state_of (cycles 1 (booted [0x60; 0x05; 0x30; 0x05])) in
  (fetch s = Ok 0x3005 s /\ length (v_registers s) = 16%nat
   /\ Z.land 0x3005 0xf000 = 0x3000)
  /\ program_counter s = 0x202
  /\ program_counter (state_of (cycle s)) = 0x206.
Proof.
  intros s.
  assert (H1 : fetch s = Ok 0x3005 s) by (vm_compute; reflexivity).
  assert (H2 : length (v_registers s) = 16%nat) by (vm_compute; reflexivity).
  assert (H3 : Z.land 0x3005 0xf000 = 0x3000) by reflexivity.
  split; [auto|]. split; [vm_compute; reflexivity|].
  destruct (skip_moves_pc_by_four s 0x3005 H1 H2) as (Hskip & _).
  rewrite (Hskip H3). vm_compute. reflexivity.
Defined.

(** X4.  A jump, over a whole cycle, leaves the program counter exactly
    at NNN (for [OP1NNN]) or at NNN + V0 (for [OPBNNN]): the 2 the
    instruction takes off and the 2 the cycle adds cancel.  Nothing else
    changes. *)
Theorem jump_lands_on_target (s : Chip8CPU) (opcode : Z) :
  fetch s = Ok opcode s ->
  let nnn := Z.land opcode 0x0fff in
  (Z.land opcode 0xf000 = 0x1000 ->
   cycle s = Ok tt (with_program_counter nnn s))
  /\ (Z.land opcode 0xf000 = 0xb000 -> length (v_registers s) = 16%nat ->
      cycle s = Ok tt (with_program_counter (nnn + reg s 0) s)).
Proof.
  intros Hfetch nnn. split.
  - intros Hop.
    rewrite (cycle_runs s opcode (0xf000, 0x1000, OP1NNN) Hfetch ltac:(in_table) Hop).
    unfold update_pc, bind, gets, modify. simpl. fold nnn.
    rewrite !with_program_counter_twice. do 2 f_equal. lia.
  - intros Hop Hlen.
    rewrite (cycle_runs s opcode (0xf000, 0xb000, OPBNNN) Hfetch ltac:(in_table) Hop).
    change (Instruction_execute _ opcode) with (OPBNNN_execute opcode).
    unfold OPBNNN_execute. fold nnn.
    rewrite (bind_at _ _ _ s
               (bind_Ok _ _ _ _ _ (get_v_Ok s Hlen 0 ltac:(lia)))).
    unfold update_pc, bind, gets, modify. simpl.
    rewrite !with_program_counter_twice. do 2 f_equal. lia.
Qed.

(** A jump to 0x2A4 as the first instruction of a ROM. *)
Lemma jump_lands_on_target_witness :
  let s := booted [0x12; 0xA4] in
  (fetch s = Ok 0x12A4 s /\ Z.land 0x12A4 0xf000 = 0x1000)
  /\ cycle s = Ok tt (with_program_counter 0x2A4 s).
Proof.
  intros s.
  assert (H1 : fetch s = Ok 0x12A4 s) by (vm_compute; reflexivity).
  assert (H2 : Z.land 0x12A4 0xf000 = 0x1000) by reflexivity.
  split; [auto|].
  destruct (jump_lands_on_target s 0x12A4 H1) as (Hjump & _).
  exact (Hjump H2).
Defined.

Lemma with_stack_same (s : Chip8CPU) : with_stack (stack s) s = s.
Proof. destruct s. reflexivity. Qed.

Lemma py_getitem_last {A} (l : list A) (a : A) :
  py_getitem (l ++ [a]) (-1) = Some a.
Proof.
  unfold py_getitem, py_index. rewrite length_app. simpl length.
  destruct (Z.leb_spec 0 (-1)); [lia|]. simpl.
  destruct (Z.leb_spec (- Z.of_nat (length l + 1)) (-1)); [|lia]. simpl.
  replace (Z.to_nat (Z.of_nat (length l + 1) + -1)) with (length l) by lia.
  rewrite lookup_app_r by lia. now rewrite Nat.sub_diag.
Qed.

(** X5.  A call, over a whole cycle, pushes the address of the call on
    the stack and leaves the program counter at NNN; if the opcode found
    there is the return 0x00EE, the next cycle pops that address and ends
    at the instruction after the call, with the stack and everything else
    as before the call. *)
Theorem call_then_return (s : Chip8CPU) (opcode : Z) :
  fetch s = Ok opcode s ->
  Z.land opcode 0xf000 = 0x2000 ->
  exists s1,
    cycle s = Ok tt s1
    /\ program_counter s1 = Z.land opcode 0x0fff
    /\ stack s1 = stack s ++ [program_counter s]
    /\ (fetch s1 = Ok 0x00EE s1 ->
        cycle s1 = Ok tt (with_program_counter (program_counter s + 2) s)).
Proof.
  intros Hfetch Hop.
  set (nnn := Z.land opcode 0x0fff).
  set (s1 := with_program_counter nnn
               (with_stack (stack s ++ [program_counter s]) s)).
  exists s1. split; [|split; [reflexivity|split; [reflexivity|]]].
  - rewrite (cycle_runs s opcode (0xf000, 0x2000, OP2NNN) Hfetch ltac:(in_table) Hop).
    unfold update_pc, bind, gets, modify. simpl. fold nnn.
    unfold s1. rewrite !with_program_counter_twice. do 2 f_equal. lia.
  - intros Hret.
    rewrite (cycle_runs s1 0x00EE (0xffff, 0x00ee, OP00EE) Hret ltac:(in_table) eq_refl).
    change (Instruction_execute _ 0x00EE) with (OP00EE_execute 0x00EE).
    unfold OP00EE_execute, update_pc, bind, gets, modify.
    change (stack s1) with (stack s ++ [program_counter s]).
    rewrite py_getitem_last. simpl.
    rewrite length_app. simpl length.
    replace (length (stack s) + 1 - 1)%nat with (length (stack s)) by lia.
    rewrite take_app_length.
    rewrite <- (with_stack_same s) at 4. reflexivity.
Qed.

(** A call to 0x204, where a return lies. *)
Lemma call_then_return_witness :
  let s := booted [0x22; 0x04; 0x00; 0x00; 0x00; 0xEE] in
  (fetch s = Ok 0x2204 s /\ Z.land 0x2204 0xf000 = 0x2000)
  /\ exists s1,
       cycle s = Ok tt s1 /\ stack s1 = [0x200]
       /\ cycle s1 = Ok tt (with_program_counter 0x202 s).
Proof.
  intros s.
  assert (H1 : fetch s = Ok 0x2204 s) by (vm_compute; reflexivity).
  assert (H2 : Z.land 0x2204 0xf000 = 0x2000) by reflexivity.
  split; [auto|].
  destruct (call_then_return s 0x2204 H1 H2) as (s1 & Hcall & Hpc & Hst & Hret).
  exists s1. split; [exact Hcall|]. split; [exact Hst|].
  apply Hret.
  assert (Hs1 : s1 = state_of (cycle s)) by (rewrite Hcall; reflexivity).
  rewrite Hs1. vm_compute. reflexivity.
Defined.

(** X6.  A return with nothing on the stack: [stack.pop()] raises
    [IndexError], and the cycle stops there with no attribute changed. *)
Theorem return_on_empty_stack_raises (s : Chip8CPU) :
  fetch s = Ok 0x00EE s ->
  stack s = [] ->
  cycle s = Raise IndexError s.
Proof.
  intros Hfetch Hempty.
  rewrite (cycle_runs s 0x00EE (0xffff, 0x00ee, OP00EE) Hfetch ltac:(in_table) eq_refl).
  change (Instruction_execute _ 0x00EE) with (OP00EE_execute 0x00EE).
  unfold OP00EE_execute, bind, gets. rewrite Hempty. reflexivity.
Qed.

(** A ROM that starts with a return. *)
Lemma return_on_empty_stack_raises_witness :
  let s := booted [0x00; 0xEE] in
  (fetch s = Ok 0x00EE s /\ stack s = [])
  /\ cycle s = Raise IndexError s.
Proof.
  intros s.
  assert (H1 : fetch s = Ok 0x00EE s) by (vm_compute; reflexivity).
  assert (H2 : stack s = []) by reflexivity.
  split; [auto|]. exact (return_on_empty_stack_raises s H1 H2).
Defined.

Lemma get_mem_Raise (s : Chip8CPU) (a : Z) :
  ~ (- Z.of_nat (length (memory s)) <= a < Z.of_nat (length (memory s))) ->
  get_mem a s = Raise IndexError s.
Proof.
  intros Ha. unfold get_mem, bind, gets, lift_index, py_getitem, py_index.
  destruct (Z.leb_spec 0 a), (Z.ltb_spec a (Z.of_nat (length (memory s))));
    simpl; try lia;
    destruct (Z.leb_spec (- Z.of_nat (length (memory s))) a), (Z.ltb_spec a 0);
    simpl; try lia; reflexivity.
Qed.

(** X7.  When the program counter has run to the last cell of memory or
    beyond, [fetch] raises [IndexError] and the cycle changes nothing. *)
Theorem fetch_beyond_memory_raises (s : Chip8CPU) :
  Z.of_nat (length (memory s)) <= program_counter s + 1 ->
  fetch s = Raise IndexError s /\ cycle s = Raise IndexError s.
Proof.
  intros Hpc.
  assert (Hfetch : fetch s = Raise IndexError s).
  { unfold fetch, bind at 1, gets.
    destruct (Z_lt_le_dec (program_counter s) (Z.of_nat (length (memory s))))
      as [Hin|Hout];
      [destruct (Z_le_gt_dec (- Z.of_nat (length (memory s))) (program_counter s))
         as [Hlo|Hlo]|].
    - destruct (get_mem_Ok s (program_counter s)) as [Hrun _]; [lia|].
      rewrite (bind_Ok _ _ _ _ _ Hrun).
      apply bind_Raise, get_mem_Raise. lia.
    - apply bind_Raise, get_mem_Raise. lia.
    - apply bind_Raise, get_mem_Raise. lia. }
  split; [exact Hfetch|].
  unfold cycle. now rewrite (bind_Raise _ _ _ _ _ Hfetch).
Qed.

(** A jump to the last cell, 0xFFF, and the cycle after it. *)
Lemma fetch_beyond_memory_raises_witness :
  let s := state_of (cycle (booted [0x1F; 0xFF])) in
  Z.of_nat (length (memory s)) <= program_counter s + 1
  /\ cycle s = Raise IndexError s.
Proof.
  intros s.
  assert (H : Z.of_nat (length (memory s)) <= program_counter s + 1)
    by (vm_compute; discriminate).
  split; [exact H|]. exact (proj2 (fetch_beyond_memory_raises s H)).
Defined.

(** * Loading a ROM *)

Lemma set_mem_Ok (s : Chip8CPU) (a val : Z) :
  0 <= a < Z.of_nat (length (memory s)) ->
  set_mem a val s = Ok tt (with_memory (<[Z.to_nat a := val]> (memory s)) s).
Proof.
  intros Ha. unfold set_mem, bind, gets, lift_index.
  rewrite py_setitem_nonneg by lia. reflexivity.
Qed.

Lemma set_mem_Raise (s : Chip8CPU) (a val : Z) :
  Z.of_nat (length (memory s)) <= a ->
  set_mem a val s = Raise IndexError s.
Proof.
  intros Ha. unfold set_mem, bind, gets, lift_index, py_setitem, py_index.
  destruct (Z.ltb_spec a (Z.of_nat (length (memory s)))); [lia|].
  destruct (Z.ltb_spec a 0); [lia|]. rewrite !andb_false_r. reflexivity.
Qed.

Lemma with_memory_twice (m m' : list Z) (s : Chip8CPU) :
  with_memory m (with_memory m' s) = with_memory m s.
Proof. reflexivity. Qed.

(** The loop of [load_rom], started at cell [i] with room for the bytes. *)
Lemma load_rom_loop (rom : list Z) (i : nat) (s : Chip8CPU) :
  (i + length rom <= length (memory s))%nat ->
  for_loop rom (fun byte i => set_mem i byte ;; ret (i + 1)) (Z.of_nat i) s
  = Ok (Z.of_nat (i + length rom))
       (with_memory (take i (memory s) ++ rom
                     ++ drop (i + length rom) (memory s)) s).
Proof.
  revert i s. induction rom as [|b rom IH]; intros i s Hfit; simpl.
  - rewrite Nat.add_0_r, take_drop. destruct s. reflexivity.
  - simpl in Hfit.
    assert (Hbody : (set_mem (Z.of_nat i) b ;; ret (Z.of_nat i + 1)) s
                    = Ok (Z.of_nat (S i))
                         (with_memory (<[i := b]> (memory s)) s)).
    { rewrite (bind_Ok _ _ _ _ _ (set_mem_Ok s (Z.of_nat i) b ltac:(lia))).
      rewrite Nat2Z.id. unfold ret. f_equal. lia. }
    rewrite (bind_Ok _ _ _ _ _ Hbody).
    rewrite IH by (simpl; rewrite length_insert; lia).
    simpl memory. rewrite with_memory_twice.
    replace (S i + length rom)%nat with (i + S (length rom))%nat by lia.
    do 2 f_equal.
    rewrite drop_insert_lt by lia.
    assert (Hb : <[i := b]> (memory s) !! i = Some b)
      by (apply list_lookup_insert_eq; lia).
    rewrite (take_S_r _ _ _ Hb), take_insert_ge by lia.
    now rewrite <- app_assoc.
Qed.

(** X8.  [load_rom] of a ROM that fits between 0x200 and the end of memory
    copies its bytes, in order, to the cells from 0x200 on and changes
    nothing else: not the cells below 0x200, not the cells after the
    ROM, no other attribute. *)
Theorem load_rom_copies_at_0x200 (s : Chip8CPU) (rom : list Z) :
  (512 + length rom <= length (memory s))%nat ->
  load_rom rom s
  = Ok tt (with_memory (take 512 (memory s) ++ rom
                        ++ drop (512 + length rom) (memory s)) s).
Proof.
  intros Hfit. unfold load_rom.
  change START_ADDRESS with (Z.of_nat 512).
  rewrite (bind_Ok _ _ _ _ _ (load_rom_loop rom 512 s Hfit)). reflexivity.
Qed.

(** Three bytes loaded into a fresh CPU. *)
Lemma load_rom_copies_at_0x200_witness :
  let s := state_of (Chip8CPU_init []) in
  (512 + length [0xA2; 0x06; 0xFF] <= length (memory s))%nat
  /\ exists s', load_rom [0xA2; 0x06; 0xFF] s = Ok tt s'
                /\ byte_at s' 0x200 = 0xA2 /\ byte_at s' 0x202 = 0xFF
                /\ byte_at s' 0x1FF = 0 /\ byte_at s' 0x203 = 0.
Proof.
  intros s.
  assert (H : (512 + length [0xA2; 0x06; 0xFF] <= length (memory s))%nat)
    by (vm_compute; lia).
  split; [exact H|]. eexists. split.
  - exact (load_rom_copies_at_0x200 s [0xA2; 0x06; 0xFF] H).
  - vm_compute. repeat split; reflexivity.
Defined.

(** X9.  [load_rom] of a ROM too long for the room from 0x200 to the end
    of memory raises [IndexError] at the first byte that does not fit,
    having copied all the bytes before it: memory is then the cells below
    0x200 followed by the part of the ROM that fitted. *)
Theorem load_rom_too_long_raises (s : Chip8CPU) (rom : list Z) :
  (512 <= length (memory s))%nat ->
  (length (memory s) < 512 + length rom)%nat ->
  load_rom rom s
  = Raise IndexError
      (with_memory (take 512 (memory s)
                    ++ take (length (memory s) - 512) rom) s).
Proof.
  intros Hlow Hlong. unfold load_rom.
  set (k := (length (memory s) - 512)%nat).
  assert (Hk : length (take k rom) = k) by (rewrite length_take; lia).
  rewrite <- (take_drop k rom) at 1.
  change START_ADDRESS with (Z.of_nat 512).
  apply bind_Raise. rewrite for_loop_app.
  rewrite (bind_Ok _ _ _ _ _ (load_rom_loop (take k rom) 512 s ltac:(lia))).
  rewrite Hk. replace (512 + k)%nat with (length (memory s)) by lia.
  rewrite drop_all, app_nil_r.
  destruct (drop k rom) as [|b rest] eqn:Hrest.
  { exfalso. assert (Hlen : length (drop k rom) = 0%nat) by now rewrite Hrest.
    rewrite length_drop in Hlen. lia. }
  simpl for_loop. apply bind_Raise, bind_Raise.
  apply set_mem_Raise. simpl. rewrite length_app, length_take, Hk. lia.
Qed.

(** A ROM of 3585 bytes for the 3584 cells from 0x200 on. *)
Lemma load_rom_too_long_raises_witness :
  let s := state_of (Chip8CPU_init []) in
  let rom := replicate 3585 7 in
  ((512 <= length (memory s))%nat /\ (length (memory s) < 512 + length rom)%nat)
  /\ exists s', load_rom rom s = Raise IndexError s'
                /\ length (memory s') = 4096%nat /\ byte_at s' 4095 = 7.
Proof.
  intros s rom.
  assert (H1 : (512 <= length (memory s))%nat) by (vm_compute; lia).
  assert (H2 : (length (memory s) < 512 + length rom)%nat) by (vm_compute; lia).
  split; [auto|]. eexists. split.
  - exact (load_rom_too_long_raises s rom H1 H2).
  - vm_compute. split; reflexivity.
Defined.

(** * Reset *)

(** [reset_cpu] returns from every state and leaves the same CPU
    whatever the state was: 4096 cells of memory holding the 80 bytes of
    the character sprites and then zeros, the program counter at 0x200, an
    empty stack, sixteen registers and sixteen inputs at 0, I and both
    timers at 0, and the cleared screen.  Only the attributes of the
    instruction objects and the random source are those of before. *)
Theorem reset_cpu_forgets_the_state (s : Chip8CPU) :
  reset_cpu s
  = Ok tt (mkCPU (character_sprites ++ replicate 4016 0) 0x200 []
                 (replicate 16 0) 0 0 0 (replicate 16 0) blank_screen
                 (OPFX15_delay_timer s) (OPFX18_sound_timer s) (entropy s)).
Proof. destruct s. vm_compute. reflexivity. Qed.

(** * Binary-coded decimal *)

(** Below 1000 the float quotients by 100 and by 10 floor to the integer
    quotients. *)
Lemma true_div_floor_below_1000 (a : Z) :
  0 <= a < 1000 ->
  true_div_floor a 100 = Some (a / 100) /\ true_div_floor a 10 = Some (a / 10).
Proof.
  intros Ha.
  assert (Hall : Forall (fun a => true_div_floor a 100 = Some (a / 100)
                                  /\ true_div_floor a 10 = Some (a / 10))
                        (seqZ 0 1000)).
  { apply (bool_decide_unpack _). vm_compute. reflexivity. }
  rewrite Forall_seqZ in Hall. apply Hall. lia.
Qed.

(** Far above 2^53 the float quotient is not the integer quotient, and the
    digits stored are those of the float: for VX = 255 * 2^46 they are
    179440297653043, 2 and 0. *)
Example floor_div_beyond_2_53 :
  true_div_floor (255 * 2 ^ 46) 100 = Some 179440297653043
  /\ true_div_floor (255 * 2 ^ 46 - 179440297653043 * 100) 10 = Some 2.
Proof. vm_compute. split; reflexivity. Qed.

(** The same as a program run from reset: [V0 = 0xFF], 46 left shifts of
    V0, [I = 0x300] and the digits of V0.  All 49 cycles return. *)
Example digits_of_a_large_register :
  let rom := [0x60; 0xFF] ++ concat (replicate 46 [0x80; 0x0E])
             ++ [0xA3; 0x00; 0xF0; 0x33] in
  exists s, cycles 49 (booted rom) = Ok tt s
            /\ reg s 0 = 255 * 2 ^ 46
            /\ byte_at s 0x300 = 179440297653043
            /\ byte_at s 0x301 = 2 /\ byte_at s 0x302 = 0.
Proof.
  intros rom. exists (state_of (cycles 49 (booted rom))).
  vm_compute. repeat split; reflexivity.
Qed.

(** X11.  [OPFX33.execute], for VX from 0 to 999 and I with I + 2 inside
    memory: the cells I, I + 1, I + 2 receive the hundreds, tens and units
    digit of VX (each from 0 to 9, and together 100 h + 10 t + u = VX);
    every other cell of memory and every other attribute stay as they
    were. *)
Theorem OPFX33_stores_decimal_digits (s : Chip8CPU) (opcode : Z) :
  let vx := reg s (Z.land opcode 0x0f00 ≫ 8) in
  let i := i_register s in
  length (v_registers s) = 16%nat ->
  0 <= vx < 1000 ->
  0 <= i -> i + 2 < Z.of_nat (length (memory s)) ->
  exists h t u,
    OPFX33_execute opcode s
    = Ok tt (with_memory
               (<[Z.to_nat (i + 2) := u]>
                  (<[Z.to_nat (i + 1) := t]>
                     (<[Z.to_nat i := h]> (memory s)))) s)
    /\ 100 * h + 10 * t + u = vx
    /\ 0 <= h <= 9 /\ 0 <= t <= 9 /\ 0 <= u <= 9.
Proof.
  intros vx i Hlen Hvx Hi Hend.
  pose proof (field_x_range opcode) as Hx.
  exists (vx / 100), ((vx - vx / 100 * 100) / 10),
         (vx - vx / 100 * 100 - (vx - vx / 100 * 100) / 10 * 10).
  assert (Hrem : 0 <= vx - vx / 100 * 100 < 100).
  { pose proof (Z.mod_pos_bound vx 100 ltac:(lia)).
    rewrite Z.mod_eq in H by lia. lia. }
  assert (Hrem' : 0 <= vx - vx / 100 * 100 - (vx - vx / 100 * 100) / 10 * 10 < 10).
  { pose proof (Z.mod_pos_bound (vx - vx / 100 * 100) 10 ltac:(lia)).
    rewrite Z.mod_eq in H by lia. lia. }
  split; [|split; [lia|]].
  - unfold OPFX33_execute.
    rewrite (bind_Ok _ _ _ _ _ (get_v_Ok s Hlen _ Hx)). fold vx.
    unfold floor_div at 1.
    rewrite (proj1 (true_div_floor_below_1000 vx Hvx)).
    unfold bind at 1, ret at 1. cbv zeta.
    unfold floor_div at 1.
    rewrite (proj2 (true_div_floor_below_1000 (vx - vx / 100 * 100) ltac:(lia))).
    unfold bind at 1, ret at 1. cbv zeta.
    unfold bind at 1, gets at 1. fold i.
    rewrite (bind_Ok _ _ _ _ _ (set_mem_Ok s i _ ltac:(lia))).
    match goal with |- bind _ _ ?s1 = _ =>
      assert (Hlen1 : length (memory s1) = length (memory s))
        by (simpl; now rewrite length_insert);
      rewrite (bind_Ok _ _ _ _ _ (set_mem_Ok s1 (i + 1) _ ltac:(lia)))
    end.
    match goal with |- set_mem _ _ ?s2 = _ =>
      assert (Hlen2 : length (memory s2) = length (memory s))
        by (simpl; now rewrite !length_insert);
      rewrite (set_mem_Ok s2 (i + 2) _ ltac:(lia))
    end.
    reflexivity.
  - assert (0 <= vx / 100 <= 9).
    { split; [apply Z.div_pos; lia|].
      apply Z.lt_succ_r, Z.div_lt_upper_bound; lia. }
    assert (0 <= (vx - vx / 100 * 100) / 10 <= 9).
    { split; [apply Z.div_pos; lia|].
      apply Z.lt_succ_r, Z.div_lt_upper_bound; lia. }
    lia.
Qed.

(** VX = 234: the cells receive 2, 3 and 4. *)
Lemma OPFX33_stores_decimal_digits_witness :
  let s := with_i_register 0x300
             (with_v_registers [234; 0; 0; 0; 0; 0; 0; 0; 0; 0; 0; 0; 0; 0; 0; 0]
                (booted [])) in
  (length (v_registers s) = 16%nat /\ 0 <= reg s 0 < 1000
   /\ 0 <= i_register s /\ i_register s + 2 < Z.of_nat (length (memory s)))
  /\ exists s', OPFX33_execute 0xF033 s = Ok tt s'
                /\ byte_at s' 0x300 = 2 /\ byte_at s' 0x301 = 3
                /\ byte_at s' 0x302 = 4.
Proof.
  intros s.
  assert (H1 : length (v_registers s) = 16%nat) by reflexivity.
  assert (H2 : 0 <= reg s 0 < 1000) by (vm_compute; split; [discriminate|reflexivity]).
  assert (H3 : 0 <= i_register s) by (vm_compute; discriminate).
  assert (H4 : i_register s + 2 < Z.of_nat (length (memory s)))
    by (vm_compute; reflexivity).
  split; [auto|].
  destruct (OPFX33_stores_decimal_digits s 0xF033 H1 H2 H3 H4)
    as (h & t & u & Hrun & _).
  eexists. split; [exact Hrun|].
  assert (Hs : with_memory
                 (<[Z.to_nat (i_register s + 2) := u]>
                    (<[Z.to_nat (i_register s + 1) := t]>
                       (<[Z.to_nat (i_register s) := h]> (memory s)))) s
               = state_of (OPFX33_execute 0xF033 s))
    by (rewrite Hrun; reflexivity).
  rewrite Hs. vm_compute. repeat split; reflexivity.
Defined.

(** * The screen stays a screen *)

Lemma py_getitem_Forall {A} (P : A -> Prop) (l : list A) (i : Z) (a : A) :
  Forall P l -> py_getitem l i = Some a -> P a.
Proof.
  intros Hl. unfold py_getitem. destruct (py_index _ _); [|discriminate].
  intros Ha. exact (Forall_lookup_1 _ _ _ _ Hl Ha).
Qed.

Lemma py_setitem_Forall {A} (P : A -> Prop) (l l' : list A) (i : Z) (a : A) :
  Forall P l -> P a -> py_setitem l i a = Some l' -> Forall P l'.
Proof.
  intros Hl Ha. unfold py_setitem. destruct (py_index _ _); [|discriminate].
  intros [= <-]. now apply Forall_insert.
Qed.

Lemma blank_screen_ok : screen_ok blank_screen.
Proof.
  split; [apply blank_screen_sized|].
  vm_compute. repeat constructor.
Qed.

Lemma sprite_bit_is_bit (row k : Z) : is_bit (sprite_bit row k).
Proof. unfold sprite_bit, is_bit. destruct (_ =? 0); auto. Qed.

Lemma lxor_is_bit (a b : Z) : is_bit a -> is_bit b -> is_bit (Z.lxor a b).
Proof. intros [->| ->] [->| ->]; unfold is_bit; auto. Qed.

Section screen_kept.
Let inv (s : Chip8CPU) : Prop := screen_ok (screen s).

Lemma get_pixel_keeps (x y : Z) : keeps inv (get_pixel x y) is_bit.
Proof.
  intros s [Hsized Hbits]. unfold get_pixel, bind, gets, lift_index.
  destruct (py_getitem (screen s) y) as [row|] eqn:Hrow; simpl;
    [|now split].
  destruct (py_getitem row x) as [p|] eqn:Hp; simpl; [|now split].
  split; [now split|].
  eapply py_getitem_Forall; [|exact Hp].
  eapply (py_getitem_Forall (Forall is_bit)); [exact Hbits|exact Hrow].
Qed.

Lemma set_pixel_keeps (x y val : Z) :
  is_bit val -> keeps inv (set_pixel x y val) (fun _ => True).
Proof.
  intros Hval s [[Hlen Hrows] Hbits]. unfold set_pixel, bind, gets, lift_index.
  destruct (py_getitem (screen s) y) as [row|] eqn:Hrow; simpl;
    [|now repeat split].
  destruct (py_setitem row x val) as [row'|] eqn:Hrow'; simpl;
    [|now repeat split].
  destruct (py_setitem (screen s) y row') as [scr'|] eqn:Hscr'; simpl;
    [|now repeat split].
  assert (Hrowlen : length row = 64%nat)
    by exact (py_getitem_Forall _ _ _ _ Hrows Hrow).
  assert (Hrowbits : Forall is_bit row)
    by exact (py_getitem_Forall _ _ _ _ Hbits Hrow).
  split; [|exact I]. unfold inv. simpl. split; [split|].
  - rewrite (py_setitem_length _ _ _ _ Hscr'). exact Hlen.
  - eapply py_setitem_Forall; [exact Hrows| |exact Hscr'].
    rewrite (py_setitem_length _ _ _ _ Hrow'). exact Hrowlen.
  - eapply py_setitem_Forall; [exact Hbits| |exact Hscr'].
    eapply py_setitem_Forall; [exact Hrowbits|exact Hval|exact Hrow'].
Qed.

Lemma draw_pixel_keeps (row xc : Z) (loc : Z * Z) :
  keeps inv (draw_pixel row xc loc) (fun _ => True).
Proof.
  destruct loc as [yc o]. unfold draw_pixel.
  apply keeps_bind with (mid := is_bit); [apply get_pixel_keeps|].
  intros cur Hcur.
  apply keeps_bind with (mid := fun _ => True).
  { destruct (_ && _); keeps_auto. }
  intros _ _. apply keeps_bind with (mid := fun _ => True).
  - apply set_pixel_keeps, lxor_is_bit; [exact Hcur|apply sprite_bit_is_bit].
  - intros _ _. now apply keeps_ret.
Qed.

Lemma OPDXYN_keeps (opcode : Z) :
  keeps inv (OPDXYN_execute opcode) (fun _ => True).
Proof.
  unfold OPDXYN_execute, draw_row.
  unfold get_v, set_v, get_mem. repeat keeps_step.
  apply draw_pixel_keeps.
Qed.

Lemma Instruction_keeps_screen (ins : Instruction) (opcode : Z) :
  keeps inv (Instruction_execute ins opcode) (fun _ => True).
Proof.
  destruct ins; simpl Instruction_execute;
    try apply OPDXYN_keeps; try (keeps_auto; fail).
  unfold OP00E0_execute, reset_screen.
  apply keeps_modify; [|exact I]. intros s _. apply blank_screen_ok.
Qed.

Lemma cycle_keeps_screen : keeps inv cycle (fun _ => True).
Proof.
  unfold cycle, fetch, decode, execute. keeps_auto.
  apply Instruction_keeps_screen.
Qed.

Lemma frames_keep_screen (n : nat) : keeps inv (frames n) (fun _ => True).
Proof.
  induction n as [|n IH]; simpl.
  - now apply keeps_ret.
  - apply keeps_bind with (mid := fun _ => True); [|intros _ _; exact IH].
    unfold frame. apply keeps_bind with (mid := fun _ => True).
    + apply cycles_keeps, cycle_keeps_screen.
    + intros _ _. unfold update_timers. repeat keeps_step.
Qed.

Lemma boot_screen_ok (tape rom : list Z) :
  inv (state_of (boot rom (blank tape))).
Proof.
  assert (Hboot : boot rom (blank tape)
                  = load_rom rom (state_of (reset_cpu (blank tape))))
    by reflexivity.
  rewrite Hboot.
  apply (keeps_state_of inv (load_rom rom) (fun _ => True)).
  - unfold load_rom. keeps_auto.
  - apply blank_screen_ok.
Qed.
End screen_kept.

(** X12.  A cycle, however it ends, leaves a screen of 32 rows of 64
    pixels that are all 0 or 1 such a screen; and so is the screen of a
    CPU made by [Chip8CPU(...)] and [load_rom] after any number of turns
    of the loop of [start]. *)
Theorem screen_stays_ok :
  (forall s, screen_ok (screen s) -> screen_ok (screen (state_of (cycle s))))
  /\ (forall (tape rom : list Z) (n : nat),
        screen_ok (screen (state_of (frames n (state_of (boot rom (blank tape))))))).
Proof.
  split.
  - intros s Hs.
    exact (keeps_state_of _ cycle (fun _ => True) s cycle_keeps_screen Hs).
  - intros tape rom n.
    exact (keeps_state_of _ (frames n) (fun _ => True) _
             (frames_keep_screen n) (boot_screen_ok tape rom)).
Qed.

(** A cycle that draws a sprite. *)
Lemma screen_stays_ok_witness :
  let s := state_of (cycles 1 (booted [0xA2; 0x06; 0xD0; 0x11; 0xD0; 0x11; 0xFF])) in
  screen_ok (screen s)
  /\ screen_ok (screen (state_of (cycle s))).
Proof.
  intros s.
  assert (H : screen_ok (screen s)).
  { replace (screen s) with blank_screen by (vm_compute; reflexivity).
    apply blank_screen_ok. }
  split; [exact H|]. exact (proj1 screen_stays_ok s H).
Defined.

(** * Showing the screen *)

Lemma text_row_of_bits (row : list Z) :
  Forall is_bit row ->
  exists text,
    text_row row = Some text /\ length text = length row
    /\ forall k p, row !! k = Some p ->
         text !! k = Some (if p =? 1 then 0x2588 else 0x20).
Proof.
  induction row as [|p row IH]; intros Hrow.
  - exists []. repeat split. intros k p Hk. discriminate.
  - apply Forall_cons_1 in Hrow as [Hp Hrow].
    destruct (IH Hrow) as (text & Htext & Hlen & Hchars).
    exists ((if p =? 1 then 0x2588 else 0x20) :: text).
    split; [|split].
    + simpl. rewrite Htext. destruct Hp as [->| ->]; reflexivity.
    + simpl. now rewrite Hlen.
    + intros [|k] q Hk; simpl in *.
      * now injection Hk as ->.
      * now apply Hchars.
Qed.

Lemma print_rows_of_bits (i : Z) (rows : list (list Z)) :
  Forall (Forall is_bit) rows ->
  exists calls,
    print_rows i rows = (calls, true) /\ length calls = length rows
    /\ forall k row, rows !! k = Some row ->
         exists text, calls !! k = Some (i + Z.of_nat k, 0, text)
                      /\ text_row row = Some text.
Proof.
  revert i. induction rows as [|row rows IH]; intros i Hrows.
  - exists []. repeat split. intros k row Hk. discriminate.
  - apply Forall_cons_1 in Hrows as [Hrow Hrows].
    destruct (text_row_of_bits row Hrow) as (text & Htext & _).
    destruct (IH (i + 1) Hrows) as (calls & Hcalls & Hlen & Hall).
    exists ((i, 0, text) :: calls). split; [|split].
    + simpl. now rewrite Htext, Hcalls.
    + simpl. now rewrite Hlen.
    + intros [|k] row' Hk; simpl in *.
      * injection Hk as <-. exists text. rewrite Z.add_0_r. now split.
      * destruct (Hall k row' Hk) as (text' & Hcall & Htext').
        exists text'. split; [|exact Htext'].
        rewrite Hcall. do 3 f_equal. lia.
Qed.

(** X13.  [print_screen], on a screen of 32 rows of 64 pixels that are 0
    or 1, finds a character for every pixel (no [KeyError]) and makes
    32 calls [addstr(r, 0, text)], for r = 0..31 in order, each with a
    text of 64 characters, the character at column c being the full block
    U+2588 when pixel (c, r) is 1 and a space when it is 0. *)
Theorem print_screen_shows_every_pixel (s : Chip8CPU) :
  screen_ok (screen s) ->
  exists calls,
    print_screen s = (calls, true) /\ length calls = 32%nat
    /\ forall c r, 0 <= c < 64 -> 0 <= r < 32 ->
         exists text,
           calls !! Z.to_nat r = Some (r, 0, text)
           /\ length text = 64%nat
           /\ text !! Z.to_nat c = Some (if pixel s c r =? 1 then 0x2588 else 0x20).
Proof.
  intros [Hsized Hbits].
  destruct (print_rows_of_bits 0 (screen s) Hbits) as (calls & Hcalls & Hlen & Hall).
  exists calls. split; [exact Hcalls|]. split; [now rewrite Hlen, (proj1 Hsized)|].
  intros c r Hc Hr.
  destruct (pixel_of_lookup (screen s) c r Hsized Hc Hr)
    as (row & Hrow & Hrowlen & _ & _ & Hp).
  destruct (Hall _ _ Hrow) as (text & Hcall & Htext).
  destruct (text_row_of_bits row (Forall_lookup_1 _ _ _ _ Hbits Hrow))
    as (text' & Htext' & Htlen & Hchars).
  rewrite Htext in Htext'. injection Htext' as <-.
  exists text. split; [|split].
  - rewrite Hcall. do 3 f_equal. lia.
  - now rewrite Htlen.
  - exact (Hchars _ _ Hp).
Qed.

(** The screen after one draw of the row 0xFF at (0, 0). *)
Lemma print_screen_shows_every_pixel_witness :
  let s := state_of (cycles 2 (booted [0xA2; 0x06; 0xD0; 0x11; 0xD0; 0x11; 0xFF])) in
  screen_ok (screen s)
  /\ exists calls text,
       print_screen s = (calls, true)
       /\ calls !! 0%nat = Some (0, 0, text)
       /\ text !! 7%nat = Some 0x2588 /\ text !! 8%nat = Some 0x20.
Proof.
  intros s.
  assert (H : screen_ok (screen s)).
  { split; [split; [vm_compute; reflexivity|]|]; vm_compute;
      repeat (constructor; try (left; reflexivity); try (right; reflexivity)). }
  split; [exact H|].
  destruct (print_screen_shows_every_pixel s H) as (calls & Hrun & _ & Hall).
  destruct (Hall 7 0 ltac:(lia) ltac:(lia)) as (text & Hcall & _ & H7).
  destruct (Hall 8 0 ltac:(lia) ltac:(lia)) as (text' & Hcall' & _ & H8).
  rewrite Hcall in Hcall'. injection Hcall' as <-.
  exists calls, text. split; [exact Hrun|]. split; [exact Hcall|].
  split; [exact H7|exact H8].
Defined.

(** * More on drawing *)

(** Screens of the same size with the same pixels are the same list. *)
Lemma screen_ext (a b : list (list Z)) :
  screen_sized a -> screen_sized b ->
  (forall c r, 0 <= c < 64 -> 0 <= r < 32 -> pixel_of a c r = pixel_of b c r) ->
  a = b.
Proof.
  intros Ha Hb Hpix. apply list_eq. intros i.
  destruct (Nat.lt_ge_cases i 32) as [Hi|Hi].
  - destruct (pixel_of_lookup a 0 (Z.of_nat i) Ha ltac:(lia) ltac:(lia))
      as (ra & Hra & Hlena & _).
    destruct (pixel_of_lookup b 0 (Z.of_nat i) Hb ltac:(lia) ltac:(lia))
      as (rb & Hrb & Hlenb & _).
    rewrite Nat2Z.id in Hra, Hrb. rewrite Hra, Hrb. f_equal.
    apply list_eq. intros j.
    destruct (Nat.lt_ge_cases j 64) as [Hj|Hj].
    + destruct (pixel_of_lookup a (Z.of_nat j) (Z.of_nat i) Ha ltac:(lia) ltac:(lia))
        as (ra' & Hra' & _ & _ & _ & Hpa).
      destruct (pixel_of_lookup b (Z.of_nat j) (Z.of_nat i) Hb ltac:(lia) ltac:(lia))
        as (rb' & Hrb' & _ & _ & _ & Hpb).
      rewrite Nat2Z.id in Hra', Hrb', Hpa, Hpb.
      rewrite Hra in Hra'. injection Hra' as <-.
      rewrite Hrb in Hrb'. injection Hrb' as <-.
      rewrite Hpa, Hpb. f_equal. apply Hpix; lia.
    + rewrite !lookup_ge_None_2 by lia. reflexivity.
  - rewrite !lookup_ge_None_2; [reflexivity|destruct Hb; lia|destruct Ha; lia].
Qed.

(** X14.  Drawing the same sprite twice in a row, with neither VX nor VY
    being VF, gives back the screen of before the first draw, whatever
    the screen, the sprite and the position are. *)
Theorem draw_twice_restores_screen (s : Chip8CPU) (opcode : Z) :
  Z.land opcode 0x0f00 ≫ 8 <> 0xf ->
  Z.land opcode 0x00f0 ≫ 4 <> 0xf ->
  length (v_registers s) = 16%nat ->
  screen_sized (screen s) ->
  (forall j, 0 <= j < Z.land opcode 0x000f ->
     - Z.of_nat (length (memory s)) <= i_register s + j
       < Z.of_nat (length (memory s))) ->
  exists s1 s2,
    OPDXYN_execute opcode s = Ok tt s1
    /\ OPDXYN_execute opcode s1 = Ok tt s2
    /\ screen s2 = screen s.
Proof.
  intros Hxf Hyf Hlen Hsized Hmem.
  pose proof (field_x_range opcode) as Hx.
  pose proof (field_y_range opcode) as Hy.
  destruct (OPDXYN_run s opcode Hlen Hsized Hmem)
    as (scr1 & f1 & Hrun1 & Hsized1 & _ & Hpix1).
  set (s1 := drawing s f1 scr1) in *.
  assert (Hlen1 : length (v_registers s1) = 16%nat)
    by (unfold s1, drawing; simpl; now rewrite length_insert).
  destruct (OPDXYN_run s1 opcode Hlen1 Hsized1 Hmem)
    as (scr2 & f2 & Hrun2 & Hsized2 & _ & Hpix2).
  exists s1, (drawing s1 f2 scr2).
  split; [exact Hrun1|]. split; [exact Hrun2|].
  change (screen (drawing s1 f2 scr2)) with scr2.
  apply screen_ext; [exact Hsized2|exact Hsized|].
  intros c r Hc Hr. rewrite Hpix2 by assumption.
  change (pixel s1) with (pixel_of scr1).
  change (i_register s1) with (i_register s).
  change (byte_at s1) with (byte_at s).
  unfold s1. rewrite !reg_drawing by assumption.
  destruct (Z.eqb_spec (Z.land opcode 0x0f00 ≫ 8) 15); [contradiction|].
  destruct (Z.eqb_spec (Z.land opcode 0x00f0 ≫ 4) 15); [contradiction|].
  rewrite Hpix1 by assumption.
  destruct (_ && _); [|reflexivity].
  rewrite Z.lxor_assoc, Z.lxor_nilpotent, Z.lxor_0_r. reflexivity.
Qed.

(** A glyph of the font drawn twice at (10, 20), over a screen that
    already shows something. *)
Lemma draw_twice_restores_screen_witness :
  let s := state_of (cycles 5 (booted [0xA2; 0x0C; 0xD0; 0x11; 0x60; 0x0A;
                                       0x61; 0x14; 0xA0; 0x05; 0x00; 0x00;
                                       0xFF])) in
  (Z.land 0xD015 0x0f00 ≫ 8 <> 0xf /\ Z.land 0xD015 0x00f0 ≫ 4 <> 0xf
   /\ length (v_registers s) = 16%nat /\ screen_sized (screen s)
   /\ forall j, 0 <= j < Z.land 0xD015 0x000f ->
        - Z.of_nat (length (memory s)) <= i_register s + j
          < Z.of_nat (length (memory s)))
  /\ exists s1 s2,
       OPDXYN_execute 0xD015 s = Ok tt s1
       /\ OPDXYN_execute 0xD015 s1 = Ok tt s2
       /\ screen s2 = screen s.
Proof.
  intros s.
  assert (H1 : Z.land 0xD015 0x0f00 ≫ 8 <> 0xf) by discriminate.
  assert (H2 : Z.land 0xD015 0x00f0 ≫ 4 <> 0xf) by discriminate.
  assert (H3 : length (v_registers s) = 16%nat) by (vm_compute; reflexivity).
  assert (H4 : screen_sized (screen s)).
  { split; [vm_compute; reflexivity|]. vm_compute. repeat constructor. }
  assert (H5 : forall j, 0 <= j < Z.land 0xD015 0x000f ->
            - Z.of_nat (length (memory s)) <= i_register s + j
              < Z.of_nat (length (memory s))).
  { intros j Hj. change (Z.land 0xD015 0x000f) with 5 in Hj.
    replace (length (memory s)) with 4096%nat by (vm_compute; reflexivity).
    replace (i_register s) with 5 by (vm_compute; reflexivity). lia. }
  split; [auto 10|].
  exact (draw_twice_restores_screen s 0xD015 H1 H2 H3 H4 H5).
Defined.

(** X15.  After a draw, VF is 1 exactly when some pixel that was 1 before
    the draw is 0 after it, and VF is 0 otherwise. *)
Theorem draw_flag_means_a_pixel_was_cleared (s : Chip8CPU) (opcode : Z) :
  length (v_registers s) = 16%nat ->
  screen_sized (screen s) ->
  (forall j, 0 <= j < Z.land opcode 0x000f ->
     - Z.of_nat (length (memory s)) <= i_register s + j
       < Z.of_nat (length (memory s))) ->
  exists s',
    OPDXYN_execute opcode s = Ok tt s'
    /\ (reg s' 0xf = 0 \/ reg s' 0xf = 1)
    /\ (reg s' 0xf = 1 <->
        exists c r, 0 <= c < 64 /\ 0 <= r < 32
                    /\ pixel s c r = 1 /\ pixel s' c r = 0).
Proof.
  intros Hlen Hsized Hmem.
  pose proof (field_n_range opcode) as Hn.
  destruct (OPDXYN_run s opcode Hlen Hsized Hmem)
    as (scr' & f & Hrun & _ & Hf & Hpix).
  set (vx := reg s (Z.land opcode 0x0f00 ≫ 8)) in *.
  set (vy := reg s (Z.land opcode 0x00f0 ≫ 4)) in *.
  set (n := Z.land opcode 0x000f) in *.
  exists (drawing s f scr'). split; [exact Hrun|].
  rewrite reg_drawing by (assumption || lia). simpl (15 =? 15).
  change (pixel (drawing s f scr')) with (pixel_of scr').
  split; [destruct f; auto|].
  assert (Hflag : Z.b2z f = 1 <-> f = true) by (destruct f; simpl; split; congruence).
  rewrite Hflag, Hf. split.
  - intros (j & k & Hj & Hk & Hp & Hb).
    exists ((vx + k) mod 64), ((vy + j) mod 32).
    split; [apply Z.mod_pos_bound; lia|]. split; [apply Z.mod_pos_bound; lia|].
    split; [exact Hp|].
    rewrite Hpix by (apply Z.mod_pos_bound; lia).
    rewrite !wrap_back by lia.
    destruct (Z.ltb_spec j n); [|lia]. destruct (Z.ltb_spec k 8); [|lia].
    simpl. rewrite Hp, Hb. reflexivity.
  - intros (c & r & Hc & Hr & Hp & Hp').
    rewrite Hpix in Hp' by assumption.
    pose proof (Z.mod_pos_bound (r - vy) 32 ltac:(lia)) as Hj.
    pose proof (Z.mod_pos_bound (c - vx) 64 ltac:(lia)) as Hk.
    destruct (Z.ltb_spec ((r - vy) mod 32) n); simpl in Hp'; [|congruence].
    destruct (Z.ltb_spec ((c - vx) mod 64) 8); simpl in Hp'; [|congruence].
    exists ((r - vy) mod 32), ((c - vx) mod 64).
    split; [lia|]. split; [lia|].
    rewrite !wrap_forth by lia. split; [exact Hp|].
    rewrite Hp in Hp'.
    destruct (sprite_bit_is_bit
                (byte_at s (i_register s + (r - vy) mod 32)) ((c - vx) mod 64))
      as [Hbit0|Hbit1]; [|exact Hbit1].
    rewrite Hbit0 in Hp'. discriminate.
Qed.

(** The second draw of the row 0xFF at (0, 0). *)
Lemma draw_flag_means_a_pixel_was_cleared_witness :
  let s := state_of (cycles 2 (booted [0xA2; 0x06; 0xD0; 0x11; 0xD0; 0x11; 0xFF])) in
  (length (v_registers s) = 16%nat /\ screen_sized (screen s)
   /\ forall j, 0 <= j < Z.land 0xD011 0x000f ->
        - Z.of_nat (length (memory s)) <= i_register s + j
          < Z.of_nat (length (memory s)))
  /\ exists s', OPDXYN_execute 0xD011 s = Ok tt s' /\ reg s' 0xf = 1.
Proof.
  intros s.
  assert (H1 : length (v_registers s) = 16%nat) by (vm_compute; reflexivity).
  assert (H2 : screen_sized (screen s)).
  { split; [vm_compute; reflexivity|]. vm_compute. repeat constructor. }
  assert (H3 : forall j, 0 <= j < Z.land 0xD011 0x000f ->
            - Z.of_nat (length (memory s)) <= i_register s + j
              < Z.of_nat (length (memory s))).
  { intros j Hj. change (Z.land 0xD011 0x000f) with 1 in Hj.
    replace (length (memory s)) with 4096%nat by (vm_compute; reflexivity).
    replace (i_register s) with 0x206 by (vm_compute; reflexivity). lia. }
  split; [auto|].
  destruct (draw_flag_means_a_pixel_was_cleared s 0xD011 H1 H2 H3)
    as (s' & Hrun & _ & Hiff).
  exists s'. split; [exact Hrun|]. apply Hiff.
  exists 0, 0. split; [lia|]. split; [lia|].
  assert (Hs' : s' = state_of (OPDXYN_execute 0xD011 s))
    by (rewrite Hrun; reflexivity).
  rewrite Hs'. vm_compute. split; reflexivity.
Defined.

(** X16.  A draw of one row or more whose first sprite byte cannot be
    read, I lying outside memory, raises [IndexError] when VF has already
    been set to 0 and before any pixel is touched. *)
Theorem draw_unreadable_sprite_raises (s : Chip8CPU) (opcode : Z) :
  length (v_registers s) = 16%nat ->
  0 < Z.land opcode 0x000f ->
  ~ (- Z.of_nat (length (memory s)) <= i_register s < Z.of_nat (length (memory s))) ->
  OPDXYN_execute opcode s
  = Raise IndexError (with_v_registers (<[15%nat := 0]> (v_registers s)) s).
Proof.
  intros Hlen Hn Hout.
  pose proof (field_x_range opcode) as Hx. pose proof (field_y_range opcode) as Hy.
  unfold OPDXYN_execute.
  rewrite (bind_Ok _ _ _ _ _ (get_v_Ok s Hlen _ Hx)).
  rewrite (bind_Ok _ _ _ _ _ (get_v_Ok s Hlen _ Hy)).
  rewrite (bind_Ok _ _ _ _ _ (eq_refl : gets i_register s = Ok (i_register s) s)).
  rewrite (bind_Ok _ _ _ _ _ (set_v_Ok s Hlen 0xf 0 ltac:(lia))).
  change (Z.to_nat 0xf) with 15%nat. cbv zeta.
  apply bind_Raise. unfold range. rewrite seqZ_cons by lia.
  simpl for_loop. apply bind_Raise. unfold draw_row. apply bind_Raise.
  apply get_mem_Raise. simpl. rewrite Z.add_0_r. exact Hout.
Qed.

(** I = 5100, reached through [OPFX29] from V0 = 1020. *)
Lemma draw_unreadable_sprite_raises_witness :
  let s := state_of (cycles 5 (booted [0x60; 0xFF; 0x70; 0xFF; 0x70; 0xFF;
                                       0x70; 0xFF; 0xF0; 0x29])) in
  (length (v_registers s) = 16%nat /\ 0 < Z.land 0xD125 0x000f
   /\ ~ (- Z.of_nat (length (memory s)) <= i_register s
         < Z.of_nat (length (memory s))))
  /\ exists s', OPDXYN_execute 0xD125 s = Raise IndexError s'
                /\ screen s' = screen s.
Proof.
  intros s.
  assert (H1 : length (v_registers s) = 16%nat) by (vm_compute; reflexivity).
  assert (H2 : 0 < Z.land 0xD125 0x000f) by reflexivity.
  assert (H3 : ~ (- Z.of_nat (length (memory s)) <= i_register s
                  < Z.of_nat (length (memory s)))).
  { replace (length (memory s)) with 4096%nat by (vm_compute; reflexivity).
    replace (i_register s) with 5100 by (vm_compute; reflexivity). lia. }
  split; [auto|]. eexists. split.
  - exact (draw_unreadable_sprite_raises s 0xD125 H1 H2 H3).
  - reflexivity.
Defined.

(** * Bytes *)

Lemma byte_land_r (a b : Z) : is_byte b -> is_byte (Z.land a b).
Proof.
  intros [Hb0 Hb1]. unfold is_byte.
  assert (Hn : 0 <= Z.land a b) by (apply Z.land_nonneg; now right).
  split; [exact Hn|]. change 256 with (2 ^ 8).
  apply Z.bounded_iff_bits_nonneg; [lia|exact Hn|].
  intros l Hl. rewrite Z.land_spec.
  rewrite (proj1 (Z.bounded_iff_bits_nonneg 8 b ltac:(lia) Hb0) Hb1 l Hl).
  apply andb_false_r.
Qed.

Lemma byte_lor (a b : Z) : is_byte a -> is_byte b -> is_byte (Z.lor a b).
Proof.
  intros [Ha0 Ha1] [Hb0 Hb1]. unfold is_byte.
  assert (Hn : 0 <= Z.lor a b) by (apply Z.lor_nonneg; now split).
  split; [exact Hn|]. change 256 with (2 ^ 8).
  apply Z.bounded_iff_bits_nonneg; [lia|exact Hn|].
  intros l Hl. rewrite Z.lor_spec.
  rewrite (proj1 (Z.bounded_iff_bits_nonneg 8 a ltac:(lia) Ha0) Ha1 l Hl).
  rewrite (proj1 (Z.bounded_iff_bits_nonneg 8 b ltac:(lia) Hb0) Hb1 l Hl).
  reflexivity.
Qed.

Lemma byte_lxor (a b : Z) : is_byte a -> is_byte b -> is_byte (Z.lxor a b).
Proof.
  intros [Ha0 Ha1] [Hb0 Hb1]. unfold is_byte.
  assert (Hn : 0 <= Z.lxor a b) by (apply Z.lxor_nonneg; tauto).
  split; [exact Hn|]. change 256 with (2 ^ 8).
  apply Z.bounded_iff_bits_nonneg; [lia|exact Hn|].
  intros l Hl. rewrite Z.lxor_spec.
  rewrite (proj1 (Z.bounded_iff_bits_nonneg 8 a ltac:(lia) Ha0) Ha1 l Hl).
  rewrite (proj1 (Z.bounded_iff_bits_nonneg 8 b ltac:(lia) Hb0) Hb1 l Hl).
  reflexivity.
Qed.

Lemma py_getslice_Forall {A} (P : A -> Prop) (l : list A) (a b : Z) :
  Forall P l -> Forall P (py_getslice l a b).
Proof. intros Hl. unfold py_getslice. now apply Forall_take, Forall_drop. Qed.

Lemma py_setslice_Forall {A} (P : A -> Prop) (l new : list A) (a b : Z) :
  Forall P l -> Forall P new -> Forall P (py_setslice l a b new).
Proof.
  intros Hl Hnew. unfold py_setslice.
  rewrite !Forall_app. repeat split;
    [now apply Forall_take|exact Hnew|now apply Forall_drop].
Qed.

Lemma get_v_keeps_bytes (x : Z) : keeps bytes_ok (get_v x) is_byte.
Proof.
  intros s Hs. pose proof Hs as (Hv & Hm & Hd).
  unfold get_v, bind, gets, lift_index.
  destruct (py_getitem (v_registers s) x) as [vx|] eqn:Hvx; simpl;
    [|exact Hs].
  split; [exact Hs|]. exact (py_getitem_Forall _ _ _ _ Hv Hvx).
Qed.

Lemma set_v_keeps_bytes (x val : Z) :
  is_byte val -> keeps bytes_ok (set_v x val) (fun _ => True).
Proof.
  intros Hval s Hs. pose proof Hs as (Hv & Hm & Hd).
  unfold set_v, bind, gets, lift_index.
  destruct (py_setitem (v_registers s) x val) as [v'|] eqn:Hv'; simpl;
    [|exact Hs].
  split; [|exact I]. split; [|exact (conj Hm Hd)].
  exact (py_setitem_Forall _ _ _ _ _ Hv Hval Hv').
Qed.

Lemma set_mem_keeps_bytes (a val : Z) :
  is_byte val -> keeps bytes_ok (set_mem a val) (fun _ => True).
Proof.
  intros Hval s Hs. pose proof Hs as (Hv & Hm & Hd).
  unfold set_mem, bind, gets, lift_index.
  destruct (py_setitem (memory s) a val) as [m'|] eqn:Hm'; simpl;
    [|exact Hs].
  split; [|exact I]. split; [exact Hv|]. split; [|exact Hd].
  exact (py_setitem_Forall _ _ _ _ _ Hm Hval Hm').
Qed.

Ltac read_v :=
  apply keeps_bind with (mid := is_byte); [apply get_v_keeps_bytes|intros ? ?].
Ltac and_then :=
  apply keeps_bind with (mid := fun _ => True); [|intros _ _].
Ltac and_bind :=
  apply keeps_bind with (mid := fun _ => True); [|intros ? _].
Ltac byte_by_lia :=
  unfold is_byte in *;
  repeat match goal with
         | |- context [if ?b then _ else _] => destruct b
         end; lia.

(** X17.  Every instruction other than [OP7XNN] and [OP8XYE], however it
    ends, leaves bytes in all registers, in all of memory and in the
    delay timer when they held bytes before: a register can leave the
    range 0..255 only through the addition of [OP7XNN] or the left shift
    of [OP8XYE]. *)
Theorem only_add_and_shift_left_leave_bytes
        (ins : Instruction) (opcode : Z) (s : Chip8CPU) :
  ins <> OP7XNN -> ins <> OP8XYE ->
  bytes_ok s ->
  bytes_ok (state_of (Instruction_execute ins opcode s)).
Proof.
  intros H7 HE. apply keeps_state_of with (post := fun _ => True).
  destruct ins; try contradiction; simpl Instruction_execute;
    try (keeps_auto; fail).
  - (* OP6XNN *) apply set_v_keeps_bytes, byte_land_r. unfold is_byte. lia.
  - (* OP8XY0 *) unfold OP8XY0_execute. read_v. now apply set_v_keeps_bytes.
  - (* OP8XY1 *) unfold OP8XY1_execute. read_v. read_v.
    now apply set_v_keeps_bytes, byte_lor.
  - (* OP8XY2 *) unfold OP8XY2_execute. read_v. read_v.
    now apply set_v_keeps_bytes, byte_land_r.
  - (* OP8XY3 *) unfold OP8XY3_execute. read_v. read_v.
    now apply set_v_keeps_bytes, byte_lxor.
  - (* OP8XY4 *) unfold OP8XY4_execute. read_v. read_v. cbv zeta. and_then.
    + apply set_v_keeps_bytes. unfold is_byte.
      match goal with |- context [?r mod 255] =>
        pose proof (Z.mod_pos_bound r 255 ltac:(lia)) end. lia.
    + apply set_v_keeps_bytes. byte_by_lia.
  - (* OP8XY5 *) unfold OP8XY5_execute. read_v. read_v. cbv zeta.
    destruct (Z.ltb_spec (a - a0) 0); and_then;
      apply set_v_keeps_bytes; byte_by_lia.
  - (* OP8XY6 *) unfold OP8XY6_execute. read_v. cbv zeta. and_then.
    + apply set_v_keeps_bytes, byte_land_r. unfold is_byte. lia.
    + apply set_v_keeps_bytes. unfold is_byte in *.
      rewrite Z.shiftr_div_pow2 by lia.
      split; [apply Z.div_pos; lia|apply Z.div_lt_upper_bound; lia].
  - (* OP8XY7 *) unfold OP8XY7_execute. read_v. read_v. cbv zeta.
    destruct (Z.ltb_spec (a0 - a) 0); and_then;
      apply set_v_keeps_bytes; byte_by_lia.
  - (* OPCXNN *) unfold OPCXNN_execute. cbv zeta.
    apply keeps_bind with (mid := fun _ => True); [keeps_auto|intros rnd _].
    apply set_v_keeps_bytes, byte_land_r, byte_land_r. unfold is_byte. lia.
  - (* OPDXYN *) unfold OPDXYN_execute, draw_row, draw_pixel. cbv zeta.
    read_v. read_v. and_bind; [keeps_auto|]. and_then.
    { apply set_v_keeps_bytes. unfold is_byte. lia. }
    and_then; [|keeps_auto].
    apply keeps_for_loop; [intros yc yo _|exact I].
    and_bind; [keeps_auto|]. and_then; [|keeps_auto].
    apply keeps_for_loop; [intros xc [yc' xo] _|exact I].
    and_bind; [keeps_auto|]. and_then.
    { destruct (_ && _); [|keeps_auto].
      apply set_v_keeps_bytes. unfold is_byte. lia. }
    keeps_auto.
  - (* OPFX07 *) unfold OPFX07_execute.
    apply keeps_bind with (mid := is_byte).
    + apply keeps_gets. now intros t (_ & _ & Hd).
    + intros dt Hdt. now apply set_v_keeps_bytes.
  - (* OPFX0A *) unfold OPFX0A_execute.
    apply keeps_bind with (mid := is_byte).
    + unfold randint. and_bind; [keeps_auto|].
      match goal with |- keeps _ (match ?e with _ => _ end) _ => destruct e end.
      * apply keeps_ret. unfold is_byte. lia.
      * and_then; [keeps_auto|]. apply keeps_ret. unfold is_byte.
        match goal with |- context [?r mod ?m] =>
          pose proof (Z.mod_pos_bound r m ltac:(lia)) end. lia.
    + intros rnd Hrnd. now apply set_v_keeps_bytes.
  - (* OPFX1E *) unfold OPFX1E_execute. read_v. cbv zeta.
    and_bind; [keeps_auto|]. and_then; [|keeps_auto].
    apply set_v_keeps_bytes. byte_by_lia.
  - (* OPFX33 *) unfold OPFX33_execute, floor_div. read_v.
    assert (Hh : 0 <= a / 100 <= 2).
    { unfold is_byte in *. split; [apply Z.div_pos; lia|].
      apply Z.lt_succ_r, Z.div_lt_upper_bound; lia. }
    assert (Hr : 0 <= a - a / 100 * 100 < 100).
    { pose proof (Z.mod_pos_bound a 100 ltac:(lia)) as Hmod.
      rewrite Z.mod_eq in Hmod by lia. lia. }
    assert (Ht : 0 <= (a - a / 100 * 100) / 10 <= 9).
    { split; [apply Z.div_pos; lia|].
      apply Z.lt_succ_r, Z.div_lt_upper_bound; lia. }
    assert (Hu : 0 <= a - a / 100 * 100 - (a - a / 100 * 100) / 10 * 10 < 10).
    { pose proof (Z.mod_pos_bound (a - a / 100 * 100) 10 ltac:(lia)) as Hmod.
      rewrite Z.mod_eq in Hmod by lia. lia. }
    rewrite (proj1 (true_div_floor_below_1000 a ltac:(unfold is_byte in *; lia))).
    apply keeps_bind with (mid := fun h => h = a / 100);
      [now apply keeps_ret|intros ? ->]. cbv zeta.
    rewrite (proj2 (true_div_floor_below_1000 (a - a / 100 * 100) ltac:(lia))).
    apply keeps_bind with (mid := fun t => t = (a - a / 100 * 100) / 10);
      [now apply keeps_ret|intros ? ->]. cbv zeta.
    and_bind; [keeps_auto|].
    and_then; [apply set_mem_keeps_bytes; unfold is_byte; lia|].
    and_then; apply set_mem_keeps_bytes; unfold is_byte; lia.
  - (* OPFX55 *) unfold OPFX55_execute. cbv zeta.
    intros t (Hv & Hm & Hd). simpl. split; [|exact I].
    split; [exact Hv|]. split; [|exact Hd].
    now apply py_setslice_Forall, py_getslice_Forall.
  - (* OPFX65 *) unfold OPFX65_execute. cbv zeta.
    intros t (Hv & Hm & Hd). simpl. split; [|exact I].
    split; [|split; [exact Hm|exact Hd]].
    now apply py_setslice_Forall, py_getslice_Forall.
Qed.

(** An addition with carry on a fresh CPU. *)
Lemma only_add_and_shift_left_leave_bytes_witness :
  let s := with_v_registers [200; 100; 0; 0; 0; 0; 0; 0; 0; 0; 0; 0; 0; 0; 0; 0]
             (state_of (Chip8CPU_init [])) in
  (OP8XY4 <> OP7XNN /\ OP8XY4 <> OP8XYE /\ bytes_ok s)
  /\ bytes_ok (state_of (Instruction_execute OP8XY4 0x8014 s)).
Proof.
  intros s.
  assert (H1 : OP8XY4 <> OP7XNN) by discriminate.
  assert (H2 : OP8XY4 <> OP8XYE) by discriminate.
  assert (H3 : bytes_ok s).
  { split; [|split].
    - simpl. repeat constructor; unfold is_byte; lia.
    - replace (memory s) with (character_sprites ++ replicate 4016 0)
        by (vm_compute; reflexivity).
      apply Forall_app. split.
      + unfold character_sprites. repeat constructor; unfold is_byte; lia.
      + apply Forall_replicate. unfold is_byte. lia.
    - simpl. unfold is_byte. lia. }
  split; [auto|].
  exact (only_add_and_shift_left_leave_bytes OP8XY4 0x8014 s H1 H2 H3).
Defined.

(** * What an instruction leaves alone *)

(** X18.  Memory is written by [OPFX33] and [OPFX55] only, the screen by
    [OP00E0] and [OPDXYN] only, the stack by [OP00EE] and [OP2NNN] only,
    and I by [OPANNN], [OPFX1E] and [OPFX29] only: every other
    instruction, however it ends, leaves them as they were. *)
Theorem instruction_footprint (ins : Instruction) (opcode : Z) (s : Chip8CPU) :
  let s' := state_of (Instruction_execute ins opcode s) in
  (ins <> OPFX33 -> ins <> OPFX55 -> memory s' = memory s)
  /\ (ins <> OP00E0 -> ins <> OPDXYN -> screen s' = screen s)
  /\ (ins <> OP00EE -> ins <> OP2NNN -> stack s' = stack s)
  /\ (ins <> OPANNN -> ins <> OPFX1E -> ins <> OPFX29 ->
      i_register s' = i_register s).
Proof.
  intros s'. unfold s'. repeat split.
  - intros H1 H2.
    apply (keeps_state_of (fun t => memory t = memory s)
             (Instruction_execute ins opcode) (fun _ => True)); [|reflexivity].
    destruct ins; try contradiction; simpl Instruction_execute; keeps_auto.
  - intros H1 H2.
    apply (keeps_state_of (fun t => screen t = screen s)
             (Instruction_execute ins opcode) (fun _ => True)); [|reflexivity].
    destruct ins; try contradiction; simpl Instruction_execute; keeps_auto.
  - intros H1 H2.
    apply (keeps_state_of (fun t => stack t = stack s)
             (Instruction_execute ins opcode) (fun _ => True)); [|reflexivity].
    destruct ins; try contradiction; simpl Instruction_execute; keeps_auto.
  - intros H1 H2 H3.
    apply (keeps_state_of (fun t => i_register t = i_register s)
             (Instruction_execute ins opcode) (fun _ => True)); [|reflexivity].
    destruct ins; try contradiction; simpl Instruction_execute; keeps_auto.
Qed.

(** A draw writes the screen and leaves memory, the stack and I. *)
Lemma instruction_footprint_witness :
  let s := state_of (cycles 1 (booted [0xA2; 0x06; 0xD0; 0x11; 0xD0; 0x11; 0xFF])) in
  let s' := state_of (Instruction_execute OPDXYN 0xD011 s) in
  (OPDXYN <> OPFX33 /\ OPDXYN <> OPFX55 /\ OPDXYN <> OP00EE /\ OPDXYN <> OP2NNN
   /\ OPDXYN <> OPANNN /\ OPDXYN <> OPFX1E /\ OPDXYN <> OPFX29)
  /\ memory s' = memory s /\ stack s' = stack s /\ i_register s' = i_register s.
Proof.
  intros s s'.
  split; [repeat split; discriminate|].
  destruct (instruction_footprint OPDXYN 0xD011 s) as (Hm & _ & Hst & Hi).
  split; [apply Hm; discriminate|].
  split; [apply Hst; discriminate|apply Hi; discriminate].
Defined.

(** * Keys *)

Lemma py_getitem_invalid {A} (l : list A) (i : Z) :
  ~ (- Z.of_nat (length l) <= i < Z.of_nat (length l)) ->
  py_getitem l i = None.
Proof.
  intros Hi. destruct (py_getitem l i) as [a|] eqn:Ha; [|reflexivity].
  exfalso. exact (Hi (py_getitem_Some_valid l i a Ha)).
Qed.

(** X19.  With all sixteen inputs at 0, as [reset_cpu] leaves them and
    no instruction changes them: for VX from -16 to 15, the skip on a
    pressed key ([OPEX9E]) does nothing and the skip on a key not pressed
    ([OPEXA1]) adds 2 to the program counter; for any other VX both raise
    [IndexError] and change nothing. *)
Theorem keys_are_never_pressed (s : Chip8CPU) (opcode : Z) :
  length (v_registers s) = 16%nat ->
  inputs s = replicate 16 0 ->
  let vx := reg s (Z.land opcode 0x0f00 ≫ 8) in
  (- 16 <= vx < 16 ->
   OPEX9E_execute opcode s = Ok tt s
   /\ OPEXA1_execute opcode s
      = Ok tt (with_program_counter (program_counter s + 2) s))
  /\ (~ (- 16 <= vx < 16) ->
      OPEX9E_execute opcode s = Raise IndexError s
      /\ OPEXA1_execute opcode s = Raise IndexError s).
Proof.
  intros Hlen Hinp vx.
  pose proof (field_x_range opcode) as Hx.
  assert (Hrun9 : OPEX9E_execute opcode s
                  = (key <- lift_index (py_getitem (replicate 16 0) vx) ;;
                     if key =? 1 then skip_next else ret tt) s).
  { unfold OPEX9E_execute.
    rewrite (bind_Ok _ _ _ _ _ (get_v_Ok s Hlen _ Hx)).
    unfold bind at 1, gets. now rewrite Hinp. }
  assert (HrunA : OPEXA1_execute opcode s
                  = (key <- lift_index (py_getitem (replicate 16 0) vx) ;;
                     if key =? 0 then skip_next else ret tt) s).
  { unfold OPEXA1_execute.
    rewrite (bind_Ok _ _ _ _ _ (get_v_Ok s Hlen _ Hx)).
    unfold bind at 1, gets. now rewrite Hinp. }
  rewrite Hrun9, HrunA. split.
  - intros Hvx.
    destruct (py_getitem_valid (replicate 16 0) vx) as [key Hkey];
      [rewrite length_replicate; lia|].
    assert (Hzero : key = 0).
    { symmetry.
      exact (py_getitem_Forall (eq 0) _ _ _ (Forall_replicate_eq 16 0) Hkey). }
    subst key. unfold bind, lift_index. rewrite Hkey. now split.
  - intros Hvx.
    rewrite (py_getitem_invalid (replicate 16 0) vx)
      by (rewrite length_replicate; exact Hvx).
    now split.
Qed.

(** The key 3 on a fresh CPU. *)
Lemma keys_are_never_pressed_witness :
  let s := with_v_registers [3; 0; 0; 0; 0; 0; 0; 0; 0; 0; 0; 0; 0; 0; 0; 0]
             (booted []) in
  (length (v_registers s) = 16%nat /\ inputs s = replicate 16 0
   /\ - 16 <= reg s 0 < 16)
  /\ OPEX9E_execute 0xE09E s = Ok tt s
  /\ OPEXA1_execute 0xE0A1 s = Ok tt (with_program_counter 0x202 s).
Proof.
  intros s.
  assert (H1 : length (v_registers s) = 16%nat) by reflexivity.
  assert (H2 : inputs s = replicate 16 0) by reflexivity.
  assert (H3 : - 16 <= reg s 0 < 16) by (vm_compute; split; [discriminate|reflexivity]).
  split; [auto|].
  split.
  - exact (proj1 (proj1 (keys_are_never_pressed s 0xE09E H1 H2) H3)).
  - exact (proj2 (proj1 (keys_are_never_pressed s 0xE0A1 H1 H2) H3)).
Defined.

(** * Block transfers inside memory *)

(** X20.  With sixteen registers and the cells I..I+X inside memory, the
    block store [OPFX55] replaces exactly these X + 1 cells by V0..VX
    (memory keeps its length and its other cells), and the block load
    [OPFX65] replaces exactly V0..VX by these cells (the registers stay
    sixteen and V(X+1)..VF stay as they were). *)
Theorem block_transfer_inside_memory (s : Chip8CPU) (opcode : Z) :
  let x := Z.to_nat (Z.land opcode 0x0f00 ≫ 8) in
  let i := Z.to_nat (i_register s) in
  let v := v_registers s in
  let m := memory s in
  length v = 16%nat ->
  0 <= i_register s ->
  (i + x < length m)%nat ->
  let m' := take i m ++ take (S x) v ++ drop (i + S x) m in
  let v' := take (S x) (drop i m) ++ drop (S x) v in
  OPFX55_execute opcode s = Ok tt (with_memory m' s)
  /\ OPFX65_execute opcode s = Ok tt (with_v_registers v' s)
  /\ length m' = length m /\ length v' = 16%nat.
Proof.
  intros x i v m Hlen Hi Hin m' v'. subst m' v' v m. cbv zeta.
  pose proof (field_x_range opcode) as Hx.
  set (X := Z.land opcode 0x0f00 ≫ 8) in *.
  assert (HX : Z.to_nat (X + 1) = S x) by (unfold x; lia).
  split; [|split; [|split]].
  - unfold OPFX55_execute, bind, gets, modify. fold X.
    rewrite py_getslice_prefix by lia.
    rewrite <- Z.add_assoc, py_setslice_inside by (unfold i in *; lia).
    rewrite HX. fold i.
    replace (Z.to_nat (i_register s + (X + 1))) with (i + S x)%nat
      by (unfold i, x; lia).
    reflexivity.
  - unfold OPFX65_execute, bind, gets, modify. fold X.
    assert (Hslice : py_getslice (memory s) (i_register s) (i_register s + X + 1)
                     = take (S x) (drop i (memory s))).
    { unfold py_getslice. rewrite !py_clip_nonneg by lia. fold i.
      replace (i `min` length (memory s))%nat with i by lia.
      replace (i `max` (Z.to_nat (i_register s + X + 1) `min` length (memory s)) - i)%nat
        with (S x) by (unfold i, x in *; lia).
      reflexivity. }
    rewrite Hslice.
    unfold py_setslice. rewrite !py_clip_nonneg by lia.
    replace (Z.to_nat 0 `min` length (v_registers s))%nat with 0%nat by lia.
    replace (0 `max` (Z.to_nat (X + 1) `min` length (v_registers s)))%nat
      with (S x) by (unfold x in *; lia).
    reflexivity.
  - rewrite !length_app, !length_take, length_drop.
    unfold x in *. lia.
  - rewrite length_app, length_take, !length_drop.
    unfold x in *. lia.
Qed.

(** V0..V2 stored at 0x300 and loaded from 0x000, where the font lies. *)
Lemma block_transfer_inside_memory_witness :
  let s := with_i_register 0x300
             (with_v_registers [1; 2; 3; 4; 5; 6; 7; 8; 9; 10; 11; 12; 13; 14; 15; 16]
                (booted [])) in
  (length (v_registers s) = 16%nat /\ 0 <= i_register s
   /\ (Z.to_nat (i_register s) + Z.to_nat (Z.land 0xF255 0x0f00 ≫ 8)
       < length (memory s))%nat)
  /\ exists s', OPFX55_execute 0xF255 s = Ok tt s'
                /\ byte_at s' 0x300 = 1 /\ byte_at s' 0x302 = 3
                /\ byte_at s' 0x303 = 0 /\ length (memory s') = 4096%nat.
Proof.
  intros s.
  assert (H1 : length (v_registers s) = 16%nat) by reflexivity.
  assert (H2 : 0 <= i_register s) by (vm_compute; discriminate).
  assert (H3 : (Z.to_nat (i_register s) + Z.to_nat (Z.land 0xF255 0x0f00 ≫ 8)
                < length (memory s))%nat) by (vm_compute; lia).
  split; [auto|].
  destruct (block_transfer_inside_memory s 0xF255 H1 H2 H3) as (Hst & _).
  eexists. split; [exact Hst|].
  vm_compute. repeat split; reflexivity.
Defined.

(** * Clearing, then drawing *)

(** X21.  After the clear-screen instruction a draw never reports a
    collision: VF is 0, the pixels the sprite covers show the sprite's
    bits, and every other pixel is 0. *)
Theorem draw_on_cleared_screen (s : Chip8CPU) (op0 opcode : Z) :
  let n := Z.land opcode 0x000f in
  let vx := reg s (Z.land opcode 0x0f00 ≫ 8) in
  let vy := reg s (Z.land opcode 0x00f0 ≫ 4) in
  let i := i_register s in
  length (v_registers s) = 16%nat ->
  (forall j, 0 <= j < n ->
     - Z.of_nat (length (memory s)) <= i + j < Z.of_nat (length (memory s))) ->
  exists s1 s2,
    OP00E0_execute op0 s = Ok tt s1
    /\ OPDXYN_execute opcode s1 = Ok tt s2
    /\ reg s2 0xf = 0
    /\ forall c r, 0 <= c < 64 -> 0 <= r < 32 ->
         pixel s2 c r =
         if ((r - vy) mod 32 <? n) && ((c - vx) mod 64 <? 8)
         then sprite_bit (byte_at s (i + (r - vy) mod 32)) ((c - vx) mod 64)
         else 0.
Proof.
  intros n vx vy i Hlen Hmem.
  set (s1 := with_screen blank_screen s).
  assert (Hblank : forall c r, 0 <= c < 64 -> 0 <= r < 32 -> pixel s1 c r = 0)
    by (intros c r Hc Hr; now apply pixel_of_blank_screen).
  destruct (OPDXYN_run s1 opcode Hlen blank_screen_sized Hmem)
    as (scr2 & f & Hrun & _ & Hf & Hpix).
  exists s1, (drawing s1 f scr2).
  split; [reflexivity|]. split; [exact Hrun|]. split.
  - rewrite reg_drawing by (assumption || lia). simpl (15 =? 15).
    destruct f; [|reflexivity].
    destruct (proj1 Hf eq_refl) as (j & k & _ & _ & Hp & _).
    rewrite Hblank in Hp by (apply Z.mod_pos_bound; lia). discriminate.
  - intros c r Hc Hr.
    change (pixel (drawing s1 f scr2) c r) with (pixel_of scr2 c r).
    rewrite Hpix, Hblank by assumption.
    change (reg s1) with (reg s). change (i_register s1) with i.
    change (byte_at s1) with (byte_at s). fold vx vy n.
    destruct (_ && _); [|reflexivity]. apply Z.lxor_0_l.
Qed.

(** The glyph of 0 drawn at (0, 0) right after a clear. *)
Lemma draw_on_cleared_screen_witness :
  let s := state_of (cycles 2 (booted [0xA2; 0x06; 0xD0; 0x11; 0xD0; 0x11; 0xFF])) in
  (length (v_registers s) = 16%nat
   /\ forall j, 0 <= j < Z.land 0xD015 0x000f ->
        - Z.of_nat (length (memory s)) <= i_register s + j
          < Z.of_nat (length (memory s)))
  /\ exists s1 s2,
       OP00E0_execute 0x00E0 s = Ok tt s1
       /\ OPDXYN_execute 0xD015 s1 = Ok tt s2
       /\ reg s2 0xf = 0.
Proof.
  intros s.
  assert (H1 : length (v_registers s) = 16%nat) by (vm_compute; reflexivity).
  assert (H2 : forall j, 0 <= j < Z.land 0xD015 0x000f ->
            - Z.of_nat (length (memory s)) <= i_register s + j
              < Z.of_nat (length (memory s))).
  { intros j Hj. change (Z.land 0xD015 0x000f) with 5 in Hj.
    replace (length (memory s)) with 4096%nat by (vm_compute; reflexivity).
    replace (i_register s) with 0x206 by (vm_compute; reflexivity). lia. }
  split; [auto|].
  destruct (draw_on_cleared_screen s 0x00E0 0xD015 H1 H2)
    as (s1 & s2 & Hclear & Hdraw & Hflag & _).
  exists s1, s2. auto.
Defined.

(** * The memory map of a started CPU *)

(** X22.  [Chip8CPU(...)] followed by [load_rom] of a ROM of at most 3584
    bytes returns, with memory laid out as: the 80 bytes of the character
    sprites, zeros up to 0x200, the ROM, zeros up to cell 4095; the
    program counter stands on the first byte of the ROM, and registers,
    stack, timers, inputs and screen are as [reset_cpu] leaves them. *)
Theorem boot_memory_map (tape rom : list Z) :
  (length rom <= 3584)%nat ->
  boot rom (blank tape)
  = Ok tt (mkCPU (character_sprites ++ replicate 432 0 ++ rom
                  ++ replicate (3584 - length rom) 0)
                 0x200 [] (replicate 16 0) 0 0 0 (replicate 16 0) blank_screen
                 None None tape).
Proof.
  intros Hfit. unfold boot.
  rewrite (bind_Ok _ _ _ _ _ (reset_cpu_forgets_the_state (blank tape))).
  assert (Hl : length (character_sprites ++ replicate 4016 0) = 4096%nat)
    by reflexivity.
  rewrite load_rom_copies_at_0x200 by (cbn [memory]; rewrite Hl; lia).
  unfold with_memory. cbn [memory program_counter stack v_registers i_register
    delay_timer sound_timer inputs screen OPFX15_delay_timer
    OPFX18_sound_timer entropy blank]. do 2 f_equal.
  change (character_sprites ++ replicate 4016 0)
    with ((character_sprites ++ replicate 432 0) ++ replicate 3584 0).
  rewrite (take_app_length' _ _ 512) by reflexivity.
  rewrite (drop_app_add' _ _ 512) by reflexivity.
  rewrite drop_replicate, <- app_assoc. reflexivity.
Qed.

(** A ROM of two bytes. *)
Lemma boot_memory_map_witness :
  (length [0x12; 0x00] <= 3584)%nat
  /\ exists s, boot [0x12; 0x00] (blank []) = Ok tt s
               /\ byte_at s 0 = 0xf0 /\ byte_at s 0x200 = 0x12
               /\ length (memory s) = 4096%nat.
Proof.
  assert (H : (length [0x12; 0x00] <= 3584)%nat) by (simpl; lia).
  split; [exact H|]. eexists. split.
  - exact (boot_memory_map [] [0x12; 0x00] H).
  - vm_compute. repeat split; reflexivity.
Defined.
